(** * Legal document analyzer: classification, prompt synthesis, reply parsing

    A shallow embedding of [google_legal_analyzer.py]
    (class [GoogleCloudLegalAnalyzer]) together with the properties of
    its classification -> template -> prompt -> parse pipeline.

    Conventions of the embedding.
    - A Python [str] is a list of Unicode code points ([pystr]); [len],
      slicing, [split], [join], [startswith] and [strip] are written out
      on that representation.
    - [str.lower] and [str.upper] depend on the Unicode case tables of
      the Python runtime; they are parameters of the development.
    - [json.loads] belongs to the Python standard library; the analyzer
      is parameterised by it, and a reference decoder following
      [json.decoder] is given in module [Json] for concrete runs.
    - The model service and the text extractor are external
      collaborators: the model is a transition on an arbitrary world
      state, and every prompt submitted to it is recorded.
    - Logging has no influence on results and is left out.
    - The text extraction (module [Extractor]) and the route
      [/api/analyze] (module [Api]) are embedded as well; the PDF and
      DOCX libraries, the file reader and the file system are their
      parameters, and [Path.suffix] is written out for POSIX paths. *)

From Stdlib Require Import String Ascii.
From Stdlib Require Import List NArith ZArith Arith Lia Bool.
Import ListNotations.

Set Implicit Arguments.
Set Warnings "-register-all,-abstract-large-number,-notation-for-abbreviation".

(* ===================================================================== *)
(** ** Python strings *)
(* ===================================================================== *)

Module Py.

(** A code point. *)
Definition char := N.

(** A Python [str]. *)
Definition pystr := list char.

(** The string with the characters of an ASCII literal. *)
Definition u (s : string) : pystr :=
  map N_of_ascii (list_ascii_of_string s).

Definition dquote : pystr := [34%N].
Definition newline : char := 10%N.

Fixpoint str_eqb (a b : pystr) : bool :=
  match a, b with
  | [], [] => true
  | x :: a', y :: b' => N.eqb x y && str_eqb a' b'
  | _, _ => false
  end.

(** [x in xs] for a list of strings. *)
Definition str_in (x : pystr) (xs : list pystr) : bool :=
  existsb (str_eqb x) xs.

(** [s.startswith(p)] *)
Fixpoint startswith (p s : pystr) : bool :=
  match p, s with
  | [], _ => true
  | x :: p', y :: s' => N.eqb x y && startswith p' s'
  | _ :: _, [] => false
  end.

(** [l[a:b]] for [0 <= a] and [0 <= b]. *)
Definition slice {A} (a b : nat) (l : list A) : list A :=
  firstn (b - a) (skipn a l).

(** [s[:-1]] *)
Definition drop_last {A} (l : list A) : list A := removelast l.

(** Code points that [str.strip()] removes: the characters for which
    [str.isspace] holds. *)
Definition isspace (c : char) : bool :=
  ((9 <=? c) && (c <=? 13) || (28 <=? c) && (c <=? 32)
   || (c =? 133) || (c =? 160) || (c =? 5760)
   || (8192 <=? c) && (c <=? 8202)
   || (c =? 8232) || (c =? 8233) || (c =? 8239) || (c =? 8287)
   || (c =? 12288))%N.

Fixpoint lstrip (s : pystr) : pystr :=
  match s with
  | [] => []
  | c :: s' => if isspace c then lstrip s' else s
  end.

Fixpoint rstrip (s : pystr) : pystr :=
  match s with
  | [] => []
  | c :: s' =>
      match rstrip s' with
      | [] => if isspace c then [] else [c]
      | r => c :: r
      end
  end.

(** [s.strip()] *)
Definition strip (s : pystr) : pystr := rstrip (lstrip s).

(** [s.split('\n')] *)
Fixpoint split_lines (s : pystr) : list pystr :=
  match s with
  | [] => [[]]
  | c :: s' =>
      if N.eqb c newline then [] :: split_lines s'
      else
        match split_lines s' with
        | l :: ls => (c :: l) :: ls
        | [] => [[c]]
        end
  end.

(** ['\n'.join(lines)] *)
Fixpoint join_lines (lines : list pystr) : pystr :=
  match lines with
  | [] => []
  | [l] => l
  | l :: rest => l ++ newline :: join_lines rest
  end.

(** [sep.join(parts)] *)
Fixpoint join_with (sep : pystr) (parts : list pystr) : pystr :=
  match parts with
  | [] => []
  | [p] => p
  | p :: rest => p ++ sep ++ join_with sep rest
  end.

(** Decimal rendering of a number, as ['%d'] prints it; [fuel] bounds
    the number of digits. *)
Fixpoint digits_of (fuel n : nat) (acc : pystr) : pystr :=
  match fuel with
  | O => acc
  | S fuel' =>
      let acc' := N.of_nat (48 + n mod 10) :: acc in
      if n / 10 =? 0 then acc' else digits_of fuel' (n / 10) acc'
  end.

Definition str_of_nat (n : nat) : pystr := digits_of (S n) n [].

End Py.

Export Py.

(* ===================================================================== *)
(** ** Python values, exceptions and outcomes *)
(* ===================================================================== *)

(** The values [json.loads] can return and the analyzer puts in its
    result.  A [dict] keeps its insertion order.  A float carries the
    text of its JSON literal. *)
Inductive pyval : Type :=
| PNone
| PBool (b : bool)
| PInt (z : Z)
| PFloat (literal : pystr)
| PStr (s : pystr)
| PList (items : list pyval)
| PDict (entries : list (pystr * pyval)).

(** Exceptions (all of them subclasses of Python's [Exception]). *)
Inductive exn : Type :=
| FileNotFoundError (msg : pystr)
| ValueError (msg : pystr)
| JSONDecodeError (msg doc : pystr) (pos : nat)
| IndexError (msg : pystr)
| TypeError (msg : pystr)
| RecursionError (msg : pystr)
| PlainException (msg : pystr)
| ServiceError (msg : pystr).

Inductive outcome (A : Type) : Type :=
| Ok (a : A)
| Raise (e : exn).

Arguments Ok {A} a.
Arguments Raise {A} e.

(** [d[key] = value] on a dict: an existing key keeps its place. *)
Fixpoint dict_set {V} (d : list (pystr * V)) (key : pystr) (value : V)
  : list (pystr * V) :=
  match d with
  | [] => [(key, value)]
  | (k, v) :: d' =>
      if str_eqb k key then (k, value) :: d'
      else (k, v) :: dict_set d' key value
  end.

(** [d.get(key)] *)
Fixpoint dict_get {V} (d : list (pystr * V)) (key : pystr) : option V :=
  match d with
  | [] => None
  | (k, v) :: d' => if str_eqb k key then Some v else dict_get d' key
  end.

(** [key in d] *)
Definition dict_mem {V} (d : list (pystr * V)) (key : pystr) : bool :=
  match dict_get d key with Some _ => true | None => false end.

(** [dict(pairs)] *)
Definition dict_of_pairs (pairs : list (pystr * pyval)) : list (pystr * pyval) :=
  fold_left (fun d kv => dict_set d (fst kv) (snd kv)) pairs [].

Definition is_dict (v : pyval) : bool :=
  match v with PDict _ => true | _ => false end.

(** [str(e)] for a [JSONDecodeError(msg, doc, pos)]:
    ['%s: line %d column %d (char %d)']. *)
Definition count_newlines (s : pystr) : nat :=
  length (filter (N.eqb newline) s).

(** [pos - doc.rfind('\n', 0, pos)] *)
Fixpoint colno_from (prefix_rev : pystr) : nat :=
  match prefix_rev with
  | [] => 1
  | c :: r => if N.eqb c newline then 1 else S (colno_from r)
  end.

Definition decode_error_str (msg doc : pystr) (pos : nat) : pystr :=
  let before := firstn pos doc in
  msg ++ u ": line " ++ str_of_nat (count_newlines before + 1)
      ++ u " column " ++ str_of_nat (colno_from (rev before))
      ++ u " (char " ++ str_of_nat pos ++ u ")".

(* ===================================================================== *)
(** ** Reference JSON decoder *)
(* ===================================================================== *)

(** [json.loads] on a [str], after CPython 3.11's [json.decoder] and
    its scanner: the same scanning order, the same messages and the
    same error positions.

    Two limits of the interpreter are part of it.

    - The recursion limit.  Every array and object the scanner enters
      takes one level of it, and so does every call the decoder makes
      on the way: the look-up of [NaN], [Infinity] and [-Infinity]
      (one call) and the construction of a [JSONDecodeError] (three
      nested calls: the class, its [__init__], [ValueError.__init__]).
      Where no level is left for one of these, [RecursionError] is
      raised instead.  [depth] is the number of levels left when the
      scanner is entered; [decode] has one level more, since
      [raw_decode] calls the scanner, and two levels more where it
      checks for extra data.
    - The limit on the digits of an integer ([max_str_digits]): a
      longer integer literal raises [ValueError].

    Neither exception is a [JSONDecodeError].

    The scanner recurses on [fuel]; [loads_within] supplies two units
    per character, which is never used up (lemma [loads_total]). *)
Module Json.

Inductive scan (A : Type) : Type :=
| Scanned (v : A) (end_ : nat)
| StopIteration (idx : nat)
| Failed (e : exn)
| Exhausted.

Arguments Scanned {A} v end_.
Arguments StopIteration {A} idx.
Arguments Failed {A} e.
Arguments Exhausted {A}.

Definition ch (a : ascii) : char := N_of_ascii a.

(** [WHITESPACE_STR = ' \t\n\r'] *)
Definition is_ws (c : char) : bool :=
  ((c =? 32) || (c =? 9) || (c =? 10) || (c =? 13))%N.

Fixpoint skip_ws (rest : pystr) (idx : nat) : nat :=
  match rest with
  | c :: r => if is_ws c then skip_ws r (S idx) else idx
  | [] => idx
  end.

(** [WHITESPACE.match(s, idx).end()] *)
Definition ws_end (s : pystr) (idx : nat) : nat := skip_ws (skipn idx s) idx.

(** [s[idx:idx+1] == c] *)
Definition char_is (s : pystr) (idx : nat) (c : char) : bool :=
  match nth_error s idx with
  | Some c' => N.eqb c' c
  | None => false
  end.

(** [s[idx:idx+len(w)] == w] *)
Definition word_at (s : pystr) (idx : nat) (w : pystr) : bool :=
  str_eqb (slice idx (idx + length w) s) w.

Definition is_digit (c : char) : bool := ((48 <=? c) && (c <=? 57))%N.

Definition hex_value (c : char) : option N :=
  if is_digit c then Some (c - 48)%N
  else if ((97 <=? c) && (c <=? 102))%N then Some (c - 87)%N
  else if ((65 <=? c) && (c <=? 70))%N then Some (c - 55)%N
  else None.

(** The four hex digits at [s[idx:idx+4]], most significant first. *)
Definition hex4 (s : pystr) (idx : nat) : option N :=
  match slice idx (idx + 4) s with
  | [a; b; c; d] =>
      match hex_value a, hex_value b, hex_value c, hex_value d with
      | Some x, Some y, Some z, Some w =>
          Some (((x * 16 + y) * 16 + z) * 16 + w)%N
      | _, _, _, _ => None
      end
  | _ => None
  end.

(** [BACKSLASH] *)
Definition backslash (c : char) : option char :=
  if (c =? 34)%N then Some 34%N
  else if (c =? 92)%N then Some 92%N
  else if (c =? 47)%N then Some 47%N
  else if N.eqb c (ch "b") then Some 8%N
  else if N.eqb c (ch "f") then Some 12%N
  else if N.eqb c (ch "n") then Some 10%N
  else if N.eqb c (ch "r") then Some 13%N
  else if N.eqb c (ch "t") then Some 9%N
  else None.

Definition is_high_surrogate (c : N) : bool := ((55296 <=? c) && (c <=? 56319))%N.
Definition is_low_surrogate (c : N) : bool := ((56320 <=? c) && (c <=? 57343))%N.
Definition join_surrogates (hi lo : N) : N :=
  (65536 + ((hi - 55296) * 1024 + (lo - 56320)))%N.

(** The messages of [RecursionError]: of a Python frame, of a call
    from C, and of the scanner where it enters a [container], an
    ["array"] or an ["object"]. *)
Definition frame_message : pystr := u "maximum recursion depth exceeded".

Definition call_message : pystr :=
  u "maximum recursion depth exceeded while calling a Python object".

Definition recursion_message (container : string) : pystr :=
  u "maximum recursion depth exceeded while decoding a JSON "
    ++ u container ++ u " from a unicode string".

Definition recursion_error {A} (container : string) : scan A :=
  Failed (RecursionError (recursion_message container)).

(** [JSONDecodeError(msg, s, pos)] raised where [levels] levels are
    left: the call of the class takes the first, the frame of its
    [__init__] the second, the call of [ValueError.__init__] the
    third. *)
Definition decode_exn (levels : nat) (msg : string) (s : pystr) (pos : nat)
  : exn :=
  match levels with
  | 0 => RecursionError call_message
  | 1 => RecursionError frame_message
  | 2 => RecursionError call_message
  | _ => JSONDecodeError (u msg) s pos
  end.

Definition decode_error {A} (levels : nat) (msg : string) (s : pystr)
           (pos : nat) : scan A :=
  Failed (decode_exn levels msg s pos).

(** [scanstring(s, end, strict=True)]: [next] is the index being read,
    [begin] the index of the opening quote, [acc] the characters decoded
    so far, last first, [levels] the levels of the recursion limit that
    are left. *)
Fixpoint scanstring_from (fuel levels : nat) (s : pystr) (begin next : nat)
         (acc : pystr) : scan pystr :=
  match fuel with
  | O => decode_error levels "Unterminated string starting at" s begin
  | S fuel' =>
      match nth_error s next with
      | None => decode_error levels "Unterminated string starting at" s begin
      | Some c =>
          if (c =? 34)%N then Scanned (rev acc) (S next)
          else if (c =? 92)%N then
            match nth_error s (S next) with
            | None => decode_error levels "Unterminated string starting at" s begin
            | Some e =>
                if N.eqb e (ch "u") then
                  let h := next + 2 in
                  let end_ := h + 4 in
                  if length s <=? end_ then
                    decode_error levels "Invalid \uXXXX escape" s (h - 1)
                  else
                    match hex4 s h with
                    | None => decode_error levels "Invalid \uXXXX escape" s (end_ - 5)
                    | Some c1 =>
                        if is_high_surrogate c1 && (end_ + 6 <? length s)
                           && char_is s end_ 92%N
                           && char_is s (S end_) (ch "u")
                        then
                          match hex4 s (end_ + 2) with
                          | None =>
                              decode_error levels "Invalid \uXXXX escape" s (end_ + 6 - 5)
                          | Some c2 =>
                              if is_low_surrogate c2 then
                                scanstring_from fuel' levels s begin (end_ + 6)
                                  (join_surrogates c1 c2 :: acc)
                              else
                                scanstring_from fuel' levels s begin end_ (c1 :: acc)
                          end
                        else scanstring_from fuel' levels s begin end_ (c1 :: acc)
                    end
                else
                  match backslash e with
                  | Some c' => scanstring_from fuel' levels s begin (next + 2) (c' :: acc)
                  | None => decode_error levels "Invalid \escape" s next
                  end
            end
          else if (c <=? 31)%N then
            decode_error levels "Invalid control character at" s next
          else scanstring_from fuel' levels s begin (S next) (c :: acc)
      end
  end.

Definition scanstring (levels : nat) (s : pystr) (end_ : nat) : scan pystr :=
  scanstring_from (S (length s)) levels s (end_ - 1) end_ [].

(** Longest run of ASCII digits from [idx]. *)
Fixpoint take_digits (rest : pystr) : pystr :=
  match rest with
  | c :: r => if is_digit c then c :: take_digits r else []
  | [] => []
  end.

Definition digits_at (s : pystr) (idx : nat) : pystr := take_digits (skipn idx s).

(** [NUMBER_RE.match(s, idx)]: an optional minus sign followed by [0] or
    by a digit run not starting with [0]; then, optionally, a dot and a
    digit run; then, optionally, [e] or [E], an optional sign and a digit
    run.  The result gives the three groups (an absent group is empty)
    and the end of the match. *)
Definition match_number (s : pystr) (idx : nat)
  : option (pystr * pystr * pystr * nat) :=
  let sign := if char_is s idx (ch "-") then [ch "-"] else [] in
  let i0 := idx + length sign in
  let int_digits :=
    if char_is s i0 (ch "0") then [ch "0"] else digits_at s i0 in
  match int_digits with
  | [] => None
  | _ =>
      let integer := sign ++ int_digits in
      let i1 := i0 + length int_digits in
      let frac :=
        if char_is s i1 (ch ".") then
          match digits_at s (S i1) with
          | [] => []
          | ds => ch "." :: ds
          end
        else [] in
      let i2 := i1 + length frac in
      let exp :=
        if char_is s i2 (ch "e") || char_is s i2 (ch "E") then
          let sg :=
            if char_is s (S i2) (ch "+") then [ch "+"]
            else if char_is s (S i2) (ch "-") then [ch "-"] else [] in
          match digits_at s (S i2 + length sg) with
          | [] => []
          | ds =>
              match nth_error s i2 with
              | Some e => e :: sg ++ ds
              | None => []
              end
          end
        else [] in
      Some (integer, frac, exp, i2 + length exp)
  end.

(** [int(text)] for the integer group of a number. *)
Definition nat_of_digits (ds : pystr) : N :=
  fold_left (fun acc c => (acc * 10 + (c - 48))%N) ds 0%N.

Definition parse_int (integer : pystr) : Z :=
  match integer with
  | c :: ds =>
      if N.eqb c (ch "-") then Z.opp (Z.of_N (nat_of_digits ds))
      else Z.of_N (nat_of_digits integer)
  | [] => 0%Z
  end.

(** [sys.get_int_max_str_digits()], by default. *)
Definition max_str_digits : nat := 4300.

(** The digits of the integer group of a number, its sign apart. *)
Definition digit_count (integer : pystr) : nat :=
  match integer with
  | c :: ds => if N.eqb c (ch "-") then length ds else length integer
  | [] => 0
  end.

(** The [ValueError] of [int(text)] for a text of [digits] digits, more
    than [max_str_digits]. *)
Definition int_limit_message (digits : nat) : pystr :=
  u "Exceeds the limit (" ++ str_of_nat max_str_digits
    ++ u " digits) for integer string conversion: value has "
    ++ str_of_nat digits
    ++ u " digits; use sys.set_int_max_str_digits() to increase the limit".

Definition int_limit_error {A} (digits : nat) : scan A :=
  Failed (ValueError (int_limit_message digits)).

(** [parse_constant(name)], a call. *)
Definition constant {A} (levels : nat) (value : A) (end_ : nat) : scan A :=
  match levels with
  | O => Failed (RecursionError call_message)
  | S _ => Scanned value end_
  end.

(** The scanner ([scan_once], with the parsers of objects and arrays).
    [object_loop] and [array_loop] are the bodies of their loops;
    [pairs] and [values] hold what has been read so far.  A
    [StopIteration] of a nested value goes up to [decode] as it is. *)
Fixpoint scan_once (fuel depth : nat) (s : pystr) (idx : nat) {struct fuel}
  : scan pyval :=
  match nth_error s idx with
  | None => StopIteration idx
  | Some nextchar =>
      if (nextchar =? 34)%N then
        match scanstring depth s (idx + 1) with
        | Scanned str e => Scanned (PStr str) e
        | StopIteration i => StopIteration i
        | Failed e => Failed e
        | Exhausted => Exhausted
        end
      else if N.eqb nextchar (ch "{") then
        match depth with
        | O => recursion_error "object"
        | S depth' =>
            match fuel with
            | O => Exhausted
            | S fuel' =>
                let end_ := idx + 1 in
                if char_is s end_ 34%N then
                  object_loop fuel' depth' s (end_ + 1) []
                else
                  let end1 := ws_end s end_ in
                  if char_is s end1 (ch "}") then Scanned (PDict []) (end1 + 1)
                  else if char_is s end1 34%N then
                    object_loop fuel' depth' s (end1 + 1) []
                  else
                    decode_error depth'
                      "Expecting property name enclosed in double quotes" s end1
            end
        end
      else if N.eqb nextchar (ch "[") then
        match depth with
        | O => recursion_error "array"
        | S depth' =>
            match fuel with
            | O => Exhausted
            | S fuel' =>
                let end1 := ws_end s (idx + 1) in
                if char_is s end1 (ch "]") then Scanned (PList []) (end1 + 1)
                else array_loop fuel' depth' s end1 []
            end
        end
      else if N.eqb nextchar (ch "n") && word_at s idx (u "null") then
        Scanned PNone (idx + 4)
      else if N.eqb nextchar (ch "t") && word_at s idx (u "true") then
        Scanned (PBool true) (idx + 4)
      else if N.eqb nextchar (ch "f") && word_at s idx (u "false") then
        Scanned (PBool false) (idx + 5)
      else
        match match_number s idx with
        | Some (integer, frac, exp, e) =>
            match frac ++ exp with
            | [] =>
                if max_str_digits <? digit_count integer then
                  int_limit_error (digit_count integer)
                else Scanned (PInt (parse_int integer)) e
            | _ => Scanned (PFloat (integer ++ frac ++ exp)) e
            end
        | None =>
            if N.eqb nextchar (ch "N") && word_at s idx (u "NaN") then
              constant depth (PFloat (u "NaN")) (idx + 3)
            else if N.eqb nextchar (ch "I") && word_at s idx (u "Infinity") then
              constant depth (PFloat (u "Infinity")) (idx + 8)
            else if N.eqb nextchar (ch "-") && word_at s idx (u "-Infinity") then
              constant depth (PFloat (u "-Infinity")) (idx + 9)
            else StopIteration idx
        end
  end

with object_loop (fuel depth : nat) (s : pystr) (end_ : nat)
       (pairs : list (pystr * pyval)) {struct fuel} : scan pyval :=
  match scanstring depth s end_ with
  | StopIteration i => StopIteration i
  | Failed e => Failed e
  | Exhausted => Exhausted
  | Scanned key e1 =>
      let e2 := if char_is s e1 (ch ":") then e1 else ws_end s e1 in
      if negb (char_is s e2 (ch ":")) then
        decode_error depth "Expecting ':' delimiter" s e2
      else
        let e3 := ws_end s (e2 + 1) in
        match fuel with
        | O => Exhausted
        | S fuel' =>
            match scan_once fuel' depth s e3 with
            | StopIteration i => StopIteration i
            | Failed e => Failed e
            | Exhausted => Exhausted
            | Scanned value e4 =>
                let pairs' := pairs ++ [(key, value)] in
                let e5 := ws_end s e4 in
                if char_is s e5 (ch "}") then
                  Scanned (PDict (dict_of_pairs pairs')) (e5 + 1)
                else if negb (char_is s e5 (ch ",")) then
                  decode_error depth "Expecting ',' delimiter" s e5
                else
                  let e6 := ws_end s (e5 + 1) in
                  if char_is s e6 34%N then
                    object_loop fuel' depth s (e6 + 1) pairs'
                  else
                    decode_error depth
                      "Expecting property name enclosed in double quotes" s e6
            end
        end
  end

with array_loop (fuel depth : nat) (s : pystr) (end_ : nat)
       (values : list pyval) {struct fuel} : scan pyval :=
  match fuel with
  | O => Exhausted
  | S fuel' =>
      match scan_once fuel' depth s end_ with
      | StopIteration i => StopIteration i
      | Failed e => Failed e
      | Exhausted => Exhausted
      | Scanned value e1 =>
          let values' := values ++ [value] in
          let e2 := ws_end s e1 in
          if char_is s e2 (ch "]") then Scanned (PList values') (e2 + 1)
          else if negb (char_is s e2 (ch ",")) then
            decode_error depth "Expecting ',' delimiter" s e2
          else array_loop fuel' depth s (ws_end s (e2 + 1)) values'
      end
  end.

(** [JSONDecoder.decode] with [raw_decode], which turns the
    [StopIteration] of the scanner into the "Expecting value" error.
    The last case stands for a scanner out of fuel. *)
Definition decode (fuel depth : nat) (s : pystr) : outcome pyval :=
  match scan_once fuel depth s (ws_end s 0) with
  | StopIteration i => Raise (decode_exn (depth + 1) "Expecting value" s i)
  | Failed e => Raise e
  | Scanned obj e =>
      let end_ := ws_end s e in
      if end_ =? length s then Ok obj
      else Raise (decode_exn (depth + 2) "Extra data" s end_)
  | Exhausted => Raise (PlainException (u "scanner out of fuel"))
  end.

(** [json.loads(s)] for a [str], where [depth] levels are left to the
    scanner. *)
Definition loads_within (depth : nat) (s : pystr) : outcome pyval :=
  if startswith [65279%N] s then
    Raise (JSONDecodeError
             (u "Unexpected UTF-8 BOM (decode using utf-8-sig)") s 0)
  else decode (2 * length s) depth s.

(** The levels left to the scanner under the default recursion limit
    of 1000 when [json.loads] is called from a function that was
    called at the top level of a program.  Every further frame between
    the top level and the call takes one level away. *)
Definition default_depth : nat := 994.

(** [json.loads(s)] called there. *)
Definition loads (s : pystr) : outcome pyval := loads_within default_depth s.

End Json.

(** *** Ways a scan can end *)

(** The exceptions of the decoder for the document [s]: a decoding
    error for [s], a recursion error with one of its four messages, or
    the error of an integer of too many digits. *)
Definition decoder_error (s : pystr) (e : exn) : Prop :=
  match e with
  | JSONDecodeError _ doc _ => doc = s
  | RecursionError msg =>
      In msg [ Json.recursion_message "array"; Json.recursion_message "object";
               Json.call_message; Json.frame_message ]
  | ValueError msg =>
      exists digits, Json.max_str_digits < digits
                     /\ msg = Json.int_limit_message digits
  | _ => False
  end.

(** A scan that ends in a value, in [StopIteration] or in one of the
    decoder's exceptions: its fuel has not run out. *)
Definition well_ended {A} (s : pystr) (r : Json.scan A) : Prop :=
  match r with
  | Json.Failed e => decoder_error s e
  | Json.Exhausted => False
  | _ => True
  end.

(** A scan that, when it ends in a value, has moved past [idx]. *)
Definition advances {A} (idx : nat) (r : Json.scan A) : Prop :=
  match r with
  | Json.Scanned _ e => idx < e
  | _ => True
  end.

(* ===================================================================== *)
(** ** The analyzer: static tables *)
(* ===================================================================== *)

(** Several lines of text joined by newlines. *)
Definition text (lines : list pystr) : pystr := join_lines lines.

Definition us (l : list string) : list pystr := map u l.

Local Open Scope string_scope.
Local Open Scope list_scope.

(** An entry of [templates]. *)
Record Template : Type := {
  fields : list pystr;
  focus : pystr
}.

(** [self.model_name] *)
Definition model_name : pystr := u "gemini-1.5-flash".

(** [valid_types] of [_detect_document_type]. *)
Definition valid_types : list pystr :=
  us ["contract"; "nda"; "will"; "lease"; "employment"; "partnership";
      "power_of_attorney"; "license"; "settlement"; "corporate";
      "real_estate"; "court_order"; "judgment"; "affidavit"; "legal_notice";
      "insurance"; "loan"; "general"].

(** The text of [detection_prompt] before and after the document
    excerpt. *)
Definition detection_prompt_head : pystr :=
  text
    [ u "You are a specialized legal document classifier. Analyze this legal document and determine its EXACT type.";
      [];
      u "DOCUMENT TO CLASSIFY:";
      [] ].

Definition detection_prompt_tail : pystr :=
  text
    [ [];
      [];
      u "Your task is to classify this document into ONE of these specific categories:";
      [];
      [240%N; 376%N; 8220%N; 8249%N] ++ u " CONTRACT TYPES:";
      u "- contract: Business agreements, service contracts, purchase agreements";
      u "- nda: Non-disclosure agreements, confidentiality agreements  ";
      u "- employment: Employment contracts, job agreements, work contracts";
      u "- lease: Rental agreements, property lease documents";
      u "- partnership: Business partnership agreements, joint ventures";
      u "- license: Licensing agreements, software licenses, IP licenses";
      u "- settlement: Legal settlement agreements, dispute resolutions";
      u "- loan: Loan agreements, promissory notes, credit agreements";
      u "- insurance: Insurance policies, insurance agreements";
      [];
      [240%N; 376%N; 8220%N; 352%N] ++ u " CORPORATE & PROPERTY:";
      u "- corporate: Corporate bylaws, articles of incorporation, board resolutions";
      u "- real_estate: Property purchase agreements, real estate transactions";
      u "- power_of_attorney: Legal power of attorney documents";
      [];
      [226%N; 353%N; 8211%N; 239%N; 184%N] ++ u " COURT & LEGAL DOCUMENTS:";
      u "- judgment: Court judgments, judicial decisions, court rulings with legal reasoning";
      u "- court_order: Court orders, directives, injunctions (commands from court)";
      u "- affidavit: Sworn statements, affidavits, statutory declarations";
      u "- legal_notice: Legal notices, cease and desist letters, demand letters";
      [];
      [240%N; 376%N; 8221%N] ++ u " CLASSIFICATION INSTRUCTIONS:";
      u "1. Read the document carefully and identify its primary legal purpose";
      u "2. Look for specific legal language, document structure, and format";
      u "3. Pay attention to Indian/international legal terminology";
      u "4. Distinguish between court judgments (decisions with reasoning) vs court orders (directives)";
      u "5. Consider the document's main function and legal effect";
      [];
      u "CRITICAL: Return ONLY the exact category name (one word), nothing else.";
      [];
      u "Document Type:" ].

(** The entry of [templates] for ["general"]. *)
Definition general_template : Template :=
  {| fields := us ["documentType"; "summary"; "keyPoints"; "parties";
                   "importantDates"; "financialTerms"; "obligations";
                   "risks"; "recommendations"];
     focus := u "general legal provisions and key obligations" |}.

(** [templates] of [_get_document_template]. *)
Definition templates : list (pystr * Template) :=
  [
    (u "contract",
     {| fields := us ["documentType"; "summary"; "parties"; "keyTerms"; "obligations"; "deliverables"; "timeline"; "paymentTerms"; "terminationClauses"; "penalties"; "disputeResolution"; "risks"; "recommendations"];
        focus := u "contractual obligations, performance requirements, and legal commitments" |});
    (u "nda",
     {| fields := us ["documentType"; "summary"; "parties"; "confidentialInfo"; "restrictions"; "duration"; "exceptions"; "returnRequirements"; "penalties"; "risks"; "recommendations"];
        focus := u "confidentiality obligations, information protection, and disclosure restrictions" |});
    (u "will",
     {| fields := us ["documentType"; "summary"; "testator"; "executor"; "beneficiaries"; "assets"; "bequests"; "guardianship"; "conditions"; "witnesses"; "risks"; "recommendations"];
        focus := u "asset distribution, beneficiary rights, and estate planning" |});
    (u "lease",
     {| fields := us ["documentType"; "summary"; "parties"; "property"; "rentAmount"; "leaseTerm"; "responsibilities"; "restrictions"; "renewalOptions"; "terminationConditions"; "securityDeposit"; "risks"; "recommendations"];
        focus := u "rental obligations, property usage rights, and tenancy terms" |});
    (u "employment",
     {| fields := us ["documentType"; "summary"; "parties"; "position"; "salary"; "benefits"; "duties"; "workingConditions"; "terminationConditions"; "confidentiality"; "nonCompete"; "risks"; "recommendations"];
        focus := u "employment terms, job responsibilities, and worker rights" |});
    (u "partnership",
     {| fields := us ["documentType"; "summary"; "partners"; "businessPurpose"; "capitalContributions"; "profitSharing"; "managementStructure"; "decisionMaking"; "dissolution"; "liabilities"; "risks"; "recommendations"];
        focus := u "business partnership terms, profit sharing, and management responsibilities" |});
    (u "power_of_attorney",
     {| fields := us ["documentType"; "summary"; "principal"; "agent"; "powers"; "limitations"; "duration"; "conditions"; "revocation"; "witnessRequirements"; "risks"; "recommendations"];
        focus := u "delegated authority, agent powers, and principal protection" |});
    (u "license",
     {| fields := us ["documentType"; "summary"; "parties"; "licensedProperty"; "scope"; "restrictions"; "royalties"; "term"; "terminationRights"; "intellectualProperty"; "risks"; "recommendations"];
        focus := u "usage rights, licensing terms, and intellectual property protection" |});
    (u "settlement",
     {| fields := us ["documentType"; "summary"; "parties"; "dispute"; "settlementAmount"; "paymentTerms"; "releases"; "conditions"; "confidentiality"; "enforcement"; "risks"; "recommendations"];
        focus := u "dispute resolution, settlement terms, and legal releases" |});
    (u "corporate",
     {| fields := us ["documentType"; "summary"; "entity"; "directors"; "shareholders"; "governance"; "voting"; "meetings"; "fiduciary"; "compliance"; "risks"; "recommendations"];
        focus := u "corporate governance, shareholder rights, and regulatory compliance" |});
    (u "real_estate",
     {| fields := us ["documentType"; "summary"; "parties"; "property"; "purchasePrice"; "financing"; "contingencies"; "inspections"; "closing"; "warranties"; "risks"; "recommendations"];
        focus := u "property transfer, purchase terms, and real estate obligations" |});
    (u "court_order",
     {| fields := us ["documentType"; "summary"; "court"; "parties"; "ruling"; "requirements"; "deadlines"; "penalties"; "compliance"; "appealRights"; "risks"; "recommendations"];
        focus := u "court mandates, compliance requirements, and legal obligations" |});
    (u "judgment",
     {| fields := us ["documentType"; "summary"; "court"; "parties"; "caseNumber"; "legalIssues"; "facts"; "legalPrinciples"; "ratio"; "ruling"; "precedents"; "implications"; "recommendations"];
        focus := u "judicial reasoning, legal precedents, and case implications" |});
    (u "affidavit",
     {| fields := us ["documentType"; "summary"; "deponent"; "purpose"; "facts"; "statements"; "verification"; "notarization"; "jurisdiction"; "consequences"; "risks"; "recommendations"];
        focus := u "sworn statements, factual declarations, and legal attestations" |});
    (u "legal_notice",
     {| fields := us ["documentType"; "summary"; "sender"; "recipient"; "issue"; "demands"; "deadlines"; "consequences"; "legalBasis"; "nextSteps"; "risks"; "recommendations"];
        focus := u "legal demands, compliance requirements, and potential consequences" |});
    (u "insurance",
     {| fields := us ["documentType"; "summary"; "parties"; "coverage"; "premiums"; "deductibles"; "exclusions"; "claims"; "beneficiaries"; "renewal"; "risks"; "recommendations"];
        focus := u "insurance coverage, policy terms, and claim procedures" |});
    (u "loan",
     {| fields := us ["documentType"; "summary"; "parties"; "loanAmount"; "interestRate"; "repaymentTerms"; "collateral"; "defaults"; "acceleration"; "guarantees"; "risks"; "recommendations"];
        focus := u "lending terms, repayment obligations, and default consequences" |});
    (u "general", general_template)
  ].

(** [enhanced_descriptions] of [_create_analysis_prompt]. *)
Definition enhanced_descriptions : list (pystr * list (pystr * pystr)) :=
  [
    (u "contract",
     [ (u "keyTerms", u "Most important contractual provisions");
       (u "obligations", u "What each party must do ");
       (u "deliverables", u "Specific items/services to be provided");
       (u "timeline", u "Important deadlines and milestones");
       (u "paymentTerms", u "Financial obligations and schedules");
       (u "terminationClauses", u "How the contract can end");
       (u "penalties", u "Consequences for breach");
       (u "disputeResolution", u "How conflicts are resolved") ]);
    (u "nda",
     [ (u "confidentialInfo", u "What information is protected");
       (u "restrictions", u "Limitations on use and disclosure");
       (u "duration", u "How long confidentiality lasts");
       (u "exceptions", u "What information is not protected");
       (u "returnRequirements", u "What must be returned/destroyed");
       (u "penalties", u "Consequences for breach") ]);
    (u "will",
     [ (u "testator", u "Person making the will ");
       (u "executor", u "Person managing the estate ");
       (u "beneficiaries", u "Who receives assets ");
       (u "assets", u "Property and belongings being distributed ");
       (u "bequests", u "Specific gifts and distributions ");
       (u "guardianship", u "Care arrangements for minors ") ]);
    (u "lease",
     [ (u "property", u "Description of leased premises");
       (u "rentAmount", u "Monthly/periodic payment");
       (u "leaseTerm", u "Duration of the lease");
       (u "responsibilities", u "Maintenance and care duties");
       (u "securityDeposit", u "Upfront payment requirements");
       (u "renewalOptions", u "Extension possibilities") ]);
    (u "employment",
     [ (u "position", u "Job title and role");
       (u "salary", u "Compensation details");
       (u "benefits", u "Healthcare, vacation, etc.");
       (u "duties", u "Job responsibilities");
       (u "workingConditions", u "Hours, location, etc.");
       (u "nonCompete", u "Post-employment restrictions") ]);
    (u "partnership",
     [ (u "partners", u "Business partners involved");
       (u "businessPurpose", u "What the partnership does");
       (u "capitalContributions", u "Money/assets each partner provides");
       (u "profitSharing", u "How profits are divided");
       (u "managementStructure", u "Who makes decisions");
       (u "dissolution", u "How partnership ends") ]);
    (u "power_of_attorney",
     [ (u "principal", u "Person granting power");
       (u "agent", u "Person receiving power");
       (u "powers", u "What the agent can do");
       (u "limitations", u "Restrictions on authority");
       (u "duration", u "How long powers last");
       (u "revocation", u "How to cancel") ]);
    (u "license",
     [ (u "licensedProperty", u "What's being licensed");
       (u "scope", u "Permitted uses");
       (u "restrictions", u "What's not allowed");
       (u "royalties", u "Payment terms");
       (u "term", u "License duration");
       (u "intellectualProperty", u "IP rights and protections") ]);
    (u "settlement",
     [ (u "dispute", u "What conflict is being resolved");
       (u "settlementAmount", u "Payment details");
       (u "paymentTerms", u "When and how payment is made");
       (u "releases", u "What claims are being dropped");
       (u "conditions", u "Requirements for settlement");
       (u "confidentiality", u "Non-disclosure requirements") ]);
    (u "corporate",
     [ (u "entity", u "Corporation details");
       (u "directors", u "Board members and roles");
       (u "shareholders", u "Ownership structure");
       (u "governance", u "How decisions are made");
       (u "voting", u "Shareholder voting rights");
       (u "compliance", u "Regulatory requirements") ]);
    (u "real_estate",
     [ (u "property", u "Real estate being transferred");
       (u "purchasePrice", u "Sale amount");
       (u "financing", u "Loan and mortgage terms");
       (u "contingencies", u "Conditions for sale");
       (u "inspections", u "Property examination requirements");
       (u "closing", u "Transaction completion details") ]);
    (u "court_order",
     [ (u "court", u "Issuing court information");
       (u "ruling", u "Court's decision");
       (u "requirements", u "What must be done");
       (u "deadlines", u "Time limits for compliance");
       (u "penalties", u "Consequences for non-compliance");
       (u "appealRights", u "Options for challenging") ]);
    (u "judgment",
     [ (u "court", u "Court that delivered the judgment");
       (u "caseNumber", u "Official case reference");
       (u "legalIssues", u "Questions of law addressed");
       (u "facts", u "Key factual findings");
       (u "legalPrinciples", u "Legal doctrines applied");
       (u "ratio", u "The legal reasoning behind the decision (ratio decidendi)");
       (u "ruling", u "The final decision");
       (u "precedents", u "Previous cases cited");
       (u "implications", u "Impact on future cases") ]);
    (u "affidavit",
     [ (u "deponent", u "Person making the sworn statement");
       (u "purpose", u "Reason for the affidavit");
       (u "facts", u "Factual statements being attested");
       (u "statements", u "Important declarations made");
       (u "verification", u "How the statement is verified");
       (u "notarization", u "Notary and witnessing details");
       (u "jurisdiction", u "Legal jurisdiction for the affidavit");
       (u "consequences", u "Implications of false statements") ]);
    (u "legal_notice",
     [ (u "sender", u "Who is sending the notice");
       (u "recipient", u "Who must respond");
       (u "issue", u "Problem being addressed");
       (u "demands", u "What is required");
       (u "deadlines", u "Time limits for response");
       (u "consequences", u "What happens if ignored") ]);
    (u "insurance",
     [ (u "coverage", u "What is protected");
       (u "premiums", u "Payment amounts");
       (u "deductibles", u "Out-of-pocket costs");
       (u "exclusions", u "What's not covered");
       (u "claims", u "How to file claims");
       (u "beneficiaries", u "Who receives payouts") ]);
    (u "loan",
     [ (u "loanAmount", u "How much is borrowed");
       (u "interestRate", u "Cost of borrowing");
       (u "repaymentTerms", u "Payment schedule");
       (u "collateral", u "Security for the loan");
       (u "defaults", u "What happens if payments stop");
       (u "guarantees", u "Additional security") ])
  ].

(** The fixed text of the analysis prompt, between its interpolated
    parts. *)
Definition prompt_intro : pystr :=
  text
    [ u "You are an expert legal document analyzer and translator who specializes in DEMYSTIFYING complex legal language for both legal professionals and non-lawyers. Your mission is to make legal documents completely understandable while maintaining accuracy.";
      [];
      u "DOCUMENT TO ANALYZE:";
      [] ].

Definition prompt_type_label : pystr :=
  text [ []; []; u "DOCUMENT TYPE DETECTED: " ].

Definition prompt_focus_label : pystr :=
  text [ []; u "ANALYSIS FOCUS: " ].

Definition prompt_mission : pystr :=
  text
    [ [];
      [];
      u "DEMYSTIFICATION MISSION:";
      u "- Translate legal jargon into plain English while preserving legal accuracy";
      u "- Explain WHY each provision matters and its real-world implications";
      u "- Identify potential risks, opportunities, and red flags";
      u "- Provide actionable insights and recommendations";
      u "- Include severity levels for risks (LOW/MEDIUM/HIGH/CRITICAL)";
      u "- Explain complex legal concepts with analogies when helpful";
      u "- Highlight time-sensitive elements and deadlines";
      u "- Warn about potential pitfalls and how to avoid them";
      [];
      u "COMPREHENSIVE ANALYSIS REQUIREMENTS:";
      u "1. Break down complex legal language into simple terms";
      u "2. Explain the practical impact of each provision";
      u "3. Identify what could go wrong and how to prevent it";
      u "4. Provide specific, actionable recommendations";
      u "5. Include examples where helpful";
      u "6. Highlight urgent or time-sensitive matters";
      u "7. Explain legal terminology in parentheses when first used";
      u "8. Rate risks with severity levels and mitigation strategies";
      [];
      u "Please provide your analysis in the following JSON structure. Be thorough, accurate, and focus on COMPLETE DEMYSTIFICATION:";
      [];
      u "{" ].

Definition prompt_closing : pystr :=
  text
    [ [];
      u "}";
      [];
      u "CRITICAL DEMYSTIFICATION INSTRUCTIONS:";
      u "1. MANDATORY: Use ONLY the exact field names specified in the JSON structure above - NO OTHER FIELDS";
      u "2. COMPLETE ALL FIELDS: Every field in the JSON structure must be filled with relevant information";
      u "3. NO EXTRA FIELDS: Do not add fields like " ++ dquote ++ u "legalImplications" ++ dquote ++ u " or any other custom fields";
      u "4. PLAIN LANGUAGE: Translate ALL legal jargon into simple, understandable terms";
      u "5. PRACTICAL IMPACT: Explain what each provision means in real-world terms";
      u "6. SIMPLE FORMAT: Use plain text strings and arrays of strings - no nested objects";
      u "7. ACTIONABLE INSIGHTS: Provide specific steps people can take";
      u "8. TIME SENSITIVITY: Highlight deadlines, expiry dates, and urgent matters";
      u "9. EXAMPLES: Use analogies and examples to clarify complex concepts";
      u "10. WARNING SIGNS: Identify red flags and potential problems";
      u "11. OPPORTUNITIES: Point out beneficial provisions and advantages";
      u "12. CONTEXT: Explain why certain provisions exist and their purpose";
      u "13. CONSEQUENCES: Clearly state what happens if terms are violated";
      u "14. NEXT STEPS: Recommend immediate and long-term actions";
      u "15. COMPREHENSIVE COVERAGE: Leave no stone unturned - analyze every significant aspect";
      [];
      u "STRICT FORMAT REQUIREMENTS:";
      u "- Return ONLY valid JSON with the exact field names shown above";
      u "- NO additional fields beyond what's specified";
      u "- Use simple strings and arrays of strings only";
      u "- NO nested objects or complex structures";
      u "- MUST include ALL fields from the template";
      [];
      u "DEMYSTIFICATION GOALS:";
      u "- Make complex legal language accessible to everyone";
      u "- Identify hidden risks and opportunities";
      u "- Provide actionable guidance for decision-making";
      u "- Explain the " ++ dquote ++ u "so what" ++ dquote ++ u " factor for every provision";
      u "- Transform legal complexity into practical understanding";
      u "- Empower users with knowledge to make informed decisions";
      [];
      u "FINAL VALIDATION: Ensure your analysis would help someone completely unfamiliar with legal terminology understand this document's full implications and make informed decisions." ].

(** [_get_document_template]: [templates.get(document_type,
    templates["general"])]. *)
Definition _get_document_template (document_type : pystr) : Template :=
  match dict_get templates document_type with
  | Some t => t
  | None => general_template
  end.

(* ===================================================================== *)
(** ** The analyzer: prompt synthesis *)
(* ===================================================================== *)

(** A value of [json_fields]: a string, or the one-element lists given
    to [risks] and [recommendations]. *)
Inductive description : Type :=
| DText (s : pystr)
| DItems (items : list pystr).

(** [f"{description}"].  For a list this is its [repr], written here for
    items free of quotes, backslashes and unprintable characters; no
    list is ever formatted (lemma [description_is_hint]). *)
Definition format_description (d : description) : pystr :=
  match d with
  | DText s => s
  | DItems items =>
      u "[" ++ join_with (u ", ") (map (fun s => u "'" ++ s ++ u "'") items)
        ++ u "]"
  end.

Definition generic_description (field : pystr) : pystr :=
  u "Relevant " ++ field ++ u " information for this document type".

(** First loop over [template["fields"]] (source lines 327-336). *)
Definition json_fields_base (document_type : pystr) (template : Template)
  : list (pystr * description) :=
  fold_left
    (fun json_fields field =>
       if str_eqb field (u "documentType") then
         dict_set json_fields field
           (DText (u "Specific type of " ++ document_type ++ u " document"))
       else if str_eqb field (u "summary") then
         dict_set json_fields field
           (DText (u "Comprehensive summary focusing on " ++ focus template
                     ++ u " with plain language explanation"))
       else if str_eqb field (u "risks") then
         dict_set json_fields field
           (DItems [u "Detailed risk analysis with severity levels and mitigation strategies for "
                      ++ document_type])
       else if str_eqb field (u "recommendations") then
         dict_set json_fields field
           (DItems [u "Actionable recommendations with step-by-step guidance for "
                      ++ document_type])
       else json_fields)
    (fields template) [].

(** [if document_type in enhanced_descriptions: ...] (lines 485-487). *)
Definition apply_enhanced (document_type : pystr)
           (json_fields : list (pystr * description))
  : list (pystr * description) :=
  match dict_get enhanced_descriptions document_type with
  | Some descs =>
      fold_left
        (fun jf kv => dict_set jf (fst kv) (DText (snd kv)))
        descs json_fields
  | None => json_fields
  end.

(** [for field in template["fields"]: if field not in json_fields: ...]
    (lines 490-492). *)
Definition fill_missing (template : Template)
           (json_fields : list (pystr * description))
  : list (pystr * description) :=
  fold_left
    (fun jf field =>
       if dict_mem jf field then jf
       else dict_set jf field (DText (generic_description field)))
    (fields template) json_fields.

Definition json_fields_for (document_type : pystr) (template : Template)
  : list (pystr * description) :=
  fill_missing template
    (apply_enhanced document_type (json_fields_base document_type template)).

(** The three-slot list printed for a sequence field; [second] is the
    wording of the second slot. *)
Definition list_entry (field second : pystr) : pystr :=
  text [ []; u "    " ++ dquote ] ++ field
  ++ text [ dquote ++ u ": ["; u "        " ++ dquote ++ u "First " ]
  ++ drop_last field
  ++ text [ u " item with clear explanation" ++ dquote ++ u ",";
            u "        " ++ dquote ++ u "Second " ]
  ++ drop_last field
  ++ text [ u " item with " ++ second ++ u " details" ++ dquote ++ u ",";
            u "        " ++ dquote ++ u "Additional " ]
  ++ drop_last field
  ++ text [ u " items as needed" ++ dquote; u "    ]" ].

Definition string_entry (field description : pystr) : pystr :=
  text [ []; u "    " ++ dquote ] ++ field
  ++ dquote ++ u ": " ++ dquote ++ u "Provide detailed information about "
  ++ description ++ dquote.

Definition risk_fields : list pystr := us ["risks"; "recommendations"].

Definition plural_fields : list pystr :=
  us ["obligations"; "keyTerms"; "statements"; "facts"; "precedents";
      "legalPrinciples"].

(** [enumerate(l)] *)
Definition enumerate {A} (l : list A) : list (nat * A) :=
  combine (seq 0 (length l)) l.

(** Body of the loop [for i, field in enumerate(template["fields"])]
    (lines 528-543). *)
Definition schema_step (template : Template)
           (json_fields : list (pystr * description))
           (prompt : pystr) (i_field : nat * pystr) : pystr :=
  let (i, field) := i_field in
  let description :=
    match dict_get json_fields field with
    | Some d => d
    | None => DText (generic_description field)
    end in
  let prompt :=
    if str_in field risk_fields then
      prompt ++ list_entry field (u "actionable")
    else if str_in field plural_fields then
      prompt ++ list_entry field (u "practical")
    else prompt ++ string_entry field (format_description description) in
  if (i <? length (fields template) - 1)%nat then prompt ++ u "," else prompt.

Section Analyzer.

(** [str.lower] and [str.upper]. *)
Variable str_lower : pystr -> pystr.
Variable str_upper : pystr -> pystr.

(** [json.loads] *)
Variable json_loads : pystr -> outcome pyval.

(** The model service: [self.model.generate_content(prompt).text],
    which returns the reply or raises, and may change the state of
    the world. *)
Variable World : Type.
Variable generate_content : pystr -> World -> outcome pystr * World.

(** [os.path.exists] and [self.extract_text_from_file]. *)
Variable path_exists : pystr -> bool.
Variable extract_text_from_file : pystr -> outcome pystr.

(** The state threaded through a request: the world of the model
    service and the prompts submitted to it so far. *)
Record state : Type := {
  world : World;
  calls : list pystr
}.

(** Computations that return or raise, and keep the state either
    way. *)
Definition M (A : Type) : Type := state -> outcome A * state.

Definition ret {A} (a : A) : M A := fun st => (Ok a, st).

Definition raise {A} (e : exn) : M A := fun st => (Raise e, st).

Definition bind {A B} (c : M A) (k : A -> M B) : M B :=
  fun st =>
    match c st with
    | (Ok a, st') => k a st'
    | (Raise e, st') => (Raise e, st')
    end.

Definition lift {A} (o : outcome A) : M A := fun st => (o, st).

(** [try: body / except Exception as e: handler] *)
Definition try_except {A} (body : M A) (handler : exn -> M A) : M A :=
  fun st =>
    match body st with
    | (Ok a, st') => (Ok a, st')
    | (Raise e, st') => handler e st'
    end.

Definition call_model (prompt : pystr) : M pystr :=
  fun st =>
    let (reply, w) := generate_content prompt (world st) in
    (reply, {| world := w; calls := calls st ++ [prompt] |}).

Notation "x <- c ;; k" := (bind c (fun x => k))
  (at level 61, c at next level, right associativity).

(** *** Type classifier *)

Definition detection_prompt (document_text : pystr) : pystr :=
  detection_prompt_head ++ slice 0 4000 document_text
  ++ detection_prompt_tail.

Definition _detect_document_type (document_text : pystr) : M pystr :=
  try_except
    (reply <- call_model (detection_prompt document_text) ;;
     let detected_type := str_lower (strip reply) in
     if str_in detected_type valid_types then ret detected_type
     else ret (u "general"))
    (fun _ => ret (u "general")).

(** *** Prompt synthesizer *)

(** [_create_analysis_prompt] once [document_type] is known (source
    lines 322-582). *)
Definition prompt_for_type (document_text document_type : pystr) : pystr :=
  let template := _get_document_template document_type in
  let json_fields := json_fields_for document_type template in
  let prompt :=
    prompt_intro ++ document_text
    ++ prompt_type_label ++ str_upper document_type
    ++ prompt_focus_label ++ focus template
    ++ prompt_mission in
  let prompt :=
    fold_left (schema_step template json_fields)
              (enumerate (fields template)) prompt in
  prompt ++ prompt_closing.

Definition _create_analysis_prompt (document_text : pystr) : M pystr :=
  document_type <- _detect_document_type document_text ;;
  ret (prompt_for_type document_text document_type).

(** *** Response parser *)

Definition fence : pystr := u "```".

(** [end_idx]: the last line that is a bare fence, else the last
    line (lines 596-600). *)
Definition closing_fence_index (lines : list pystr) : nat :=
  match
    find (fun i =>
            match nth_error lines i with
            | Some l => str_eqb (strip l) fence
            | None => false
            end)
         (rev (seq 0 (length lines)))
  with
  | Some i => i
  | None => length lines - 1
  end.

(** Lines 588-601: trim the reply and remove a surrounding code
    fence.  [lines[1]] raises [IndexError] on a one-line reply. *)
Definition strip_code_fence (response_text : pystr) : outcome pystr :=
  let response_text := strip response_text in
  if startswith fence response_text then
    let lines := split_lines response_text in
    match nth_error lines 1 with
    | None => Raise (IndexError (u "list index out of range"))
    | Some line1 =>
        let start_idx :=
          if str_eqb (str_lower (strip line1)) (u "json") then 2 else 1 in
        let end_idx := closing_fence_index lines in
        Ok (join_lines (slice start_idx end_idx lines))
    end
  else Ok response_text.

(** [response_text[:1000] + "..." if len(response_text) > 1000 else
    response_text] *)
Definition raw_response (response_text : pystr) : pystr :=
  if (1000 <? length response_text)%nat then
    slice 0 1000 response_text ++ u "..."
  else response_text.

(** The dict returned by the [except json.JSONDecodeError] clause. *)
Definition fallback_response (error_details response_text : pystr) : pyval :=
  PDict
    [ (u "documentType", PStr (u "Document Analysis"));
      (u "summary",
       PStr (u "The document was analyzed but the response could not be parsed into structured format. The AI may have provided analysis in an unexpected format."));
      (u "error", PStr (u "JSON parsing failed"));
      (u "errorDetails", PStr error_details);
      (u "rawResponse", PStr (raw_response response_text));
      (u "recommendations",
       PList
         [ PDict
             [ (u "item", PStr (u "Manual review recommended"));
               (u "severity", PStr (u "HIGH"));
               (u "explanation",
                PStr (u "The automated analysis encountered formatting issues. Please review the raw response above."));
               (u "action", PStr (u "Contact support or retry the analysis")) ] ]) ].

(** [_parse_ai_response].  Only [json.JSONDecodeError] is caught, which
    [json.loads] alone can raise; by then [response_text] is the text
    handed to [json.loads]. *)
Definition _parse_ai_response (response_text : pystr) : outcome pyval :=
  match strip_code_fence response_text with
  | Raise e => Raise e
  | Ok response_text =>
      match json_loads response_text with
      | Ok parsed_response => Ok parsed_response
      | Raise (JSONDecodeError msg doc pos) =>
          Ok (fallback_response (decode_error_str msg doc pos) response_text)
      | Raise e => Raise e
      end
  end.

(** *** Orchestrator *)

Definition max_chars : nat := 30000.

Definition truncation_marker : pystr :=
  text [ []; []; u "[Document truncated for analysis...]" ].

(** Lines 136-138. *)
Definition truncate_document (document_text : pystr) : pystr :=
  if (max_chars <? length document_text)%nat then
    slice 0 max_chars document_text ++ truncation_marker
  else document_text.

(** [obj[key] = value] *)
Definition py_setitem (obj : pyval) (key : pystr) (value : pyval)
  : outcome pyval :=
  let no_assignment (type_name : string) :=
    Raise (TypeError (u "'" ++ u type_name
                        ++ u "' object does not support item assignment")) in
  match obj with
  | PDict d => Ok (PDict (dict_set d key value))
  | PList _ =>
      Raise (TypeError (u "list indices must be integers or slices, not str"))
  | PNone => no_assignment "NoneType"
  | PBool _ => no_assignment "bool"
  | PInt _ => no_assignment "int"
  | PFloat _ => no_assignment "float"
  | PStr _ => no_assignment "str"
  end.

Definition analysis_metadata (document_text document_type : pystr) : pyval :=
  PDict
    [ (u "documentLength", PInt (Z.of_nat (length document_text)));
      (u "processingTime", PStr (u "completed"));
      (u "aiModel", PStr model_name);
      (u "analysisType", PStr (document_type ++ u "_specific")) ].

(** [analyze_document].  Its [except Exception] clause logs and
    re-raises, so every exception reaches the caller unchanged. *)
Definition analyze_document (file_path : pystr) : M pyval :=
  if negb (path_exists file_path) then
    raise (FileNotFoundError (u "File not found: " ++ file_path))
  else
    document_text <- lift (extract_text_from_file file_path) ;;
    if str_eqb (strip document_text) [] then
      raise (ValueError (u "No text could be extracted from the document"))
    else
      document_type <- _detect_document_type document_text ;;
      let document_text := truncate_document document_text in
      prompt <- _create_analysis_prompt document_text ;;
      response_text <- call_model prompt ;;
      if str_eqb response_text [] then
        raise (PlainException (u "No response received from Google Cloud AI"))
      else
        analysis_result <- lift (_parse_ai_response response_text) ;;
        analysis_result <-
          lift (py_setitem analysis_result (u "detectedDocumentType")
                           (PStr document_type)) ;;
        analysis_result <-
          lift (py_setitem analysis_result (u "analysisMetadata")
                           (analysis_metadata document_text document_type)) ;;
        ret analysis_result.

End Analyzer.

Arguments state : clear implicits.
Arguments M : clear implicits.

(* ===================================================================== *)
(** ** The schema block as the specification describes it *)
(* ===================================================================== *)

(** The entry of a field in the hint map of a document type
    ([enhanced_descriptions[document_type][field]]), if there is one. *)
Definition hint_map_entry (document_type field : pystr) : option pystr :=
  match dict_get enhanced_descriptions document_type with
  | Some hints => dict_get hints field
  | None => None
  end.

(** The hint as the specification words it: the entry of the type's
    hint map, else the generic hint. *)
Definition stated_hint (document_type field : pystr) : pystr :=
  match hint_map_entry document_type field with
  | Some h => h
  | None => generic_description field
  end.

(** The hint with the two derived descriptions: where the type's hint
    map has no entry, [documentType] is described by the type's name and
    [summary] by the template's focus; any other field gets the generic
    hint. *)
Definition field_hint (document_type field : pystr) : pystr :=
  match hint_map_entry document_type field with
  | Some h => h
  | None =>
      if str_eqb field (u "documentType") then
        u "Specific type of " ++ document_type ++ u " document"
      else if str_eqb field (u "summary") then
        u "Comprehensive summary focusing on "
          ++ focus (_get_document_template document_type)
          ++ u " with plain language explanation"
      else generic_description field
  end.

(** Fields rendered as an ordered sequence: decided by the field's name
    alone. *)
Definition is_sequence_field (field : pystr) : bool :=
  str_in field risk_fields || str_in field plural_fields.

(** What every entry starts with: a new line, the indentation and the
    quoted field name followed by a colon. *)
Definition entry_label (field : pystr) : pystr :=
  newline :: u "    " ++ dquote ++ field ++ dquote ++ u ":".

(** An ordered sequence with three slots: a first, a second and
    additional items, named after the field less its last letter. *)
Definition sequence_instruction (field : pystr) : pystr :=
  let item := drop_last field in
  let wording :=
    if str_in field risk_fields then u "actionable" else u "practical" in
  u " [" ++ newline :: u "        " ++ dquote ++ u "First " ++ item
    ++ u " item with clear explanation" ++ dquote ++ u ","
    ++ newline :: u "        " ++ dquote ++ u "Second " ++ item
    ++ u " item with " ++ wording ++ u " details" ++ dquote ++ u ","
    ++ newline :: u "        " ++ dquote ++ u "Additional " ++ item
    ++ u " items as needed" ++ dquote
    ++ newline :: u "    ]".

(** A single string carrying the hint. *)
Definition scalar_instruction (hint : pystr) : pystr :=
  u " " ++ dquote ++ u "Provide detailed information about " ++ hint
    ++ dquote.

(** The instruction emitted for one field, given the hints. *)
Definition schema_entry (hint : pystr -> pystr) (field : pystr) : pystr :=
  entry_label field
  ++ (if is_sequence_field field then sequence_instruction field
      else scalar_instruction (hint field)).

(** A schema block: one entry per field, in the order of the fields,
    separated by commas. *)
Definition schema_block (hint : pystr -> pystr) (field_names : list pystr)
  : pystr :=
  join_with (u ",") (map (schema_entry hint) field_names).

(** The schema block of a document type, with the hints as the
    specification words them and with the derived descriptions. *)
Definition stated_schema (document_type : pystr) : pystr :=
  schema_block (stated_hint document_type)
               (fields (_get_document_template document_type)).

Definition spec_schema (document_type : pystr) : pystr :=
  schema_block (field_hint document_type)
               (fields (_get_document_template document_type)).

(** The reply kept in the fallback according to the specification: the
    original reply, cut to 1000 characters with an ellipsis when it is
    longer. *)
Definition spec_raw_response (reply : pystr) : pystr :=
  if (1000 <? length reply)%nat then firstn 1000 reply ++ u "..." else reply.

(** A reply wrapped in a [json] code fence. *)
Definition fenced (reply : pystr) : pystr :=
  u "```json" ++ newline :: reply ++ newline :: u "```".

(** The label the classifier derives from what the model service
    returned. *)
Definition classify_reply (str_lower : pystr -> pystr)
           (reply : outcome pystr) : pystr :=
  match reply with
  | Ok text =>
      let detected_type := str_lower (strip text) in
      if str_in detected_type valid_types then detected_type
      else u "general"
  | Raise _ => u "general"
  end.

(** The label returned by a classifier run started in state [st], and
    the state it leaves. *)
Definition detected_type {World} (str_lower : pystr -> pystr)
           (generate_content : pystr -> World -> outcome pystr * World)
           (document_text : pystr) (st : state World) : pystr :=
  classify_reply str_lower
    (fst (generate_content (detection_prompt document_text) (world st))).

Definition after_detect {World}
           (generate_content : pystr -> World -> outcome pystr * World)
           (document_text : pystr) (st : state World) : state World :=
  {| world := snd (generate_content (detection_prompt document_text) (world st));
     calls := calls st ++ [detection_prompt document_text] |}.

(** Accessors on results. *)
Definition py_getitem (obj : pyval) (key : pystr) : option pyval :=
  match obj with
  | PDict d => dict_get d key
  | _ => None
  end.

Definition documentLength (result : pyval) : option pyval :=
  match py_getitem result (u "analysisMetadata") with
  | Some meta => py_getitem meta (u "documentLength")
  | None => None
  end.

Definition has_field (t : Template) (field : string) : bool :=
  str_in (u field) (fields t).

(* ===================================================================== *)
(** ** Concrete collaborators *)
(* ===================================================================== *)

Module Sample.

(** [str.lower] and [str.upper] on text whose cased characters are
    ASCII letters. *)
Definition lower (s : pystr) : pystr :=
  map (fun c => if ((65 <=? c) && (c <=? 90))%N then (c + 32)%N else c) s.

Definition upper (s : pystr) : pystr :=
  map (fun c => if ((97 <=? c) && (c <=? 122))%N then (c - 32)%N else c) s.

(** A model service that answers by a fixed function of the prompt. *)
Definition oracle_model (oracle : pystr -> outcome pystr)
  : pystr -> unit -> outcome pystr * unit :=
  fun prompt w => (oracle prompt, w).

(** A model service that plays back a script, whatever the prompt. *)
Definition scripted_model
  : pystr -> list (outcome pystr) -> outcome pystr * list (outcome pystr) :=
  fun _ script =>
    match script with
    | r :: script' => (r, script')
    | [] => (Raise (ServiceError (u "service unavailable")), [])
    end.

(** Answers a classification prompt with " Lease " and every other
    prompt with a small JSON object. *)
Definition lease_oracle (prompt : pystr) : outcome pystr :=
  if startswith detection_prompt_head prompt then Ok (u " Lease ")
  else Ok (u "{" ++ dquote ++ u "summary" ++ dquote ++ u ": "
             ++ dquote ++ u "ok" ++ dquote ++ u "}").

Definition any_path_exists (path : pystr) : bool := true.

Definition extracts (document_text : pystr) (path : pystr) : outcome pystr :=
  Ok document_text.

Definition start {World} (w : World) : state World :=
  {| world := w; calls := [] |}.

Definition letters (n : nat) : pystr := repeat (Json.ch "a") n.

End Sample.

(* ===================================================================== *)
(** ** Text extraction *)
(* ===================================================================== *)

(** [str(e)] for the exceptions of this development. *)
Definition exn_str (e : exn) : pystr :=
  match e with
  | FileNotFoundError msg => msg
  | ValueError msg => msg
  | JSONDecodeError msg doc pos => decode_error_str msg doc pos
  | IndexError msg => msg
  | TypeError msg => msg
  | RecursionError msg => msg
  | PlainException msg => msg
  | ServiceError msg => msg
  end.

Module Extractor.

(** [s.split(sep)] for a separator of one character. *)
Fixpoint split_on (sep : char) (s : pystr) : list pystr :=
  match s with
  | [] => [[]]
  | c :: s' =>
      if N.eqb c sep then [] :: split_on sep s'
      else
        match split_on sep s' with
        | l :: ls => (c :: l) :: ls
        | [] => [[c]]
        end
  end.

(** [s.rfind(c)]; [None] stands for [-1]. *)
Fixpoint rfind (c : char) (s : pystr) : option nat :=
  match s with
  | [] => None
  | x :: s' =>
      match rfind c s' with
      | Some i => Some (S i)
      | None => if N.eqb x c then Some 0 else None
      end
  end.

(** [Path(p).name] for a POSIX path: the last component that is neither
    empty nor a single dot. *)
Definition path_name (p : pystr) : pystr :=
  last (filter (fun part => negb (str_eqb part []) && negb (str_eqb part (u ".")))
               (split_on 47%N p))
       [].

(** [Path(p).suffix] *)
Definition path_suffix (p : pystr) : pystr :=
  let name := path_name p in
  match rfind 46%N name with
  | Some i =>
      if (0 <? i)%nat && (i <? length name - 1)%nat then skipn i name else []
  | None => []
  end.

Section Readers.

(** [str.lower] *)
Variable str_lower : pystr -> pystr.

(** [PyPDF2.PdfReader(open(file_path, 'rb')).pages], each page with the
    outcome of its [extract_text()]; opening or parsing the file may
    raise. *)
Variable pdf_pages : pystr -> outcome (list (outcome pystr)).

(** The [text] of every paragraph of [docx.Document(file_path)]. *)
Variable docx_paragraphs : pystr -> outcome (list pystr).

(** [open(file_path, 'r', encoding='utf-8').read()] *)
Variable read_text : pystr -> outcome pystr.

(** [f"\n--- Page {page_num + 1} ---\n{page_text}\n"] *)
Definition page_block (page_num : nat) (page_text : pystr) : pystr :=
  newline :: u "--- Page " ++ str_of_nat (page_num + 1) ++ u " ---"
    ++ newline :: page_text ++ [newline].

(** The loop over [enumerate(pdf_reader.pages)]. *)
Fixpoint pdf_loop (pages : list (nat * outcome pystr)) (text : pystr)
  : outcome pystr :=
  match pages with
  | [] => Ok text
  | (page_num, page) :: rest =>
      match page with
      | Raise e => Raise e
      | Ok page_text =>
          if str_eqb page_text [] then pdf_loop rest text
          else pdf_loop rest (text ++ page_block page_num page_text)
      end
  end.

Definition _extract_from_pdf (file_path : pystr) : outcome pystr :=
  let wrap (e : exn) :=
    Raise (PlainException (u "Error reading PDF file: " ++ exn_str e)) in
  match pdf_pages file_path with
  | Raise e => wrap e
  | Ok pages =>
      match pdf_loop (enumerate pages) [] with
      | Raise e => wrap e
      | Ok text => Ok (strip text)
      end
  end.

(** The loop over [doc.paragraphs]. *)
Definition docx_loop (paragraphs : list pystr) (text : pystr) : pystr :=
  fold_left
    (fun text paragraph =>
       if str_eqb (strip paragraph) [] then text
       else text ++ paragraph ++ [newline])
    paragraphs text.

Definition _extract_from_docx (file_path : pystr) : outcome pystr :=
  match docx_paragraphs file_path with
  | Raise e =>
      Raise (PlainException (u "Error reading DOCX file: " ++ exn_str e))
  | Ok paragraphs => Ok (strip (docx_loop paragraphs []))
  end.

Definition _extract_from_txt (file_path : pystr) : outcome pystr :=
  match read_text file_path with
  | Raise e =>
      Raise (PlainException (u "Error reading TXT file: " ++ exn_str e))
  | Ok content => Ok (strip content)
  end.

(** [extract_text_from_file]; its [except Exception] clause logs and
    re-raises. *)
Definition extract_text_from_file (file_path : pystr) : outcome pystr :=
  let file_extension := str_lower (path_suffix file_path) in
  if str_eqb file_extension (u ".pdf") then _extract_from_pdf file_path
  else if str_eqb file_extension (u ".docx") then _extract_from_docx file_path
  else if str_eqb file_extension (u ".txt") then _extract_from_txt file_path
  else
    Raise (ValueError (u "Unsupported file format: " ++ file_extension
                         ++ u ". Please use PDF, DOCX, or TXT files.")).

End Readers.

End Extractor.

(* ===================================================================== *)
(** ** The HTTP route [/api/analyze] *)
(* ===================================================================== *)

Module Api.

Section Routes.

Variable str_lower : pystr -> pystr.
Variable str_upper : pystr -> pystr.
Variable json_loads : pystr -> outcome pyval.
Variable World : Type.
Variable generate_content : pystr -> World -> outcome pystr * World.

(** The file system and the content of an upload. *)
Variable FS : Type.
Variable Content : Type.

(** [Path("temp_uploads").mkdir(exist_ok=True)] *)
Variable mkdir_temp : FS -> outcome unit * FS.

(** [str(Path("temp_uploads") / filename)] *)
Variable temp_path : pystr -> pystr.

(** [file.save(path)] *)
Variable save : pystr -> Content -> FS -> outcome unit * FS.

(** [file_path.exists()] and [os.path.exists(file_path)] *)
Variable path_exists : FS -> pystr -> bool.

(** [file_path.unlink()] *)
Variable unlink : pystr -> FS -> outcome unit * FS.

(** [analyzer.extract_text_from_file] on the files of a file system. *)
Variable extract_text_from_file : FS -> pystr -> outcome pystr.

(** A response: the status code and the JSON body. *)
Definition response : Type := (nat * pyval)%type.

Definition error_body (message : pystr) : pyval :=
  PDict [ (u "error", PStr message) ].

(** The response of the outer [except Exception as e] clause. *)
Definition analysis_failed (e : exn) : response :=
  (500, error_body (u "Analysis failed: " ++ exn_str e)).

Definition analysis_completed (filename : pystr) (analysis_result : pyval)
  : response :=
  (200,
   PDict [ (u "message", PStr (u "Analysis completed successfully"));
           (u "fileName", PStr filename);
           (u "analysis", analysis_result) ]).

(** The route function [analyze_document].  [analyzer_ready] tells
    whether the module-level [analyzer] is set; [files] is
    [request.files], a file being its [filename] and its content. *)
Definition analyze_document (analyzer_ready : bool)
           (files : list (pystr * (pystr * Content)))
           (fs : FS) (st : state World)
  : response * FS * state World :=
  if negb analyzer_ready then
    ((500,
      error_body (u "Google Cloud AI analyzer not initialized. Check your API key and configuration.")),
     fs, st)
  else
    match dict_get files (u "document") with
    | None => ((400, error_body (u "No file provided")), fs, st)
    | Some (filename, content) =>
        if str_eqb filename [] then
          ((400, error_body (u "No file selected")), fs, st)
        else
          match mkdir_temp fs with
          | (Raise e, fs1) => (analysis_failed e, fs1, st)
          | (Ok _, fs1) =>
              let file_path := temp_path filename in
              match save file_path content fs1 with
              | (Raise e, fs2) => (analysis_failed e, fs2, st)
              | (Ok _, fs2) =>
                  (* try: analyzer.analyze_document(str(file_path)), the
                     method of the same name *)
                  let (analysis, st') :=
                    analyze_document str_lower str_upper json_loads
                      generate_content (path_exists fs2)
                      (extract_text_from_file fs2) file_path st in
                  (* finally: *)
                  let (cleanup, fs3) :=
                    if path_exists fs2 file_path then unlink file_path fs2
                    else (Ok tt, fs2) in
                  match cleanup, analysis with
                  | Raise e, _ => (analysis_failed e, fs3, st')
                  | Ok _, Raise e => (analysis_failed e, fs3, st')
                  | Ok _, Ok analysis_result =>
                      (analysis_completed filename analysis_result, fs3, st')
                  end
              end
          end
    end.

End Routes.

End Api.

(* ===================================================================== *)
(** ** More concrete collaborators *)
(* ===================================================================== *)

(** Whether the strings of a list are pairwise distinct. *)
Fixpoint all_distinct (l : list pystr) : bool :=
  match l with
  | [] => true
  | x :: l' => negb (str_in x l') && all_distinct l'
  end.

(** Whether a line, once trimmed, is a bare fence. *)
Definition is_bare_fence (line : pystr) : bool := str_eqb (strip line) fence.

(** [if paragraph.text.strip():] *)
Definition has_text (paragraph : pystr) : bool :=
  negb (str_eqb (strip paragraph) []).

Module Fixture.

(** A model service that is down: every call raises [e]. *)
Definition failing_model (e : exn) : pystr -> unit -> outcome pystr * unit :=
  fun _ w => (Raise e, w).

(** A file system holding text files by path; its operations never
    fail. *)
Definition files : Type := list (pystr * pystr).

Definition mkdir_temp (fs : files) : outcome unit * files := (Ok tt, fs).

Definition temp_path (filename : pystr) : pystr :=
  u "temp_uploads/" ++ filename.

Definition save (path content : pystr) (fs : files) : outcome unit * files :=
  (Ok tt, dict_set fs path content).

Definition path_exists (fs : files) (path : pystr) : bool := dict_mem fs path.

Fixpoint remove (fs : files) (path : pystr) : files :=
  match fs with
  | [] => []
  | (p, c) :: fs' =>
      if str_eqb p path then remove fs' path else (p, c) :: remove fs' path
  end.

Definition unlink (path : pystr) (fs : files) : outcome unit * files :=
  (Ok tt, remove fs path).

Definition read_text (fs : files) (path : pystr) : outcome pystr :=
  match dict_get fs path with
  | Some content => Ok content
  | None => Raise (FileNotFoundError (u "No such file or directory"))
  end.

Definition no_pdf (path : pystr) : outcome (list (outcome pystr)) :=
  Raise (ValueError (u "not a PDF file")).

Definition no_docx (path : pystr) : outcome (list pystr) :=
  Raise (ValueError (u "not a DOCX file")).

Definition extract (fs : files) : pystr -> outcome pystr :=
  Extractor.extract_text_from_file Sample.lower no_pdf no_docx (read_text fs).

(** An [unlink] that is refused. *)
Definition locked_unlink (path : pystr) (fs : files) : outcome unit * files :=
  (Raise (PlainException (u "Permission denied")), fs).

(** Readers that find the same pages, or paragraphs, under every
    path. *)
Definition pdf_of (pages : list (outcome pystr)) (path : pystr)
  : outcome (list (outcome pystr)) := Ok pages.

Definition docx_of (paragraphs : list pystr) (path : pystr)
  : outcome (list pystr) := Ok paragraphs.

(** [request.files] of a request that uploads one file. *)
Definition upload (filename content : pystr)
  : list (pystr * (pystr * pystr)) :=
  [ (u "document", (filename, content)) ].

End Fixture.

(* ===================================================================== *)
(** ** Strings and dictionaries: basic facts *)
(* ===================================================================== *)

Unset Implicit Arguments.

Lemma str_eqb_eq (a b : pystr) : str_eqb a b = true <-> a = b.
Proof.
  revert b; induction a as [|x a IH]; intros [|y b]; simpl;
    try (split; [discriminate | discriminate]); try tauto.
  rewrite andb_true_iff, N.eqb_eq, IH.
  split; [intros [-> ->]; reflexivity | intros H; inversion H; auto].
Qed.

Lemma str_eqb_refl (a : pystr) : str_eqb a a = true.
Proof. apply str_eqb_eq; reflexivity. Qed.

Lemma str_eqb_neq (a b : pystr) : str_eqb a b = false <-> a <> b.
Proof.
  rewrite <- str_eqb_eq. destruct (str_eqb a b); split; congruence.
Qed.

Lemma str_in_In (x : pystr) (xs : list pystr) : str_in x xs = true <-> In x xs.
Proof.
  unfold str_in. rewrite existsb_exists. split.
  - intros (y & Hy & E). apply str_eqb_eq in E. subst. exact Hy.
  - intros H. exists x. split; [exact H | apply str_eqb_refl].
Qed.

Lemma dict_get_set_same {V} (d : list (pystr * V)) k v :
  dict_get (dict_set d k v) k = Some v.
Proof.
  induction d as [|[k' v'] d IH]; simpl.
  - rewrite str_eqb_refl. reflexivity.
  - destruct (str_eqb k' k) eqn:E; simpl; rewrite E; auto.
Qed.

Lemma dict_get_set_other {V} (d : list (pystr * V)) k k' v :
  k <> k' -> dict_get (dict_set d k v) k' = dict_get d k'.
Proof.
  intros Hne. induction d as [|[k0 v0] d IH]; simpl.
  - destruct (str_eqb k k') eqn:E; [apply str_eqb_eq in E; contradiction | reflexivity].
  - destruct (str_eqb k0 k) eqn:E; simpl.
    + apply str_eqb_eq in E. subst k0.
      destruct (str_eqb k k') eqn:E'; [apply str_eqb_eq in E'; contradiction | reflexivity].
    + destruct (str_eqb k0 k'); auto.
Qed.

Lemma dict_get_In {V} (d : list (pystr * V)) k v :
  dict_get d k = Some v -> In (k, v) d.
Proof.
  induction d as [|[k' v'] d IH]; simpl; [discriminate|].
  destruct (str_eqb k' k) eqn:E.
  - apply str_eqb_eq in E. intros H. inversion H. subst. left. reflexivity.
  - intros H. right. auto.
Qed.

Lemma dict_get_None {V} (d : list (pystr * V)) k :
  dict_get d k = None -> ~ In k (map fst d).
Proof.
  induction d as [|[k' v'] d IH]; simpl; [tauto|].
  destruct (str_eqb k' k) eqn:E; [discriminate|].
  apply str_eqb_neq in E. intros H [H1|H1]; [contradiction | exact (IH H H1)].
Qed.

(** *** Trimming *)

Lemma lstrip_blank (s : pystr) : forallb isspace s = true -> lstrip s = [].
Proof.
  induction s as [|c s IH]; simpl; [reflexivity|].
  destruct (isspace c); simpl; [exact IH | discriminate].
Qed.

Lemma strip_blank (s : pystr) : forallb isspace s = true -> strip s = [].
Proof. intros H. unfold strip. rewrite (lstrip_blank s H). reflexivity. Qed.

Lemma lstrip_head (c : char) (s : pystr) :
  isspace c = false -> lstrip (c :: s) = c :: s.
Proof. intros H. simpl. rewrite H. reflexivity. Qed.

Lemma rstrip_app_last (s : pystr) (c : char) :
  isspace c = false -> rstrip (s ++ [c]) = s ++ [c].
Proof.
  intros H. induction s as [|x s IH]; simpl.
  - rewrite H. reflexivity.
  - rewrite IH. destruct (s ++ [c]) eqn:E; [|reflexivity].
    destruct s; discriminate.
Qed.

(** *** Splitting into lines and joining *)

Lemma split_lines_nonempty (s : pystr) : split_lines s <> [].
Proof.
  induction s as [|c s IH]; simpl; [discriminate|].
  destruct (N.eqb c newline); [discriminate|].
  destruct (split_lines s); [contradiction | discriminate].
Qed.

Lemma join_split_lines (s : pystr) : join_lines (split_lines s) = s.
Proof.
  induction s as [|c s IH]; [reflexivity|].
  simpl split_lines. destruct (N.eqb c newline) eqn:E.
  - apply N.eqb_eq in E. subst c.
    pose proof (split_lines_nonempty s) as Hne.
    destruct (split_lines s) as [|l ls] eqn:Es; [contradiction|].
    change (join_lines ([] :: l :: ls)) with (newline :: join_lines (l :: ls)).
    rewrite IH. reflexivity.
  - pose proof (split_lines_nonempty s) as Hne.
    destruct (split_lines s) as [|l ls] eqn:Es; [contradiction|].
    destruct ls as [|l' ls]; simpl in *; rewrite <- IH; reflexivity.
Qed.

Lemma split_lines_no_newline (s : pystr) :
  forallb (fun c => negb (N.eqb c newline)) s = true -> split_lines s = [s].
Proof.
  induction s as [|c s IH]; simpl; [reflexivity|].
  destruct (N.eqb c newline); simpl; [discriminate|].
  intros H. rewrite (IH H). reflexivity.
Qed.

Lemma split_lines_app (a b : pystr) :
  forallb (fun c => negb (N.eqb c newline)) a = true ->
  split_lines (a ++ newline :: b) = a :: split_lines b.
Proof.
  induction a as [|c a IH]; simpl.
  - reflexivity.
  - destruct (N.eqb c newline); simpl; [discriminate|].
    intros H. rewrite (IH H). reflexivity.
Qed.

Lemma split_lines_app_last (a b : pystr) :
  forallb (fun c => negb (N.eqb c newline)) b = true ->
  split_lines (a ++ newline :: b) = split_lines a ++ [b].
Proof.
  intros Hb. induction a as [|c a IH]; simpl.
  - rewrite (split_lines_no_newline b Hb). reflexivity.
  - destruct (N.eqb c newline); simpl; [rewrite IH; reflexivity|].
    rewrite IH.
    pose proof (split_lines_nonempty a) as Hne.
    destruct (split_lines a); [contradiction | reflexivity].
Qed.

(* ===================================================================== *)
(** ** The reference decoder is total *)
(* ===================================================================== *)

Lemma skip_ws_ge (rest : pystr) (idx : nat) : idx <= Json.skip_ws rest idx.
Proof.
  revert idx; induction rest as [|c rest IH]; intros idx; simpl; [lia|].
  destruct (Json.is_ws c); [|lia]. specialize (IH (S idx)). lia.
Qed.

Lemma ws_end_ge (s : pystr) (idx : nat) : idx <= Json.ws_end s idx.
Proof. apply skip_ws_ge. Qed.

Lemma char_is_lt (s : pystr) (idx : nat) (c : char) :
  Json.char_is s idx c = true -> idx < length s.
Proof.
  unfold Json.char_is. destruct (nth_error s idx) eqn:E; [|discriminate].
  intros _. apply nth_error_Some. congruence.
Qed.

Lemma decode_exn_is_decoder_error (levels : nat) (msg : string)
      (s : pystr) (pos : nat) :
  decoder_error s (Json.decode_exn levels msg s pos).
Proof.
  destruct levels as [|[|[|levels]]]; cbn [Json.decode_exn decoder_error In];
    auto.
Qed.

Lemma scanstring_from_ended (s : pystr) (levels begin : nat) :
  forall fuel next acc,
    well_ended s (Json.scanstring_from fuel levels s begin next acc)
    /\ advances next (Json.scanstring_from fuel levels s begin next acc).
Proof.
  induction fuel as [|fuel IH]; intros next acc; cbn [Json.scanstring_from].
  - split; [apply decode_exn_is_decoder_error | exact I].
  - repeat match goal with
           | |- context [match ?x with _ => _ end] => destruct x eqn:?
           | |- context [if ?x then _ else _] => destruct x eqn:?
           end;
      try (split; [apply decode_exn_is_decoder_error | exact I]);
      try (split; cbn; solve [reflexivity | lia]);
      match goal with
      | |- context [Json.scanstring_from fuel levels s begin ?n ?a] =>
          destruct (IH n a) as [Hw Ha]; split; [exact Hw|];
          destruct (Json.scanstring_from fuel levels s begin n a);
          cbn in *; lia
      end.
Qed.

Lemma scanstring_ended (levels : nat) (s : pystr) (end_ : nat) :
  well_ended s (Json.scanstring levels s end_)
  /\ advances end_ (Json.scanstring levels s end_).
Proof. apply scanstring_from_ended. Qed.

Lemma match_number_advances (s : pystr) (idx : nat) integer frac exp e :
  Json.match_number s idx = Some (integer, frac, exp, e) -> idx < e.
Proof.
  unfold Json.match_number. cbv zeta.
  destruct (if Json.char_is s (idx + length (if Json.char_is s idx (Json.ch "-") then [Json.ch "-"] else [])) (Json.ch "0")
            then [Json.ch "0"]
            else Json.digits_at s (idx + length (if Json.char_is s idx (Json.ch "-") then [Json.ch "-"] else [])))
    as [|d ds] eqn:E; [discriminate|].
  intros H. injection H as _ _ _ <-. cbn [length]. lia.
Qed.

Lemma nth_error_lt {A} (l : list A) (i : nat) (x : A) :
  nth_error l i = Some x -> i < length l.
Proof. intros H. apply nth_error_Some. congruence. Qed.

Ltac scan_facts s :=
  repeat match goal with
         | H : negb _ = false |- _ => apply negb_false_iff in H
         | H : negb _ = true |- _ => apply negb_true_iff in H
         | H : nth_error s ?i = Some _ |- _ =>
             lazymatch goal with
             | _ : i < length s |- _ => fail
             | _ => pose proof (nth_error_lt _ _ _ H)
             end
         | H : Json.char_is s ?i _ = true |- _ =>
             lazymatch goal with
             | _ : i < length s |- _ => fail
             | _ => pose proof (char_is_lt _ _ _ H)
             end
         | H : Json.match_number s ?i = Some (_, _, _, ?e) |- _ =>
             lazymatch goal with
             | _ : i < e |- _ => fail
             | _ => pose proof (match_number_advances _ _ _ _ _ _ H)
             end
         | |- context [Json.ws_end s ?i] =>
             lazymatch goal with
             | _ : i <= Json.ws_end s i |- _ => fail
             | _ => pose proof (ws_end_ge s i)
             end
         | _ : context [Json.ws_end s ?i] |- _ =>
             lazymatch goal with
             | _ : i <= Json.ws_end s i |- _ => fail
             | _ => pose proof (ws_end_ge s i)
             end
         end.

Ltac scan_leaf s fuel IHobj IHarr :=
  cbn [well_ended advances Json.decode_error Json.recursion_error
       Json.int_limit_error Json.constant] in *;
  scan_facts s;
  lazymatch goal with
  | |- advances _ (Json.object_loop fuel ?d s ?p ?x) /\ _ =>
      let Ha := fresh "Ha" in
      let Hw := fresh "Hw" in
      destruct (IHobj d p x) as [Ha Hw]; split;
      [ destruct (Json.object_loop fuel d s p x); cbn [advances] in *; try lia; exact I
      | intros; apply Hw; lia ]
  | |- advances _ (Json.array_loop fuel ?d s ?p ?x) /\ _ =>
      let Ha := fresh "Ha" in
      let Hw := fresh "Hw" in
      destruct (IHarr d p x) as [Ha Hw]; split;
      [ destruct (Json.array_loop fuel d s p x); cbn [advances] in *; try lia; exact I
      | intros; apply Hw; lia ]
  | |- _ /\ _ =>
      split;
      [ first [ exact I | lia ]
      | intros;
        first [ exact I | assumption | exfalso; lia
              | apply decode_exn_is_decoder_error
              | cbn [decoder_error In]; solve [auto]
              | cbn [decoder_error]; eexists; split; [|reflexivity];
                match goal with
                | H : Nat.ltb _ _ = true |- _ => apply Nat.ltb_lt in H; exact H
                end
              | match goal with
                | H : _ -> ?G |- ?G => apply H; lia
                end ] ]
  end.

Ltac scan_cases s fuel IHscan :=
  repeat match goal with
         | |- context [match Json.scan_once fuel ?d s ?i with _ => _ end] =>
             let Ha := fresh "Ha" in
             let Hw := fresh "Hw" in
             destruct (IHscan d i) as [Ha Hw];
             destruct (Json.scan_once fuel d s i) eqn:?
         | |- context [match Json.scanstring ?l s ?i with _ => _ end] =>
             let Ha := fresh "Ha" in
             let Hw := fresh "Hw" in
             destruct (scanstring_ended l s i) as [Hw Ha];
             destruct (Json.scanstring l s i) eqn:?
         | |- context [Json.char_is s (if ?x then _ else _) _] =>
             destruct x eqn:?
         | |- context [if ?x then _ else _] => destruct x eqn:?
         | |- context [match ?x with _ => _ end] => destruct x eqn:?
         end.

Lemma scan_sound (s : pystr) :
  forall fuel,
    (forall depth idx,
        advances idx (Json.scan_once fuel depth s idx)
        /\ (2 * (length s - idx) <= fuel ->
            well_ended s (Json.scan_once fuel depth s idx)))
    /\ (forall depth pos pairs,
           advances pos (Json.object_loop fuel depth s pos pairs)
           /\ (2 * (length s - pos) - 1 <= fuel ->
               well_ended s (Json.object_loop fuel depth s pos pairs)))
    /\ (forall depth pos values,
           advances pos (Json.array_loop fuel depth s pos values)
           /\ (2 * (length s - pos) + 1 <= fuel ->
               well_ended s (Json.array_loop fuel depth s pos values))).
Proof.
  induction fuel as [|fuel (IHscan & IHobj & IHarr)].
  - assert (IHscan : forall depth idx : nat, True /\ True)
      by (intros; split; exact I).
    assert (IHobj : forall (depth p : nat) (x : list (pystr * pyval)),
               True /\ True)
      by (intros; split; exact I).
    assert (IHarr : forall (depth p : nat) (x : list pyval), True /\ True)
      by (intros; split; exact I).
    split; [|split]; intros;
      cbn [Json.scan_once Json.object_loop Json.array_loop];
      unfold Json.constant;
      scan_cases s 0 IHscan; scan_leaf s 0 IHobj IHarr.
  - split; [|split]; intros;
      cbn [Json.scan_once Json.object_loop Json.array_loop];
      unfold Json.constant;
      scan_cases s fuel IHscan; scan_leaf s fuel IHobj IHarr.
Qed.

(** The reference decoder returns a value or raises one of its three
    exceptions: a [JSONDecodeError] for the document it was given, a
    [RecursionError] where the recursion limit leaves no level, or the
    [ValueError] of an integer of more than 4300 digits.  Its fuel
    never runs out. *)
Lemma loads_total (depth : nat) (s : pystr) :
  match Json.loads_within depth s with
  | Ok _ => True
  | Raise e => decoder_error s e
  end.
Proof.
  unfold Json.loads_within.
  destruct (startswith [65279%N] s); [reflexivity|].
  unfold Json.decode.
  destruct (scan_sound s (2 * length s)) as (Hscan & _ & _).
  destruct (Hscan depth (Json.ws_end s 0)) as [_ Hw].
  assert (Hfuel : 2 * (length s - Json.ws_end s 0) <= 2 * length s) by lia.
  specialize (Hw Hfuel).
  destruct (Json.scan_once (2 * length s) depth s (Json.ws_end s 0))
    as [v e|i|e|]; cbn [well_ended] in Hw.
  - destruct (Json.ws_end s e =? length s)%nat;
      [exact I | apply decode_exn_is_decoder_error].
  - apply decode_exn_is_decoder_error.
  - exact Hw.
  - contradiction.
Qed.

(** The classes of exception the reference decoder raises. *)
Lemma loads_raises (depth : nat) (body : pystr) (e : exn) :
  Json.loads_within depth body = Raise e ->
  (exists msg pos, e = JSONDecodeError msg body pos)
  \/ (exists msg, e = RecursionError msg)
  \/ (exists msg, e = ValueError msg).
Proof.
  intros H. pose proof (loads_total depth body) as Ht. rewrite H in Ht.
  destruct e; cbn [decoder_error] in Ht; try contradiction.
  - right. right. eauto.
  - left. subst doc. eauto.
  - right. left. eauto.
Qed.

(* ===================================================================== *)
(** ** Template registry *)
(* ===================================================================== *)

(** C1 (amended).  For every document type of the closed set, the fields
    of its template include [documentType], [summary] and
    [recommendations]; they include [risks] exactly when the type is not
    [judgment], whose template lists [implications] instead. *)
Theorem template_common_fields (document_type : pystr) :
  In document_type valid_types ->
  let t := _get_document_template document_type in
  has_field t "documentType" = true
  /\ has_field t "summary" = true
  /\ has_field t "recommendations" = true
  /\ has_field t "risks" = negb (str_eqb document_type (u "judgment")).
Proof.
  unfold valid_types, us. simpl In. intros H.
  repeat (destruct H as [<- | H]; [vm_compute; repeat split; reflexivity|]).
  contradiction.
Qed.

(* ===================================================================== *)
(** ** Properties of the analyzer *)
(* ===================================================================== *)

Section Properties.

Context (str_lower str_upper : pystr -> pystr).
Context (json_loads : pystr -> outcome pyval).
Context (World : Type).
Context (generate_content : pystr -> World -> outcome pystr * World).
Context (path_exists : pystr -> bool).
Context (extract_text_from_file : pystr -> outcome pystr).

Notation detect := (_detect_document_type str_lower generate_content).
Notation create_prompt :=
  (_create_analysis_prompt str_lower str_upper generate_content).
Notation build_prompt := (prompt_for_type str_upper).
Notation parse := (_parse_ai_response str_lower json_loads).
Notation strip_fence := (strip_code_fence str_lower).
Notation analyze :=
  (analyze_document str_lower str_upper json_loads generate_content
                    path_exists extract_text_from_file).
Notation ask := (call_model generate_content).
Notation classify := (classify_reply str_lower).
Notation detected := (detected_type str_lower generate_content).
Notation next_state := (after_detect generate_content).

Lemma classify_reply_valid (reply : outcome pystr) :
  In (classify reply) valid_types.
Proof.
  unfold classify_reply. destruct reply as [text|e].
  - destruct (str_in (str_lower (strip text)) valid_types) eqn:E.
    + apply str_in_In. exact E.
    + apply str_in_In. reflexivity.
  - apply str_in_In. reflexivity.
Qed.

(** One run of the classifier: a single model call, whose outcome is
    classified. *)
Lemma detect_run (document_text : pystr) (st : state World) :
  detect document_text st
  = (Ok (detected document_text st), next_state document_text st).
Proof.
  unfold _detect_document_type, try_except, bind, call_model, ret,
    detected_type, after_detect.
  destruct (generate_content (detection_prompt document_text) (world st))
    as [[reply|e] w]; cbv beta iota; cbn [fst snd classify_reply];
    [|reflexivity].
  destruct (str_in (str_lower (strip reply)) valid_types); reflexivity.
Qed.

(** C3.  Whatever the document text and whatever the model service
    does, classification returns a label of the closed set and never
    raises: the reply is trimmed and lowercased and returned when it
    is one of the labels; any other reply, and any error of the
    service, gives [general].  Exactly one prompt is submitted, and the
    set has 18 labels. *)
Theorem classification_total (document_text : pystr) (st : state World) :
  exists (document_type : pystr) (st' : state World),
    detect document_text st = (Ok document_type, st')
    /\ In document_type valid_types
    /\ document_type =
       match fst (generate_content (detection_prompt document_text) (world st)) with
       | Ok reply =>
           if str_in (str_lower (strip reply)) valid_types
           then str_lower (strip reply) else u "general"
       | Raise _ => u "general"
       end
    /\ calls st' = calls st ++ [detection_prompt document_text]
    /\ length valid_types = 18.
Proof.
  eexists. eexists. split; [apply detect_run|].
  split; [apply classify_reply_valid|].
  repeat split; reflexivity.
Qed.

(** C10.  When the text extracted from an existing file is empty or
    only whitespace, the analysis fails with the empty-document error
    and leaves the state as it found it: no prompt has been submitted
    to the model service. *)
Theorem empty_document_fails_fast
        (file_path document_text : pystr) (st : state World) :
  path_exists file_path = true ->
  extract_text_from_file file_path = Ok document_text ->
  forallb isspace document_text = true ->
  analyze file_path st =
  (Raise (ValueError (u "No text could be extracted from the document")), st).
Proof.
  intros Hex Htext Hblank.
  unfold analyze_document. rewrite Hex. simpl negb. cbv iota.
  unfold bind, lift. rewrite Htext.
  rewrite (strip_blank document_text Hblank). reflexivity.
Qed.

(** *** Response parser *)

Lemma strip_fenced (reply : pystr) : strip (fenced reply) = fenced reply.
Proof.
  unfold strip, fenced.
  change (u "```json") with (96%N :: u "``json").
  rewrite <- app_comm_cons, lstrip_head by reflexivity.
  change (u "```") with (u "``" ++ [96%N]).
  change (newline :: u "``" ++ [96%N]) with ((newline :: u "``") ++ [96%N]).
  rewrite (app_assoc reply), (app_comm_cons _ _ newline), app_comm_cons.
  rewrite !app_assoc.
  apply rstrip_app_last. reflexivity.
Qed.

Lemma closing_fence_index_last (lines : list pystr) :
  closing_fence_index (lines ++ [fence]) = length lines.
Proof.
  unfold closing_fence_index.
  rewrite length_app, Nat.add_comm. cbn [length Nat.add].
  rewrite seq_S, rev_app_distr. cbn [rev app Nat.add find].
  rewrite nth_error_app2, Nat.sub_diag by lia.
  reflexivity.
Qed.

Lemma strip_fence_fenced (reply : pystr) :
  str_eqb (str_lower (strip (hd [] (split_lines reply)))) (u "json") = false ->
  strip_fence (fenced reply) = Ok reply.
Proof.
  intros Htag. unfold strip_code_fence.
  rewrite strip_fenced.
  replace (startswith fence (fenced reply)) with true by reflexivity.
  unfold fenced.
  rewrite split_lines_app by reflexivity.
  rewrite split_lines_app_last by reflexivity.
  pose proof (split_lines_nonempty reply) as Hne.
  pose proof (join_split_lines reply) as Hjoin.
  destruct (split_lines reply) as [|line1 rest] eqn:E; [contradiction|].
  cbn [nth_error app hd] in *. rewrite Htag.
  change (u "```json" :: line1 :: rest ++ [u "```"])
    with ((u "```json" :: line1 :: rest) ++ [fence]).
  rewrite closing_fence_index_last.
  unfold slice. cbn [length Nat.sub skipn app].
  change (line1 :: rest ++ [fence]) with ((line1 :: rest) ++ [fence]).
  change (S (length rest)) with (length (line1 :: rest)).
  rewrite firstn_app, Nat.sub_diag, firstn_all. cbn [firstn].
  rewrite app_nil_r, Hjoin. reflexivity.
Qed.

Lemma decode_error_str_nonempty (msg doc : pystr) (pos : nat) :
  decode_error_str msg doc pos <> [].
Proof.
  unfold decode_error_str. intros H.
  apply (f_equal (@length char)) in H.
  rewrite !length_app in H.
  change (length (u ": line ")) with 7 in H.
  cbn [length] in H. lia.
Qed.

(** C4 (the failing case).  A reply made of a single fence line makes
    the parser raise [IndexError] instead of returning a result:
    [lines[1]] does not exist, and only [JSONDecodeError] is caught. *)
Theorem single_fence_line_raises :
  parse (u "```") = Raise (IndexError (u "list index out of range")).
Proof. reflexivity. Qed.

(** Every reply that, once trimmed, begins with a fence and has no
    second line makes the parser raise. *)
Lemma one_line_fence_raises (reply : pystr) :
  startswith fence (strip reply) = true ->
  forallb (fun c => negb (N.eqb c newline)) (strip reply) = true ->
  parse reply = Raise (IndexError (u "list index out of range")).
Proof.
  intros Hf Hline. unfold _parse_ai_response, strip_code_fence.
  rewrite Hf, (split_lines_no_newline _ Hline). reflexivity.
Qed.

(** Apart from one-line fenced replies, the parser returns a result
    whenever [json.loads] raises nothing but [JSONDecodeError]. *)
Lemma parse_returns (reply : pystr) :
  (forall body e, json_loads body = Raise e ->
                  exists msg doc pos, e = JSONDecodeError msg doc pos) ->
  startswith fence (strip reply) = false
  \/ 2 <= length (split_lines (strip reply)) ->
  exists result, parse reply = Ok result.
Proof.
  intros Hjson Hshape.
  unfold _parse_ai_response, strip_code_fence.
  assert (Hbody : forall body, exists result,
             match json_loads body with
             | Ok parsed_response => Ok parsed_response
             | Raise (JSONDecodeError msg doc pos) =>
                 Ok (fallback_response (decode_error_str msg doc pos) body)
             | Raise e => Raise e
             end = Ok result).
  { intros body. destruct (json_loads body) as [v|e] eqn:E.
    - eexists; reflexivity.
    - destruct (Hjson body e E) as (msg & doc & pos & ->).
      eexists; reflexivity. }
  destruct (startswith fence (strip reply)) eqn:Hf.
  - destruct Hshape as [Hshape|Hshape]; [discriminate|].
    destruct (split_lines (strip reply)) as [|l0 [|l1 ls]];
      cbn [length] in Hshape; try lia.
    cbn [nth_error]. apply Hbody.
  - apply Hbody.
Qed.

(** The [except] clause of the parser names [json.JSONDecodeError]:
    any other exception of [json.loads] leaves the parser. *)
Lemma other_decoder_errors_escape (reply body : pystr) (e : exn) :
  strip_fence reply = Ok body ->
  json_loads body = Raise e ->
  (forall msg doc pos, e <> JSONDecodeError msg doc pos) ->
  parse reply = Raise e.
Proof.
  intros Hfence Hjson Hother.
  unfold _parse_ai_response. rewrite Hfence, Hjson.
  destruct e; try reflexivity.
  contradiction (Hother msg doc pos). reflexivity.
Qed.

(** C5 (amended).  When [json.loads] raises [JSONDecodeError] on the
    trimmed, fence-stripped content of a reply, the parser returns the
    fallback result: [error] is "JSON parsing failed", [errorDetails]
    is the decoder's message, which is not empty, [rawResponse] is that
    content (not the reply as received) cut to 1000 characters with
    "..." appended when it is longer, and [recommendations] is a list
    with the single item advising manual review. *)
Theorem invalid_json_gives_fallback
        (reply body msg doc : pystr) (pos : nat) :
  strip_fence reply = Ok body ->
  json_loads body = Raise (JSONDecodeError msg doc pos) ->
  exists (result item : pyval),
    parse reply = Ok result
    /\ map fst (match result with PDict d => d | _ => [] end)
       = us ["documentType"; "summary"; "error"; "errorDetails";
             "rawResponse"; "recommendations"]
    /\ py_getitem result (u "error") = Some (PStr (u "JSON parsing failed"))
    /\ py_getitem result (u "errorDetails")
       = Some (PStr (decode_error_str msg doc pos))
    /\ decode_error_str msg doc pos <> []
    /\ py_getitem result (u "rawResponse")
       = Some (PStr (if (1000 <? length body)%nat
                     then firstn 1000 body ++ u "..." else body))
    /\ py_getitem result (u "recommendations") = Some (PList [item])
    /\ py_getitem item (u "item") = Some (PStr (u "Manual review recommended")).
Proof.
  intros Hfence Hjson.
  unfold _parse_ai_response. rewrite Hfence, Hjson.
  eexists. eexists.
  split; [reflexivity|].
  split; [reflexivity|].
  split; [reflexivity|].
  split; [reflexivity|].
  split; [apply decode_error_str_nonempty|].
  split; [reflexivity|].
  split; reflexivity.
Qed.

(** C6 (amended).  Take a reply whose trimmed form does not begin with a
    fence, whose first line is not the word [json], and which either has
    no leading or trailing whitespace or is valid JSON decoding to the
    same value once trimmed.  Wrapped in a [json] fence, it parses to
    the same result as unwrapped. *)
Theorem fenced_reply_parses_alike (reply : pystr) :
  startswith fence (strip reply) = false ->
  str_eqb (str_lower (strip (hd [] (split_lines reply)))) (u "json") = false ->
  strip reply = reply
  \/ (exists v, json_loads reply = Ok v /\ json_loads (strip reply) = Ok v) ->
  parse (fenced reply) = parse reply.
Proof.
  intros Hf Htag Hpad. unfold _parse_ai_response.
  rewrite (strip_fence_fenced reply Htag).
  unfold strip_code_fence. rewrite Hf.
  destruct Hpad as [Hs | (v & Hv & Hv')].
  - rewrite Hs. reflexivity.
  - rewrite Hv, Hv'. reflexivity.
Qed.

(** *** Running the orchestrator *)

Lemma max_chars_value : max_chars = 30000.
Proof. reflexivity. Qed.

Lemma truncate_short (document_text : pystr) :
  length document_text <= max_chars ->
  truncate_document document_text = document_text.
Proof.
  intros H. unfold truncate_document.
  destruct (Nat.ltb_spec max_chars (length document_text)); [lia | reflexivity].
Qed.

Lemma truncate_long (document_text : pystr) :
  max_chars < length document_text ->
  truncate_document document_text
  = firstn max_chars document_text ++ truncation_marker.
Proof.
  intros H. unfold truncate_document, slice.
  destruct (Nat.ltb_spec max_chars (length document_text)); [|lia].
  rewrite Nat.sub_0_r. reflexivity.
Qed.

(** The classifier reads the same excerpt before and after
    truncation. *)
Lemma detection_prompt_truncate (document_text : pystr) :
  detection_prompt (truncate_document document_text)
  = detection_prompt document_text.
Proof.
  unfold detection_prompt. f_equal. f_equal.
  destruct (Nat.le_gt_cases (length document_text) max_chars) as [H|H].
  - rewrite truncate_short by exact H. reflexivity.
  - rewrite truncate_long by exact H.
    unfold slice. cbn [skipn]. rewrite Nat.sub_0_r.
    assert (H4 : 4000 <= max_chars)
      by (rewrite max_chars_value; apply Nat.leb_le; reflexivity).
    rewrite firstn_app, firstn_firstn.
    rewrite length_firstn.
    replace (Nat.min 4000 max_chars) with 4000 by lia.
    replace (4000 - Nat.min max_chars (length document_text)) with 0 by lia.
    cbn [firstn]. apply app_nil_r.
Qed.

Lemma create_prompt_run (document_text : pystr) (st : state World) :
  create_prompt document_text st
  = (Ok (build_prompt document_text (detected document_text st)),
     next_state document_text st).
Proof.
  unfold _create_analysis_prompt, bind. rewrite detect_run. reflexivity.
Qed.

(** What a successful analysis went through. *)
Lemma analyze_returns (file_path : pystr) (st st' : state World)
      (result : pyval) :
  analyze file_path st = (Ok result, st') ->
  exists (document_text reply : pystr) (parsed : list (pystr * pyval)),
    let document_type := detected document_text st in
    let st1 := next_state document_text st in
    let truncated := truncate_document document_text in
    let prompt := build_prompt truncated (detected truncated st1) in
    let st2 := next_state truncated st1 in
    path_exists file_path = true
    /\ extract_text_from_file file_path = Ok document_text
    /\ fst (generate_content prompt (world st2)) = Ok reply
    /\ parse reply = Ok (PDict parsed)
    /\ result =
       PDict (dict_set
                (dict_set parsed (u "detectedDocumentType")
                          (PStr document_type))
                (u "analysisMetadata")
                (analysis_metadata truncated document_type))
    /\ calls st' = calls st2 ++ [prompt].
Proof.
  unfold analyze_document.
  destruct (path_exists file_path) eqn:Hex; cbn [negb];
    [|unfold raise; intros H; discriminate].
  unfold bind at 1. unfold lift at 1.
  destruct (extract_text_from_file file_path) as [document_text|e] eqn:Htext;
    [|intros H; discriminate].
  destruct (str_eqb (strip document_text) []);
    [unfold raise; intros H; discriminate|].
  unfold bind at 1. rewrite detect_run.
  unfold bind at 1. rewrite create_prompt_run.
  unfold bind at 1. unfold call_model at 1.
  destruct (generate_content
              (build_prompt (truncate_document document_text)
                 (detected (truncate_document document_text)
                           (next_state document_text st)))
              (world (next_state (truncate_document document_text)
                                 (next_state document_text st))))
    as [[reply|e] w3] eqn:Hgen; [|intros H; discriminate].
  destruct (str_eqb reply []); [unfold raise; intros H; discriminate|].
  unfold bind, lift, ret.
  destruct (parse reply) as [parsed|e] eqn:Hparse; [|intros H; discriminate].
  destruct parsed as [| | | | | |parsed];
    try (cbn [py_setitem]; intros H; discriminate).
  cbn [py_setitem]. intros H. inversion H; subst result st'; clear H.
  exists document_text, reply, parsed. cbn zeta.
  rewrite Hgen. cbn [fst calls].
  repeat split; solve [reflexivity | assumption].
Qed.

Lemma build_prompt_embeds_text (document_text document_type : pystr) :
  exists rest : pystr,
    build_prompt document_text document_type
    = prompt_intro ++ document_text ++ rest.
Proof.
  unfold prompt_for_type.
  set (template := _get_document_template document_type).
  set (json_fields := json_fields_for document_type template).
  assert (Hfold : forall (steps : list (nat * pystr)) (before after : pystr),
             exists rest,
               fold_left (schema_step template json_fields) steps
                         (before ++ after)
               = before ++ rest).
  { induction steps as [|[i field] steps IH]; intros before after.
    - exists after. reflexivity.
    - cbn [fold_left]. unfold schema_step at 2.
      destruct (str_in field risk_fields);
        [|destruct (str_in field plural_fields)];
        destruct (i <? length (fields template) - 1)%nat;
        rewrite <- ?app_assoc; apply IH. }
  rewrite (app_assoc prompt_intro).
  destruct (Hfold (enumerate (fields template))
                  (prompt_intro ++ document_text)
                  (prompt_type_label ++ str_upper document_type
                     ++ prompt_focus_label ++ focus template ++ prompt_mission))
    as [rest Hrest].
  rewrite Hrest. exists (rest ++ prompt_closing).
  rewrite <- !app_assoc. reflexivity.
Qed.

(** C2 (amended).  When the analysis of a file returns, the
    [documentLength] of its metadata is the exact length of the
    extracted text if that length is at most 30,000, the bound
    included; if the text is longer, it is 30,000 plus the length of
    the truncation marker, and the prompt submitted for analysis
    contains the first 30,000 characters followed by the marker. *)
Theorem document_length_after_truncation
        (file_path document_text : pystr) (st st' : state World)
        (result : pyval) :
  extract_text_from_file file_path = Ok document_text ->
  analyze file_path st = (Ok result, st') ->
  (length document_text <= 30000 ->
   documentLength result = Some (PInt (Z.of_nat (length document_text))))
  /\ (30000 < length document_text ->
      documentLength result
      = Some (PInt (Z.of_nat (30000 + length truncation_marker)))
      /\ exists before after : pystr,
          last (calls st') []
          = before ++ (firstn 30000 document_text ++ truncation_marker)
                   ++ after).
Proof.
  intros Htext Hrun.
  destruct (analyze_returns _ _ _ _ Hrun)
    as (text & reply & parsed & _ & Htext' & _ & _ & -> & Hcalls).
  rewrite Htext in Htext'. inversion Htext'; subst text; clear Htext'.
  unfold documentLength, py_getitem. rewrite dict_get_set_same.
  cbn [analysis_metadata dict_get]. replace (str_eqb (u "documentLength") (u "documentLength")) with true by reflexivity.
  rewrite <- max_chars_value. split.
  - intros Hshort. rewrite truncate_short by exact Hshort. reflexivity.
  - intros Hlong. split.
    + rewrite truncate_long by exact Hlong.
      rewrite length_app, length_firstn.
      replace (Nat.min max_chars (length document_text)) with max_chars by lia.
      reflexivity.
    + rewrite Hcalls, last_last.
      destruct (build_prompt_embeds_text (truncate_document document_text)
                  (detected (truncate_document document_text)
                            (next_state document_text st)))
        as [rest Hrest].
      rewrite Hrest, truncate_long by exact Hlong.
      exists prompt_intro, rest. reflexivity.
Qed.


(** *** Prompt synthesizer *)

Lemma list_entry_risk (field : pystr) :
  str_in field risk_fields = true ->
  list_entry field (u "actionable")
  = entry_label field ++ sequence_instruction field.
Proof.
  intros H. unfold list_entry, entry_label, sequence_instruction.
  rewrite H. rewrite <- app_comm_cons, <- !app_assoc. reflexivity.
Qed.

Lemma list_entry_plural (field : pystr) :
  str_in field risk_fields = false ->
  list_entry field (u "practical")
  = entry_label field ++ sequence_instruction field.
Proof.
  intros H. unfold list_entry, entry_label, sequence_instruction.
  rewrite H. rewrite <- app_comm_cons, <- !app_assoc. reflexivity.
Qed.

Lemma string_entry_scalar (field hint : pystr) :
  string_entry field hint = entry_label field ++ scalar_instruction hint.
Proof.
  unfold string_entry, entry_label, scalar_instruction.
  rewrite <- app_comm_cons, <- !app_assoc. reflexivity.
Qed.

Lemma enhanced_types_have_templates (document_type : pystr) :
  dict_get templates document_type = None ->
  dict_get enhanced_descriptions document_type = None.
Proof.
  intros Hnone.
  destruct (dict_get enhanced_descriptions document_type) as [hints|] eqn:E;
    [|reflexivity].
  exfalso. apply (dict_get_None _ _ Hnone).
  apply dict_get_In in E.
  apply (in_map fst) in E. cbn [fst] in E.
  revert E. generalize document_type.
  apply Forall_forall. vm_compute.
  repeat (constructor; [tauto|]). constructor.
Qed.

Lemma template_unknown (document_type : pystr) :
  dict_get templates document_type = None ->
  _get_document_template document_type = general_template.
Proof.
  intros H. unfold _get_document_template. rewrite H. reflexivity.
Qed.

Lemma template_known (document_type : pystr) (t : Template) :
  dict_get templates document_type = Some t ->
  In document_type (map fst templates).
Proof.
  intros H. apply dict_get_In in H. apply (in_map fst) in H. exact H.
Qed.

(** The description the code looks up for a field that is not a
    sequence is text, and it is the field's hint. *)
Lemma description_is_hint (document_type field : pystr) :
  In field (fields (_get_document_template document_type)) ->
  is_sequence_field field = false ->
  format_description
    match
      dict_get (json_fields_for document_type
                  (_get_document_template document_type)) field
    with
    | Some d => d
    | None => DText (generic_description field)
    end
  = field_hint document_type field.
Proof.
  destruct (dict_get templates document_type) as [t|] eqn:Ht.
  - apply template_known in Ht. revert field.
    vm_compute in Ht.
    repeat (destruct Ht as [<- | Ht];
            [ intros field Hin Hseq; vm_compute in Hin;
              repeat (destruct Hin as [<- | Hin];
                      [ first [ reflexivity | discriminate Hseq ] | ]);
              contradiction | ]).
    contradiction.
  - pose proof (enhanced_types_have_templates _ Ht) as He.
    unfold field_hint, hint_map_entry, json_fields_for, apply_enhanced.
    rewrite (template_unknown _ Ht), He.
    intros Hin Hseq. vm_compute in Hin.
    repeat (destruct Hin as [<- | Hin];
            [ first [ reflexivity | discriminate Hseq ] | ]).
    contradiction.
Qed.

Lemma schema_step_entry (document_type : pystr) (i : nat)
      (field prompt : pystr) :
  let template := _get_document_template document_type in
  In field (fields template) ->
  schema_step template (json_fields_for document_type template) prompt
              (i, field)
  = prompt ++ schema_entry (field_hint document_type) field
           ++ (if (i <? length (fields template) - 1)%nat then u "," else []).
Proof.
  intros template Hin. unfold schema_step, schema_entry, is_sequence_field.
  destruct (str_in field risk_fields) eqn:Hr; cbn [orb].
  - rewrite (list_entry_risk field Hr).
    destruct (i <? length (fields template) - 1)%nat;
      rewrite <- ?app_assoc, ?app_nil_r; reflexivity.
  - destruct (str_in field plural_fields) eqn:Hp.
    + rewrite (list_entry_plural field Hr).
      destruct (i <? length (fields template) - 1)%nat;
        rewrite <- ?app_assoc, ?app_nil_r; reflexivity.
    + rewrite string_entry_scalar.
      unfold template.
      rewrite (description_is_hint document_type field Hin)
        by (unfold is_sequence_field; rewrite Hr, Hp; reflexivity).
      destruct (i <? length (fields (_get_document_template document_type)) - 1)%nat;
        rewrite <- ?app_assoc, ?app_nil_r; reflexivity.
Qed.

(** A loop that appends one entry per element, and a comma after all
    but the last, builds the comma-separated list of the entries. *)
Lemma enumerate_fold_join (step : pystr -> nat * pystr -> pystr)
      (entry : pystr -> pystr) (n : nat) :
  forall (l : list pystr) (k : nat) (prompt : pystr),
    k + length l = n ->
    (forall i field p, In field l ->
       step p (i, field)
       = p ++ entry field ++ (if (i <? n - 1)%nat then u "," else [])) ->
    fold_left step (combine (seq k (length l)) l) prompt
    = prompt ++ join_with (u ",") (map entry l).
Proof.
  induction l as [|field l IH]; intros k prompt Hn Hstep.
  - cbn. rewrite app_nil_r. reflexivity.
  - cbn [length seq combine fold_left map].
    rewrite (Hstep k field prompt (or_introl eq_refl)).
    rewrite (IH (S k)).
    + cbn [length] in Hn. destruct l as [|field' l].
      * cbn [length] in Hn.
        destruct (Nat.ltb_spec k (n - 1)); [lia|].
        cbn [map join_with]. rewrite !app_nil_r. reflexivity.
      * cbn [length] in Hn.
        destruct (Nat.ltb_spec k (n - 1)); [|lia].
        cbn [map join_with]. rewrite <- !app_assoc. reflexivity.
    + cbn [length] in Hn. lia.
    + intros i f p Hf. apply Hstep. right. exact Hf.
Qed.

(** C8 (amended).  Whatever the document text and the resolved type,
    the prompt is the fixed preamble, then the schema block, then the
    closing directives, and the schema block has one entry per field of
    the type's template, in the template's order, separated by commas.
    An entry is the quoted field name followed, for [risks],
    [recommendations] and the names of the plural list ([obligations],
    [keyTerms], [statements], [facts], [precedents], [legalPrinciples];
    one list, tested by name for every type), by a three-slot sequence,
    and for any other field by a string carrying the field's hint: the
    entry of the type's hint map; without one, for [documentType] and
    [summary] the description derived from the type's name and from the
    template's focus, and for the remaining fields "Relevant <field>
    information for this document type". *)
Theorem schema_follows_template (document_text document_type : pystr) :
  build_prompt document_text document_type
  = prompt_intro ++ document_text
    ++ prompt_type_label ++ str_upper document_type
    ++ prompt_focus_label ++ focus (_get_document_template document_type)
    ++ prompt_mission
    ++ spec_schema document_type
    ++ prompt_closing.
Proof.
  unfold prompt_for_type, enumerate, spec_schema, schema_block.
  rewrite (enumerate_fold_join _ (schema_entry (field_hint document_type))
             (length (fields (_get_document_template document_type)))).
  - rewrite <- !app_assoc. reflexivity.
  - reflexivity.
  - intros i field p Hin. apply schema_step_entry. exact Hin.
Qed.

End Properties.

(** With the reference decoder, a reply other than a fenced reply of a
    single line is parsed to a result unless the decoder runs into the
    recursion limit or into an integer of more than 4300 digits: its
    [RecursionError] or [ValueError] then leaves the parser. *)
Lemma parse_with_reference_decoder
      (str_lower : pystr -> pystr) (depth : nat) (reply : pystr) :
  startswith fence (strip reply) = false
  \/ 2 <= length (split_lines (strip reply)) ->
  match _parse_ai_response str_lower (Json.loads_within depth) reply with
  | Ok _ => True
  | Raise (RecursionError _) | Raise (ValueError _) => True
  | Raise _ => False
  end.
Proof.
  intros Hshape.
  assert (Hbody : forall body,
             match
               match Json.loads_within depth body with
               | Ok parsed_response => Ok parsed_response
               | Raise (JSONDecodeError msg doc pos) =>
                   Ok (fallback_response (decode_error_str msg doc pos) body)
               | Raise e => Raise e
               end
             with
             | Ok _ => True
             | Raise (RecursionError _) | Raise (ValueError _) => True
             | Raise _ => False
             end).
  { intros body. pose proof (loads_total depth body) as Ht.
    destruct (Json.loads_within depth body) as [v|e]; [exact I|].
    destruct e; cbn [decoder_error] in Ht; solve [exact I | contradiction]. }
  unfold _parse_ai_response, strip_code_fence.
  destruct (startswith fence (strip reply)) eqn:Hf.
  - destruct Hshape as [Hshape|Hshape]; [discriminate|].
    destruct (split_lines (strip reply)) as [|l0 [|l1 ls]];
      cbn [length] in Hshape; try lia.
    cbn [nth_error]. apply Hbody.
  - apply Hbody.
Qed.

(* ===================================================================== *)
(** ** Concrete runs *)
(* ===================================================================== *)

(** The template of [judgment], a member of the closed set, has no
    [risks] field. *)
Lemma judgment_template_lacks_risks :
  In (u "judgment") valid_types
  /\ has_field (_get_document_template (u "judgment")) "risks" = false.
Proof. split; [apply str_in_In|]; reflexivity. Qed.

Lemma template_common_fields_witness :
  In (u "lease") valid_types
  /\ has_field (_get_document_template (u "lease")) "documentType" = true
  /\ has_field (_get_document_template (u "lease")) "summary" = true
  /\ has_field (_get_document_template (u "lease")) "recommendations" = true
  /\ has_field (_get_document_template (u "lease")) "risks"
     = negb (str_eqb (u "lease") (u "judgment")).
Proof.
  assert (H : In (u "lease") valid_types) by (apply str_in_In; reflexivity).
  split; [exact H | exact (template_common_fields (u "lease") H)].
Defined.

(** A text of exactly 30,000 characters is analysed untruncated: the
    recorded length is 30,000, not 30,000 plus the marker length. *)
Lemma text_of_threshold_length_is_not_truncated :
  length (Sample.letters 30000) = 30000
  /\ match
       fst (analyze_document Sample.lower Sample.upper Json.loads
              (Sample.oracle_model Sample.lease_oracle)
              Sample.any_path_exists (Sample.extracts (Sample.letters 30000))
              (u "lease.txt") (Sample.start tt))
     with
     | Ok result =>
         documentLength result = Some (PInt 30000)
         /\ documentLength result
            <> Some (PInt (Z.of_nat (30000 + length truncation_marker)))
     | Raise _ => False
     end.
Proof.
  split; [apply repeat_length|].
  vm_compute. split; [reflexivity | discriminate].
Qed.

Lemma document_length_after_truncation_witness :
  Sample.extracts (u "This Lease Agreement is made between") (u "lease.txt")
  = Ok (u "This Lease Agreement is made between")
  /\ match
       fst (analyze_document Sample.lower Sample.upper Json.loads
              (Sample.oracle_model Sample.lease_oracle)
              Sample.any_path_exists
              (Sample.extracts (u "This Lease Agreement is made between"))
              (u "lease.txt") (Sample.start tt))
     with
     | Ok result => documentLength result = Some (PInt 36)
     | Raise _ => False
     end.
Proof.
  split; [reflexivity|].
  destruct (analyze_document Sample.lower Sample.upper Json.loads
              (Sample.oracle_model Sample.lease_oracle)
              Sample.any_path_exists
              (Sample.extracts (u "This Lease Agreement is made between"))
              (u "lease.txt") (Sample.start tt))
    as [[result|e] st'] eqn:Hrun; cbn [fst].
  - apply (document_length_after_truncation
             Sample.lower Sample.upper Json.loads unit
             (Sample.oracle_model Sample.lease_oracle)
             Sample.any_path_exists
             (Sample.extracts (u "This Lease Agreement is made between"))
             (u "lease.txt") (u "This Lease Agreement is made between")
             (Sample.start tt) st' result eq_refl Hrun).
    apply Nat.leb_le. reflexivity.
  - vm_compute in Hrun. discriminate Hrun.
Defined.

Lemma empty_document_fails_fast_witness :
  Sample.any_path_exists (u "blank.txt") = true
  /\ Sample.extracts [32%N; 10%N; 9%N] (u "blank.txt") = Ok [32%N; 10%N; 9%N]
  /\ forallb isspace [32%N; 10%N; 9%N] = true
  /\ analyze_document Sample.lower Sample.upper Json.loads
       Sample.scripted_model Sample.any_path_exists
       (Sample.extracts [32%N; 10%N; 9%N]) (u "blank.txt")
       (Sample.start [Ok (u "lease")])
     = (Raise (ValueError (u "No text could be extracted from the document")),
        Sample.start [Ok (u "lease")]).
Proof.
  repeat (split; [reflexivity|]).
  exact (empty_document_fails_fast
           Sample.lower Sample.upper Json.loads _ Sample.scripted_model
           Sample.any_path_exists (Sample.extracts [32%N; 10%N; 9%N])
           (u "blank.txt") [32%N; 10%N; 9%N] (Sample.start [Ok (u "lease")])
           eq_refl eq_refl eq_refl).
Defined.


(** The fallback keeps the trimmed content, not the reply as received:
    for the reply " x" it holds "x". *)
Lemma raw_response_is_not_the_reply :
  strip_code_fence Sample.lower (u " x") = Ok (u "x")
  /\ Json.loads (u "x") = Raise (JSONDecodeError (u "Expecting value") (u "x") 0)
  /\ match _parse_ai_response Sample.lower Json.loads (u " x") with
     | Ok result =>
         py_getitem result (u "error") = Some (PStr (u "JSON parsing failed"))
         /\ py_getitem result (u "rawResponse") = Some (PStr (u "x"))
         /\ py_getitem result (u "rawResponse")
            <> Some (PStr (spec_raw_response (u " x")))
     | Raise _ => False
     end.
Proof.
  split; [reflexivity|]. split; [reflexivity|].
  vm_compute. split; [reflexivity|]. split; [reflexivity | discriminate].
Qed.

Lemma invalid_json_gives_fallback_witness :
  strip_code_fence Sample.lower (fenced (u "{bad")) = Ok (u "{bad")
  /\ Json.loads (u "{bad")
     = Raise (JSONDecodeError
                (u "Expecting property name enclosed in double quotes")
                (u "{bad") 1)
  /\ exists result,
      _parse_ai_response Sample.lower Json.loads (fenced (u "{bad")) = Ok result
      /\ py_getitem result (u "error") = Some (PStr (u "JSON parsing failed"))
      /\ py_getitem result (u "rawResponse") = Some (PStr (u "{bad")).
Proof.
  split; [reflexivity|]. split; [reflexivity|].
  destruct (invalid_json_gives_fallback
              Sample.lower Json.loads (fenced (u "{bad")) (u "{bad")
              (u "Expecting property name enclosed in double quotes")
              (u "{bad") 1 eq_refl eq_refl)
    as (result & item & Hparse & _ & Herror & _ & _ & Hraw & _).
  exists result. split; [exact Hparse|]. split; [exact Herror | exact Hraw].
Defined.

(** Two replies that are no valid JSON and get no fallback: a thousand
    opening brackets run into the recursion limit, an integer of 4301
    digits into the digit limit, and neither exception is a
    [JSONDecodeError]. *)
Lemma uncaught_decoder_errors :
  _parse_ai_response Sample.lower Json.loads (repeat (Json.ch "[") 1000)
  = Raise (RecursionError (Json.recursion_message "array"))
  /\ _parse_ai_response Sample.lower Json.loads (repeat (Json.ch "1") 4301)
     = Raise (ValueError (Json.int_limit_message 4301)).
Proof.
  split; vm_compute; reflexivity.
Qed.

(** Three replies that parse differently once fenced: one with leading
    whitespace, one whose first line is the word [json], one that is
    itself fenced. *)
Lemma fenced_reply_parses_differently :
  _parse_ai_response Sample.lower Json.loads (fenced (u " x"))
  <> _parse_ai_response Sample.lower Json.loads (u " x")
  /\ _parse_ai_response Sample.lower Json.loads
       (fenced (u "json" ++ newline :: u "{}"))
     <> _parse_ai_response Sample.lower Json.loads
          (u "json" ++ newline :: u "{}")
  /\ _parse_ai_response Sample.lower Json.loads (fenced (fenced (u "{}")))
     <> _parse_ai_response Sample.lower Json.loads (fenced (u "{}")).
Proof.
  repeat split; vm_compute; intros H; discriminate H.
Qed.

Lemma fenced_reply_parses_alike_witness :
  startswith fence (strip (u "{bad")) = false
  /\ str_eqb (Sample.lower (strip (hd [] (split_lines (u "{bad"))))) (u "json")
     = false
  /\ strip (u "{bad") = u "{bad"
  /\ _parse_ai_response Sample.lower Json.loads (fenced (u "{bad"))
     = _parse_ai_response Sample.lower Json.loads (u "{bad").
Proof.
  repeat (split; [reflexivity|]).
  exact (fenced_reply_parses_alike Sample.lower Json.loads (u "{bad")
           eq_refl eq_refl (or_introl eq_refl)).
Defined.

(** A valid reply followed by a newline also parses alike. *)
Lemma fenced_reply_with_trailing_newline :
  _parse_ai_response Sample.lower Json.loads
    (fenced (u "{}" ++ [newline]))
  = _parse_ai_response Sample.lower Json.loads (u "{}" ++ [newline]).
Proof. vm_compute. reflexivity. Qed.

(** The hint map has no entry for the type [general], yet its
    [documentType] entry does not carry the generic hint: it reads
    "Specific type of general document".  The prompt differs from the
    one with the schema as the specification words it. *)
Lemma documentType_hint_is_not_generic :
  In (u "documentType") (fields (_get_document_template (u "general")))
  /\ is_sequence_field (u "documentType") = false
  /\ hint_map_entry (u "general") (u "documentType") = None
  /\ schema_step (_get_document_template (u "general"))
       (json_fields_for (u "general") (_get_document_template (u "general")))
       [] (0, u "documentType")
     = entry_label (u "documentType")
       ++ scalar_instruction (u "Specific type of general document") ++ u ","
  /\ schema_entry (stated_hint (u "general")) (u "documentType")
     = entry_label (u "documentType")
       ++ scalar_instruction
            (u "Relevant documentType information for this document type")
  /\ str_eqb
       (prompt_for_type Sample.upper (u "Service agreement") (u "general"))
       (prompt_intro ++ u "Service agreement"
          ++ prompt_type_label ++ Sample.upper (u "general")
          ++ prompt_focus_label
          ++ focus (_get_document_template (u "general"))
          ++ prompt_mission
          ++ stated_schema (u "general")
          ++ prompt_closing)
     = false.
Proof.
  split; [apply str_in_In; reflexivity|].
  repeat (split; [vm_compute; reflexivity|]).
  vm_compute. reflexivity.
Qed.

(** C7 (the failing case).  The reply "42" is valid JSON and not an
    object: the parser returns the integer 42, which is no mapping, and
    the orchestrator then raises [TypeError] when it stores
    [detectedDocumentType] in it. *)
Theorem bare_number_is_returned_as_is (str_lower : pystr -> pystr) :
  _parse_ai_response str_lower Json.loads (u "42") = Ok (PInt 42)
  /\ is_dict (PInt 42) = false
  /\ fst (analyze_document Sample.lower Sample.upper Json.loads
            Sample.scripted_model Sample.any_path_exists
            (Sample.extracts (u "Service agreement")) (u "a.txt")
            (Sample.start [Ok (u "contract"); Ok (u "contract"); Ok (u "42")]))
     = Raise (TypeError (u "'int' object does not support item assignment")).
Proof.
  split; [reflexivity|]. split; [reflexivity|].
  vm_compute. reflexivity.
Qed.


(* ===================================================================== *)
(** ** Further properties: trimming *)
(* ===================================================================== *)

Lemma lstrip_app_blank (a s : pystr) :
  forallb isspace a = true -> lstrip (a ++ s) = lstrip s.
Proof.
  induction a as [|c a IH]; cbn [app forallb lstrip]; [reflexivity|].
  destruct (isspace c); cbn [andb]; [exact IH | discriminate].
Qed.

Lemma rstrip_blank (b : pystr) : forallb isspace b = true -> rstrip b = [].
Proof.
  induction b as [|c b IH]; cbn [forallb rstrip]; [reflexivity|].
  destruct (isspace c); cbn [andb]; [|discriminate].
  intros H. rewrite (IH H). reflexivity.
Qed.

Lemma rstrip_app_blank (s b : pystr) :
  forallb isspace b = true -> rstrip (s ++ b) = rstrip s.
Proof.
  intros Hb. induction s as [|c s IH]; cbn [app rstrip].
  - apply rstrip_blank. exact Hb.
  - rewrite IH. reflexivity.
Qed.

Lemma lstrip_app (s b : pystr) :
  lstrip (s ++ b) = match lstrip s with [] => lstrip b | t => t ++ b end.
Proof.
  induction s as [|c s IH]; cbn [app lstrip].
  - reflexivity.
  - destruct (isspace c); [exact IH | reflexivity].
Qed.

Lemma rstrip_idempotent (s : pystr) : rstrip (rstrip s) = rstrip s.
Proof.
  induction s as [|c s IH]; cbn [rstrip]; [reflexivity|].
  destruct (rstrip s) as [|x r] eqn:E.
  - destruct (isspace c) eqn:Hc; cbn [rstrip]; [reflexivity|].
    rewrite Hc. reflexivity.
  - change (rstrip (c :: x :: r))
      with (match rstrip (x :: r) with
            | [] => if isspace c then [] else [c]
            | r0 => c :: r0
            end).
    rewrite IH. reflexivity.
Qed.

(** A text without leading whitespace keeps none when its end is
    trimmed. *)
Lemma lstrip_rstrip_fixed (t : pystr) :
  lstrip t = t -> lstrip (rstrip t) = rstrip t.
Proof.
  destruct t as [|c t]; [reflexivity|].
  cbn [lstrip]. destruct (isspace c) eqn:Hc.
  - intros H. exfalso.
    assert (Hlen : length (lstrip t) <= length t).
    { clear. induction t as [|x t IH]; cbn [lstrip length]; [lia|].
      destruct (isspace x); cbn [length]; lia. }
    rewrite H in Hlen. cbn [length] in Hlen. lia.
  - intros _. cbn [rstrip]. destruct (rstrip t); rewrite ?Hc; cbn [lstrip];
      rewrite Hc; reflexivity.
Qed.

Lemma lstrip_idempotent (s : pystr) : lstrip (lstrip s) = lstrip s.
Proof.
  induction s as [|c s IH]; cbn [lstrip]; [reflexivity|].
  destruct (isspace c) eqn:Hc; [exact IH|].
  cbn [lstrip]. rewrite Hc. reflexivity.
Qed.

Lemma strip_idempotent (s : pystr) : strip (strip s) = strip s.
Proof.
  unfold strip.
  rewrite (lstrip_rstrip_fixed (lstrip s) (lstrip_idempotent s)).
  apply rstrip_idempotent.
Qed.

(** Whitespace around a text does not survive trimming. *)
Lemma strip_padded (a s b : pystr) :
  forallb isspace a = true -> forallb isspace b = true ->
  strip (a ++ s ++ b) = strip s.
Proof.
  intros Ha Hb. unfold strip.
  rewrite (lstrip_app_blank a _ Ha), lstrip_app.
  destruct (lstrip s) as [|c t] eqn:E.
  - rewrite (lstrip_blank b Hb). reflexivity.
  - apply rstrip_app_blank. exact Hb.
Qed.

(* ===================================================================== *)
(** ** Further properties: the tables *)
(* ===================================================================== *)

Lemma all_distinct_NoDup (l : list pystr) : all_distinct l = true -> NoDup l.
Proof.
  induction l as [|x l IH]; cbn [all_distinct]; [constructor|].
  rewrite andb_true_iff, negb_true_iff. intros [Hx Hl].
  constructor; [|exact (IH Hl)].
  intros Hin. apply str_in_In in Hin. congruence.
Qed.

(** The template of any type is one of the entries of [templates]. *)
Lemma template_is_an_entry (document_type : pystr) :
  In (_get_document_template document_type) (map snd templates).
Proof.
  unfold _get_document_template.
  destruct (dict_get templates document_type) as [t|] eqn:E.
  - apply dict_get_In in E. apply (in_map snd) in E. exact E.
  - apply (in_map snd templates (u "general", general_template)).
    apply (dict_get_In templates (u "general")). reflexivity.
Qed.

(** X1.  Whatever the requested type, the field names of the template
    returned are pairwise distinct. *)
Theorem template_fields_are_distinct (document_type : pystr) :
  NoDup (fields (_get_document_template document_type)).
Proof.
  apply all_distinct_NoDup.
  generalize (_get_document_template document_type)
             (template_is_an_entry document_type).
  apply Forall_forall. vm_compute.
  repeat (constructor; [reflexivity|]). constructor.
Qed.

(** X2.  The registry has an entry of its own exactly for the labels the
    classifier can return: for a label the template is that entry, for
    any other string it is the entry of [general]. *)
Theorem registry_keys_are_the_labels (document_type : pystr) :
  dict_get templates document_type
  = (if str_in document_type valid_types
     then Some (_get_document_template document_type) else None)
  /\ (if str_in document_type valid_types then True
      else _get_document_template document_type = general_template).
Proof.
  unfold _get_document_template.
  destruct (dict_get templates document_type) as [t|] eqn:E.
  - assert (Hin : In document_type valid_types).
    { apply dict_get_In in E. apply (in_map fst) in E. exact E. }
    apply str_in_In in Hin. rewrite Hin. split; [reflexivity | exact I].
  - destruct (str_in document_type valid_types) eqn:Hin.
    + exfalso. apply str_in_In in Hin.
      exact (dict_get_None _ _ E Hin).
    + split; reflexivity.
Qed.

(** X3.  Every hint of a type's hint map is attached to a field of that
    type's template. *)
Theorem hints_belong_to_template_fields (document_type field hint : pystr) :
  hint_map_entry document_type field = Some hint ->
  In field (fields (_get_document_template document_type)).
Proof.
  unfold hint_map_entry.
  destruct (dict_get enhanced_descriptions document_type) as [hints|] eqn:E;
    [|discriminate].
  intros Hf. apply dict_get_In in E. apply dict_get_In in Hf.
  apply str_in_In.
  revert field hint Hf. revert document_type hints E.
  assert (H : Forall
                (fun entry : pystr * list (pystr * pystr) =>
                   Forall (fun kv : pystr * pystr =>
                             str_in (fst kv)
                               (fields (_get_document_template (fst entry)))
                             = true)
                          (snd entry))
                enhanced_descriptions).
  { vm_compute.
    repeat (constructor; [repeat (constructor; [reflexivity|]); constructor|]).
    constructor. }
  intros document_type hints E field hint Hf.
  rewrite Forall_forall in H. specialize (H _ E). cbn [fst snd] in H.
  rewrite Forall_forall in H. exact (H _ Hf).
Qed.


(* ===================================================================== *)
(** ** Further properties: classifier, parser and orchestrator *)
(* ===================================================================== *)

Section MoreProperties.

Context (str_lower str_upper : pystr -> pystr).
Context (json_loads : pystr -> outcome pyval).
Context (World : Type).
Context (generate_content : pystr -> World -> outcome pystr * World).
Context (path_exists : pystr -> bool).
Context (extract_text_from_file : pystr -> outcome pystr).

Notation detect := (_detect_document_type str_lower generate_content).
Notation build_prompt := (prompt_for_type str_upper).
Notation parse := (_parse_ai_response str_lower json_loads).
Notation strip_fence := (strip_code_fence str_lower).
Notation analyze :=
  (analyze_document str_lower str_upper json_loads generate_content
                    path_exists extract_text_from_file).
Notation detected := (detected_type str_lower generate_content).
Notation next_state := (after_detect generate_content).

(** X4.  The classification prompt holds at most the first 4,000
    characters of the document: its length is the length of that
    excerpt plus the 1,822 characters of the fixed instructions. *)
Theorem detection_prompt_length (document_text : pystr) :
  length (detection_prompt document_text)
  = Nat.min 4000 (length document_text) + 1822.
Proof.
  unfold detection_prompt, slice.
  rewrite !length_app, length_firstn. cbn [skipn].
  rewrite Nat.sub_0_r.
  change (length detection_prompt_head) with 130.
  change (length detection_prompt_tail) with 1692.
  lia.
Qed.

(** X5.  The classifier never looks past the first 4,000 characters:
    two documents that agree on them are classified by the same prompt,
    with the same label and the same final state. *)
Theorem classifier_reads_only_the_excerpt
        (text1 text2 : pystr) (st : state World) :
  firstn 4000 text1 = firstn 4000 text2 ->
  detect text1 st = detect text2 st.
Proof.
  intros H.
  assert (Hp : detection_prompt text1 = detection_prompt text2).
  { unfold detection_prompt, slice. cbn [skipn]. rewrite Nat.sub_0_r, H.
    reflexivity. }
  rewrite !detect_run. unfold detected_type, after_detect.
  rewrite Hp. reflexivity.
Qed.

Lemma truncate_length_bound (document_text : pystr) :
  length (truncate_document document_text) <= 30038.
Proof.
  assert (Hm : length truncation_marker = 38) by reflexivity.
  assert (Hlim : 30038 = max_chars + 38)
    by (apply Nat.eqb_eq; vm_compute; reflexivity).
  rewrite Hlim.
  destruct (Nat.le_gt_cases (length document_text) max_chars) as [H|H].
  - rewrite truncate_short by exact H. lia.
  - rewrite (truncate_long _ H), length_app, length_firstn. lia.
Qed.

(** X6.  The text handed to the prompt synthesizer never exceeds 30,038
    characters, keeps the first 30,000 characters of the document, and
    truncating it again changes nothing. *)
Theorem truncation_is_bounded_and_stable (document_text : pystr) :
  length (truncate_document document_text) <= 30038
  /\ firstn 30000 (truncate_document document_text)
     = firstn 30000 document_text
  /\ truncate_document (truncate_document document_text)
     = truncate_document document_text.
Proof.
  assert (Hm : length truncation_marker = 38) by reflexivity.
  assert (Hlim : 30038 = max_chars + 38)
    by (apply Nat.eqb_eq; vm_compute; reflexivity).
  rewrite Hlim, <- max_chars_value.
  destruct (Nat.le_gt_cases (length document_text) max_chars) as [H|H].
  - rewrite !truncate_short; try exact H.
    repeat split; try reflexivity. lia.
  - rewrite (truncate_long _ H).
    assert (Hf : length (firstn max_chars document_text) = max_chars)
      by (rewrite length_firstn; lia).
    split; [rewrite length_app; lia|].
    assert (Hp : firstn max_chars
                   (firstn max_chars document_text ++ truncation_marker)
                 = firstn max_chars document_text).
    { rewrite firstn_app, Hf, Nat.sub_diag. cbn [firstn].
      rewrite app_nil_r. rewrite firstn_firstn, Nat.min_id. reflexivity. }
    split; [exact Hp|].
    rewrite truncate_long by (rewrite length_app; lia).
    rewrite Hp. reflexivity.
Qed.

(** *** Response parser *)

(** X7.  Whitespace before and after a reply never changes what the
    parser returns. *)
Theorem parser_ignores_surrounding_whitespace (before reply after : pystr) :
  forallb isspace before = true ->
  forallb isspace after = true ->
  parse (before ++ reply ++ after) = parse reply.
Proof.
  intros Hb Ha. unfold _parse_ai_response, strip_code_fence.
  rewrite (strip_padded before reply after Hb Ha). reflexivity.
Qed.

Lemma split_lines_app_newline (a b : pystr) :
  split_lines (a ++ newline :: b) = split_lines a ++ split_lines b.
Proof.
  induction a as [|c a IH]; cbn [app split_lines].
  - rewrite N.eqb_refl. reflexivity.
  - destruct (N.eqb c newline); [rewrite IH; reflexivity|].
    rewrite IH.
    pose proof (split_lines_nonempty a) as Hne.
    destruct (split_lines a); [contradiction | reflexivity].
Qed.

(** Searching downwards finds the highest index that passes the test. *)
Lemma find_from_the_end (test : nat -> bool) (k : nat) :
  forall n,
    k < n -> test k = true ->
    (forall j, k < j -> j < n -> test j = false) ->
    find test (rev (seq 0 n)) = Some k.
Proof.
  induction n as [|n IH]; intros Hk Ht Hafter; [lia|].
  rewrite seq_S, rev_app_distr. cbn [rev app Nat.add find].
  destruct (Nat.eq_dec k n) as [->|Hne].
  - rewrite Ht. reflexivity.
  - rewrite (Hafter n) by lia.
    apply IH; [lia | exact Ht | intros j H1 H2; apply Hafter; lia].
Qed.

Lemma closing_fence_index_found (before after : list pystr) (line : pystr) :
  is_bare_fence line = true ->
  forallb (fun l => negb (is_bare_fence l)) after = true ->
  closing_fence_index (before ++ line :: after) = length before.
Proof.
  intros Hline Hafter. unfold closing_fence_index.
  rewrite (find_from_the_end _ (length before)); [reflexivity | | |].
  - rewrite length_app. cbn [length]. lia.
  - rewrite nth_error_app2, Nat.sub_diag by lia. exact Hline.
  - intros j H1 H2.
    rewrite nth_error_app2 by lia.
    destruct (j - length before) as [|i] eqn:E; [lia|].
    cbn [nth_error].
    destruct (nth_error after i) as [l|] eqn:El; [|reflexivity].
    apply nth_error_In in El.
    rewrite forallb_forall in Hafter. specialize (Hafter l El).
    apply negb_true_iff in Hafter. exact Hafter.
Qed.

(** The lines kept between an opening line and the closing fence. *)
Lemma fenced_lines_content (opening : pystr) (body after : list pystr) :
  body <> [] ->
  str_eqb (str_lower (strip (hd [] body))) (u "json") = false ->
  forallb (fun l => negb (is_bare_fence l)) after = true ->
  match nth_error (opening :: body ++ fence :: after) 1 with
  | None => Raise (IndexError (u "list index out of range"))
  | Some line1 =>
      Ok (join_lines
            (slice (if str_eqb (str_lower (strip line1)) (u "json")
                    then 2 else 1)
                   (closing_fence_index (opening :: body ++ fence :: after))
                   (opening :: body ++ fence :: after)))
  end
  = Ok (join_lines body).
Proof.
  intros Hne Htag Hafter.
  destruct body as [|line1 rest]; [contradiction|].
  cbn [nth_error app hd] in *. rewrite Htag.
  change (opening :: line1 :: rest ++ fence :: after)
    with ((opening :: line1 :: rest) ++ fence :: after).
  rewrite (closing_fence_index_found _ _ fence eq_refl Hafter).
  unfold slice. cbn [length Nat.sub skipn app].
  change (line1 :: rest ++ fence :: after)
    with ((line1 :: rest) ++ fence :: after).
  change (S (length rest)) with (length (line1 :: rest)).
  rewrite firstn_app, Nat.sub_diag, firstn_all. cbn [firstn].
  rewrite app_nil_r. reflexivity.
Qed.

Lemma startswith_app (p s x : pystr) :
  startswith p s = true -> startswith p (s ++ x) = true.
Proof.
  revert s; induction p as [|c p IH]; intros s; [reflexivity|].
  destruct s as [|d s]; cbn [startswith app]; [discriminate|].
  rewrite !andb_true_iff. intros [H1 H2]. split; [exact H1 | exact (IH s H2)].
Qed.

Lemma startswith_fence_head (s : pystr) :
  startswith fence s = true -> exists t, s = 96%N :: t.
Proof.
  destruct s as [|c t]; [discriminate|].
  change (startswith fence (c :: t))
    with (N.eqb 96 c && startswith (u "``") t).
  intros H. apply andb_true_iff in H. destruct H as [H _].
  apply N.eqb_eq in H. subst c. eauto.
Qed.

(** X8.  Whatever follows the opening fence on its line is discarded: a
    reply made of an opening line that begins with a fence, a body and
    a closing fence is unwrapped to the body, provided the first line
    of the body is not the word [json]. *)
Theorem opening_fence_line_is_discarded (opening body : pystr) :
  startswith fence opening = true ->
  forallb (fun c => negb (N.eqb c newline)) opening = true ->
  str_eqb (str_lower (strip (hd [] (split_lines body)))) (u "json") = false ->
  strip_fence (opening ++ newline :: body ++ newline :: fence) = Ok body.
Proof.
  intros Hopen Hline Htag.
  destruct (startswith_fence_head opening Hopen) as [t Ht].
  assert (Hstrip : strip (opening ++ newline :: body ++ newline :: fence)
                   = opening ++ newline :: body ++ newline :: fence).
  { unfold strip. subst opening.
    rewrite <- app_comm_cons, lstrip_head by reflexivity.
    change fence with (u "``" ++ [96%N]).
    change (newline :: u "``" ++ [96%N]) with ((newline :: u "``") ++ [96%N]).
    rewrite (app_assoc body), (app_comm_cons _ _ newline), app_comm_cons.
    rewrite !app_assoc.
    apply rstrip_app_last. reflexivity. }
  unfold strip_code_fence. rewrite Hstrip.
  assert (Hstart : startswith fence
                     (opening ++ newline :: body ++ newline :: fence) = true).
  { apply startswith_app. exact Hopen. }
  rewrite Hstart.
  rewrite (split_lines_app _ _ Hline).
  rewrite split_lines_app_last by reflexivity.
  change (split_lines body ++ [fence]) with (split_lines body ++ fence :: []).
  rewrite (fenced_lines_content opening (split_lines body) []
             (split_lines_nonempty body) Htag eq_refl).
  rewrite join_split_lines. reflexivity.
Qed.

(** X9.  Text after the closing fence is discarded too: when further
    lines follow the closing fence and none of them is a bare fence,
    the reply is still unwrapped to the body. *)
Theorem text_after_closing_fence_is_discarded (opening body trailer : pystr) :
  startswith fence opening = true ->
  forallb (fun c => negb (N.eqb c newline)) opening = true ->
  str_eqb (str_lower (strip (hd [] (split_lines body)))) (u "json") = false ->
  forallb (fun l => negb (is_bare_fence l)) (split_lines trailer) = true ->
  strip (opening ++ newline :: body ++ newline :: fence ++ newline :: trailer)
  = opening ++ newline :: body ++ newline :: fence ++ newline :: trailer ->
  strip_fence
    (opening ++ newline :: body ++ newline :: fence ++ newline :: trailer)
  = Ok body.
Proof.
  intros Hopen Hline Htag Htrailer Hstrip.
  destruct (startswith_fence_head opening Hopen) as [t Ht].
  unfold strip_code_fence. rewrite Hstrip.
  assert (Hstart : startswith fence
                     (opening ++ newline :: body ++ newline
                        :: fence ++ newline :: trailer) = true).
  { apply startswith_app. exact Hopen. }
  rewrite Hstart.
  rewrite (split_lines_app _ _ Hline).
  rewrite split_lines_app_newline.
  rewrite (split_lines_app fence trailer eq_refl).
  rewrite (fenced_lines_content opening (split_lines body)
             (split_lines trailer)
             (split_lines_nonempty body) Htag Htrailer).
  rewrite join_split_lines. reflexivity.
Qed.

(** *** Orchestrator *)

(** How the analysis of a file with usable text ends, read off the
    reply to the analysis prompt. *)
Lemma analyze_valid_input (file_path document_text : pystr) (st : state World) :
  path_exists file_path = true ->
  extract_text_from_file file_path = Ok document_text ->
  str_eqb (strip document_text) [] = false ->
  let document_type := detected document_text st in
  let st1 := next_state document_text st in
  let truncated := truncate_document document_text in
  let prompt := build_prompt truncated (detected truncated st1) in
  let st2 := next_state truncated st1 in
  let st3 :=
    {| world := snd (generate_content prompt (world st2));
       calls := calls st2 ++ [prompt] |} in
  analyze file_path st
  = (match fst (generate_content prompt (world st2)) with
     | Raise e => Raise e
     | Ok reply =>
         if str_eqb reply [] then
           Raise (PlainException (u "No response received from Google Cloud AI"))
         else
           match parse reply with
           | Raise e => Raise e
           | Ok parsed =>
               match py_setitem parsed (u "detectedDocumentType")
                                (PStr document_type) with
               | Raise e => Raise e
               | Ok tagged =>
                   py_setitem tagged (u "analysisMetadata")
                              (analysis_metadata truncated document_type)
               end
           end
     end,
     st3).
Proof.
  intros Hex Htext Hblank. cbv zeta.
  unfold analyze_document. rewrite Hex. cbn [negb].
  unfold bind at 1. unfold lift at 1. rewrite Htext, Hblank.
  unfold bind at 1. rewrite detect_run.
  unfold bind at 1. rewrite create_prompt_run.
  unfold bind at 1. unfold call_model at 1.
  destruct (generate_content
              (build_prompt (truncate_document document_text)
                 (detected (truncate_document document_text)
                           (next_state document_text st)))
              (world (next_state (truncate_document document_text)
                                 (next_state document_text st))))
    as [[reply|e] w3]; cbn [fst snd]; [|reflexivity].
  destruct (str_eqb reply []); [reflexivity|].
  unfold bind, lift, ret.
  destruct (parse reply) as [parsed|e]; [|reflexivity].
  destruct (py_setitem parsed (u "detectedDocumentType")
              (PStr (detected document_text st))) as [tagged|e];
    [|reflexivity].
  destruct (py_setitem tagged (u "analysisMetadata")
              (analysis_metadata (truncate_document document_text)
                 (detected document_text st))); reflexivity.
Qed.

(** X10.  A request costs no model call or exactly three.  Either the
    analysis fails on its input (missing file, extraction error, blank
    text) and leaves the state as it was, or it submits the
    classification prompt twice, word for word, and then the analysis
    prompt, whatever happens afterwards. *)
Theorem analysis_submits_none_or_three_prompts
        (file_path : pystr) (st : state World) :
  (snd (analyze file_path st) = st
   /\ exists e, fst (analyze file_path st) = Raise e)
  \/ (exists document_text document_type : pystr,
         extract_text_from_file file_path = Ok document_text
         /\ In document_type valid_types
         /\ calls (snd (analyze file_path st))
            = calls st ++ [detection_prompt document_text;
                           detection_prompt document_text;
                           build_prompt (truncate_document document_text)
                                        document_type]).
Proof.
  destruct (path_exists file_path) eqn:Hex.
  - destruct (extract_text_from_file file_path) as [document_text|e] eqn:Htext.
    + destruct (str_eqb (strip document_text) []) eqn:Hblank.
      * left. unfold analyze_document, bind, lift, raise.
        rewrite Hex, Htext, Hblank. cbn [negb fst snd]. eauto.
      * right. exists document_text. eexists. split; [reflexivity|].
        split; [apply classify_reply_valid|].
        rewrite (analyze_valid_input _ _ st Hex Htext Hblank).
        cbn [snd calls after_detect].
        rewrite detection_prompt_truncate, <- !app_assoc. reflexivity.
    + left. unfold analyze_document, bind, lift.
      rewrite Hex, Htext. cbn [negb fst snd]. eauto.
  - left. unfold analyze_document, raise. rewrite Hex. cbn [negb fst snd].
    eauto.
Qed.

(** X11.  A failure of the model service is absorbed by the classifier
    but not by the analysis: when every call raises [e], the analysis
    of a file with usable text raises [e], after building its prompt
    for the type [general]. *)
Theorem service_outage_is_fatal
        (file_path document_text : pystr) (e : exn) (st : state World) :
  path_exists file_path = true ->
  extract_text_from_file file_path = Ok document_text ->
  str_eqb (strip document_text) [] = false ->
  (forall prompt w, fst (generate_content prompt w) = Raise e) ->
  fst (analyze file_path st) = Raise e
  /\ last (calls (snd (analyze file_path st))) []
     = build_prompt (truncate_document document_text) (u "general").
Proof.
  intros Hex Htext Hblank Hdown.
  rewrite (analyze_valid_input _ _ st Hex Htext Hblank).
  cbn [fst snd calls]. rewrite Hdown, last_last.
  split; [reflexivity|].
  unfold detected_type. rewrite Hdown. reflexivity.
Qed.

(** X12.  A reply that cannot be decoded does not fail the request:
    when the reply to the analysis prompt is not empty and its
    unfenced content is rejected by the JSON decoder, the analysis
    returns the fallback result, completed with the detected type and
    the metadata. *)
Theorem undecodable_reply_still_returns
        (file_path document_text reply body msg doc : pystr) (pos : nat)
        (st : state World) :
  path_exists file_path = true ->
  extract_text_from_file file_path = Ok document_text ->
  str_eqb (strip document_text) [] = false ->
  fst (generate_content
         (build_prompt (truncate_document document_text)
            (detected (truncate_document document_text)
                      (next_state document_text st)))
         (world (next_state (truncate_document document_text)
                            (next_state document_text st))))
  = Ok reply ->
  str_eqb reply [] = false ->
  strip_fence reply = Ok body ->
  json_loads body = Raise (JSONDecodeError msg doc pos) ->
  exists result,
    fst (analyze file_path st) = Ok result
    /\ py_getitem result (u "error") = Some (PStr (u "JSON parsing failed"))
    /\ py_getitem result (u "rawResponse") = Some (PStr (raw_response body))
    /\ py_getitem result (u "detectedDocumentType")
       = Some (PStr (detected document_text st))
    /\ documentLength result
       = Some (PInt (Z.of_nat (length (truncate_document document_text)))).
Proof.
  intros Hex Htext Hblank Hreply Hne Hfence Hjson.
  rewrite (analyze_valid_input _ _ st Hex Htext Hblank).
  cbn [fst]. rewrite Hreply, Hne.
  unfold _parse_ai_response. rewrite Hfence, Hjson.
  eexists. split; [reflexivity|].
  repeat split; reflexivity.
Qed.

(** X13.  Every result the analysis returns carries a detected type of
    the closed set and the four metadata entries: the length of the
    text handed on, "completed", the model name and the type followed
    by "_specific". *)
Theorem result_carries_type_and_metadata
        (file_path : pystr) (st st' : state World) (result : pyval) :
  analyze file_path st = (Ok result, st') ->
  exists (document_type : pystr) (n : nat),
    In document_type valid_types
    /\ n <= 30038
    /\ py_getitem result (u "detectedDocumentType") = Some (PStr document_type)
    /\ py_getitem result (u "analysisMetadata")
       = Some (PDict
                 [ (u "documentLength", PInt (Z.of_nat n));
                   (u "processingTime", PStr (u "completed"));
                   (u "aiModel", PStr (u "gemini-1.5-flash"));
                   (u "analysisType", PStr (document_type ++ u "_specific")) ]).
Proof.
  intros Hrun.
  destruct (analyze_returns _ _ _ _ _ _ _ _ _ _ _ Hrun)
    as (text & reply & parsed & _ & _ & _ & _ & -> & _).
  exists (detected text st), (length (truncate_document text)).
  split; [apply classify_reply_valid|].
  split; [apply truncate_length_bound|].
  unfold py_getitem. split.
  - rewrite dict_get_set_other by (intros H; discriminate H).
    apply dict_get_set_same.
  - rewrite dict_get_set_same. reflexivity.
Qed.

(** X14.  The orchestrator adds its two entries and touches nothing
    else.  The result comes from the reply of the model to the analysis
    prompt: under every key other than [detectedDocumentType] and
    [analysisMetadata] it has what the parser returned for that reply,
    the same value or none. *)
Theorem result_keeps_the_parsed_entries
        (file_path : pystr) (st st' : state World) (result : pyval) :
  analyze file_path st = (Ok result, st') ->
  exists (document_text reply : pystr) (parsed : list (pystr * pyval)),
    let st1 := next_state document_text st in
    let truncated := truncate_document document_text in
    let prompt := build_prompt truncated (detected truncated st1) in
    let st2 := next_state truncated st1 in
    extract_text_from_file file_path = Ok document_text
    /\ fst (generate_content prompt (world st2)) = Ok reply
    /\ parse reply = Ok (PDict parsed)
    /\ forall key,
        key <> u "detectedDocumentType" ->
        key <> u "analysisMetadata" ->
        py_getitem result key = dict_get parsed key.
Proof.
  intros Hrun.
  destruct (analyze_returns _ _ _ _ _ _ _ _ _ _ _ Hrun)
    as (text & reply & parsed & _ & Htext & Hreply & Hparse & -> & _).
  exists text, reply, parsed. cbv zeta.
  split; [exact Htext|]. split; [exact Hreply|]. split; [exact Hparse|].
  intros key H1 H2. unfold py_getitem.
  rewrite dict_get_set_other by congruence.
  apply dict_get_set_other. congruence.
Qed.

End MoreProperties.

(* ===================================================================== *)
(** ** Further properties: text extraction *)
(* ===================================================================== *)

Lemma rstrip_cons_solid (c : char) (s : pystr) :
  isspace c = false -> rstrip (c :: s) <> [].
Proof.
  intros H. cbn [rstrip]. destruct (rstrip s); [rewrite H|]; discriminate.
Qed.

Lemma rstrip_app_solid (a b : pystr) :
  rstrip b <> [] -> rstrip (a ++ b) = a ++ rstrip b.
Proof.
  intros Hb. induction a as [|x a IH]; [reflexivity|].
  cbn [app rstrip]. rewrite IH.
  destruct (a ++ rstrip b) eqn:E; [|reflexivity].
  apply app_eq_nil in E. destruct E as [_ E]. contradiction.
Qed.

Lemma startswith_self_app (p s : pystr) : startswith p (p ++ s) = true.
Proof.
  induction p as [|c p IH]; [reflexivity|].
  cbn [app startswith]. rewrite N.eqb_refl. exact IH.
Qed.

Lemma startswith_prefix (p s : pystr) :
  startswith p s = true -> exists rest, s = p ++ rest.
Proof.
  revert s; induction p as [|c p IH]; intros s H.
  - exists s. reflexivity.
  - destruct s as [|d s]; [discriminate|]. cbn [startswith] in H.
    apply andb_true_iff in H. destruct H as [H1 H2].
    apply N.eqb_eq in H1. subst d.
    destruct (IH s H2) as [rest ->]. exists rest. reflexivity.
Qed.

(** The characters ['0'] to ['9'] are no whitespace. *)
Lemma digit_is_solid (k : nat) : isspace (N.of_nat (48 + k mod 10)) = false.
Proof.
  assert (H : k mod 10 < 10) by (apply Nat.mod_upper_bound; discriminate).
  destruct (k mod 10) as [|[|[|[|[|[|[|[|[|[|m]]]]]]]]]];
    try reflexivity; lia.
Qed.

Lemma digits_of_head (fuel n : nat) (acc : pystr) :
  (exists d ds, acc = d :: ds /\ isspace d = false) ->
  exists d ds, digits_of fuel n acc = d :: ds /\ isspace d = false.
Proof.
  revert n acc; induction fuel as [|fuel IH]; intros n acc Hacc;
    [exact Hacc|].
  cbn [digits_of].
  assert (Hnew : exists d ds,
             N.of_nat (48 + n mod 10) :: acc = d :: ds /\ isspace d = false)
    by (eexists; eexists; split; [reflexivity | apply digit_is_solid]).
  destruct (n / 10 =? 0)%nat; [exact Hnew | apply IH; exact Hnew].
Qed.

Lemma str_of_nat_head (n : nat) :
  exists d ds, str_of_nat n = d :: ds /\ isspace d = false.
Proof.
  unfold str_of_nat. cbn [digits_of].
  assert (Hnew : exists d ds,
             [N.of_nat (48 + n mod 10)] = d :: ds /\ isspace d = false)
    by (eexists; eexists; split; [reflexivity | apply digit_is_solid]).
  destruct (n / 10 =? 0)%nat; [exact Hnew | apply digits_of_head; exact Hnew].
Qed.

Lemma strip_page_header (d : char) (rest : pystr) :
  isspace d = false ->
  strip (newline :: u "--- Page " ++ d :: rest)
  = u "--- Page " ++ rstrip (d :: rest).
Proof.
  intros Hd. unfold strip.
  change (lstrip (newline :: u "--- Page " ++ d :: rest))
    with (u "--- Page " ++ d :: rest).
  apply rstrip_app_solid, rstrip_cons_solid, Hd.
Qed.

Section ExtractorProperties.

Context (str_lower : pystr -> pystr).
Context (pdf_pages : pystr -> outcome (list (outcome pystr))).
Context (docx_paragraphs : pystr -> outcome (list pystr)).
Context (read_text : pystr -> outcome pystr).

Notation extract :=
  (Extractor.extract_text_from_file str_lower pdf_pages docx_paragraphs
                                    read_text).
Notation extract_pdf := (Extractor._extract_from_pdf pdf_pages).
Notation extract_docx := (Extractor._extract_from_docx docx_paragraphs).
Notation extract_txt := (Extractor._extract_from_txt read_text).
Notation extension file_path := (str_lower (Extractor.path_suffix file_path)).

(** Every reader returns a trimmed text. *)
Lemma readers_trim (file_path text : pystr) :
  extract_pdf file_path = Ok text
  \/ extract_docx file_path = Ok text
  \/ extract_txt file_path = Ok text ->
  strip text = text.
Proof.
  unfold Extractor._extract_from_pdf, Extractor._extract_from_docx,
    Extractor._extract_from_txt.
  intros [H|[H|H]].
  - destruct (pdf_pages file_path) as [pages|e]; [|discriminate].
    destruct (Extractor.pdf_loop (enumerate pages) []); [|discriminate].
    injection H as <-. apply strip_idempotent.
  - destruct (docx_paragraphs file_path); [|discriminate].
    injection H as <-. apply strip_idempotent.
  - destruct (read_text file_path); [|discriminate].
    injection H as <-. apply strip_idempotent.
Qed.

(** X15.  A text that the extraction returns has no whitespace at
    either end, whatever the format of the file. *)
Theorem extracted_text_is_trimmed (file_path text : pystr) :
  extract file_path = Ok text -> strip text = text.
Proof.
  unfold Extractor.extract_text_from_file.
  destruct (str_eqb (extension file_path) (u ".pdf"));
    [intros H; apply (readers_trim file_path); auto|].
  destruct (str_eqb (extension file_path) (u ".docx"));
    [intros H; apply (readers_trim file_path); auto|].
  destruct (str_eqb (extension file_path) (u ".txt"));
    [intros H; apply (readers_trim file_path); auto|].
  discriminate.
Qed.

(** X16.  The ways an extraction can end.  It returns only for the
    extensions .pdf, .docx and .txt (compared in lower case).  For any
    other extension it raises the ValueError that names the extension.
    Whatever a reader raises is replaced by a plain Exception whose
    message starts with the reader's prefix: no other exception class
    leaves the extraction. *)
Theorem extraction_outcomes (file_path : pystr) :
  match extract file_path with
  | Ok _ => In (extension file_path) [u ".pdf"; u ".docx"; u ".txt"]
  | Raise (ValueError msg) =>
      ~ In (extension file_path) [u ".pdf"; u ".docx"; u ".txt"]
      /\ msg = u "Unsupported file format: " ++ extension file_path
                 ++ u ". Please use PDF, DOCX, or TXT files."
  | Raise (PlainException msg) =>
      exists kind,
        In (extension file_path, kind)
           [(u ".pdf", u "PDF"); (u ".docx", u "DOCX"); (u ".txt", u "TXT")]
        /\ startswith (u "Error reading " ++ kind ++ u " file: ") msg = true
  | Raise _ => False
  end.
Proof.
  unfold Extractor.extract_text_from_file.
  destruct (str_eqb (extension file_path) (u ".pdf")) eqn:Epdf.
  { apply str_eqb_eq in Epdf. rewrite Epdf.
    unfold Extractor._extract_from_pdf.
    destruct (pdf_pages file_path) as [pages|e].
    - destruct (Extractor.pdf_loop (enumerate pages) []).
      + left. reflexivity.
      + exists (u "PDF"). split; [left; reflexivity|].
        apply (startswith_self_app (u "Error reading PDF file: ")).
    - exists (u "PDF"). split; [left; reflexivity|].
      apply (startswith_self_app (u "Error reading PDF file: ")). }
  destruct (str_eqb (extension file_path) (u ".docx")) eqn:Edocx.
  { apply str_eqb_eq in Edocx. rewrite Edocx.
    unfold Extractor._extract_from_docx.
    destruct (docx_paragraphs file_path).
    - right. left. reflexivity.
    - exists (u "DOCX"). split; [right; left; reflexivity|].
      apply (startswith_self_app (u "Error reading DOCX file: ")). }
  destruct (str_eqb (extension file_path) (u ".txt")) eqn:Etxt.
  { apply str_eqb_eq in Etxt. rewrite Etxt.
    unfold Extractor._extract_from_txt.
    destruct (read_text file_path).
    - right. right. left. reflexivity.
    - exists (u "TXT"). split; [right; right; left; reflexivity|].
      apply (startswith_self_app (u "Error reading TXT file: ")). }
  split; [|reflexivity].
  apply str_eqb_neq in Epdf, Edocx, Etxt.
  intros [H|[H|[H|[]]]]; congruence.
Qed.

(** *** PDF *)

Lemma pdf_loop_result (pages : list (nat * outcome pystr)) (text result : pystr) :
  Extractor.pdf_loop pages text = Ok result ->
  result = text
  \/ exists page_num page_text rest,
      result = text ++ Extractor.page_block page_num page_text ++ rest.
Proof.
  revert text; induction pages as [|[page_num [page_text|e]] pages IH];
    intros text H; cbn [Extractor.pdf_loop] in H.
  - injection H as <-. left. reflexivity.
  - destruct (str_eqb page_text []); [exact (IH _ H)|].
    right. exists page_num, page_text.
    destruct (IH _ H) as [->|(n & t & rest & ->)].
    + exists []. rewrite app_nil_r. reflexivity.
    + eexists. rewrite <- !app_assoc. reflexivity.
  - discriminate.
Qed.

(** X17.  A text extracted from a PDF is empty or begins with the
    header of a page, [--- Page ]: the text of a page never comes
    without the header before it. *)
Theorem pdf_text_starts_with_a_page_header (file_path text : pystr) :
  extract_pdf file_path = Ok text ->
  text = [] \/ startswith (u "--- Page ") text = true.
Proof.
  unfold Extractor._extract_from_pdf.
  destruct (pdf_pages file_path) as [pages|e]; [|discriminate].
  destruct (Extractor.pdf_loop (enumerate pages) []) as [raw|e] eqn:E;
    [|discriminate].
  intros H. injection H as <-.
  destruct (pdf_loop_result _ _ _ E) as [->|(n & t & rest & ->)];
    [left; reflexivity|].
  right. unfold Extractor.page_block.
  destruct (str_of_nat_head (n + 1)) as (d & ds & -> & Hd).
  cbn [app]. rewrite <- !app_assoc, <- !app_comm_cons.
  rewrite strip_page_header by exact Hd.
  apply startswith_self_app.
Qed.

Lemma enumerate_from_pages {A} (pages : list A) (n : nat) :
  map snd (combine (seq n (length pages)) pages) = pages.
Proof.
  revert n; induction pages as [|p pages IH]; intros n; [reflexivity|].
  cbn [length seq combine map snd]. rewrite IH. reflexivity.
Qed.

Lemma pdf_loop_fails (pages : list (nat * outcome pystr)) (text : pystr) (e : exn) :
  In (Raise e) (map snd pages) ->
  exists e', In (Raise e') (map snd pages)
             /\ Extractor.pdf_loop pages text = Raise e'.
Proof.
  revert text; induction pages as [|[page_num [page_text|e0]] pages IH];
    intros text H; cbn [map snd In] in H.
  - contradiction.
  - destruct H as [H|H]; [discriminate|].
    cbn [Extractor.pdf_loop].
    destruct (str_eqb page_text []).
    + destruct (IH text H) as (e' & Hin & Hrun).
      exists e'. split; [right; exact Hin | exact Hrun].
    + destruct (IH (text ++ Extractor.page_block page_num page_text) H)
        as (e' & Hin & Hrun).
      exists e'. split; [right; exact Hin | exact Hrun].
  - exists e0. split; [left; reflexivity | reflexivity].
Qed.

(** X18.  One page whose text cannot be extracted fails the whole PDF:
    the text of the pages read before it is dropped, and the error of
    a failing page is raised as a plain Exception with the PDF
    prefix. *)
Theorem unreadable_page_fails_the_pdf
        (file_path : pystr) (pages : list (outcome pystr)) (e : exn) :
  pdf_pages file_path = Ok pages ->
  In (Raise e) pages ->
  exists e',
    In (Raise e') pages
    /\ extract_pdf file_path
       = Raise (PlainException (u "Error reading PDF file: " ++ exn_str e')).
Proof.
  intros Hpages Hin. unfold Extractor._extract_from_pdf. rewrite Hpages.
  assert (H : In (Raise e) (map snd (enumerate pages)))
    by (unfold enumerate; rewrite enumerate_from_pages; exact Hin).
  destruct (pdf_loop_fails _ [] _ H) as (e' & Hin' & ->).
  exists e'. split; [|reflexivity].
  unfold enumerate in Hin'. rewrite enumerate_from_pages in Hin'. exact Hin'.
Qed.

Lemma pdf_loop_skips (pages : list (outcome pystr)) (n : nat) (text : pystr) :
  Forall (fun page => page = Ok []) pages ->
  Extractor.pdf_loop (combine (seq n (length pages)) pages) text = Ok text.
Proof.
  intros H. revert n; induction H as [|page pages -> _ IH]; intros n;
    [reflexivity|].
  cbn [length seq combine Extractor.pdf_loop str_eqb]. apply IH.
Qed.

(** *** DOCX *)

Lemma docx_loop_closed (paragraphs : list pystr) (text : pystr) :
  Extractor.docx_loop paragraphs text
  = text ++ concat (map (fun p => p ++ [newline]) (filter has_text paragraphs)).
Proof.
  unfold Extractor.docx_loop.
  revert text; induction paragraphs as [|p paragraphs IH]; intros text;
    cbn [fold_left filter map concat].
  - rewrite app_nil_r. reflexivity.
  - rewrite IH. unfold has_text at 2.
    destruct (str_eqb (strip p) []); cbn [negb map concat]; [reflexivity|].
    rewrite <- !app_assoc. reflexivity.
Qed.

Lemma concat_lines (lines : list pystr) :
  lines <> [] ->
  concat (map (fun p => p ++ [newline]) lines) = join_lines lines ++ [newline].
Proof.
  induction lines as [|l lines IH]; [congruence|]. intros _.
  destruct lines as [|l' lines]; [cbn; rewrite app_nil_r; reflexivity|].
  cbn [map concat]. cbn [map concat] in IH. rewrite IH by discriminate.
  change (join_lines (l :: l' :: lines))
    with (l ++ newline :: join_lines (l' :: lines)).
  rewrite <- !app_assoc. reflexivity.
Qed.

(** X19.  The text of a DOCX file is its paragraphs that have text,
    in their order and one on a line, trimmed as a whole: a paragraph
    of whitespace only leaves no line behind. *)
Theorem docx_text_is_the_paragraphs_with_text
        (file_path : pystr) (paragraphs : list pystr) :
  docx_paragraphs file_path = Ok paragraphs ->
  extract_docx file_path
  = Ok (strip (join_lines (filter has_text paragraphs))).
Proof.
  intros H. unfold Extractor._extract_from_docx. rewrite H.
  rewrite docx_loop_closed. cbn [app].
  destruct (filter has_text paragraphs) as [|p ps] eqn:E; [reflexivity|].
  rewrite concat_lines by discriminate.
  exact (f_equal Ok (strip_padded [] (join_lines (p :: ps)) [newline]
                                   eq_refl eq_refl)).
Qed.

End ExtractorProperties.

(** *** Extraction and analysis together *)

Section ScannedDocuments.

Context (str_lower str_upper : pystr -> pystr).
Context (json_loads : pystr -> outcome pyval).
Context (World : Type).
Context (generate_content : pystr -> World -> outcome pystr * World).
Context (path_exists : pystr -> bool).
Context (pdf_pages : pystr -> outcome (list (outcome pystr))).
Context (docx_paragraphs : pystr -> outcome (list pystr)).
Context (read_text : pystr -> outcome pystr).

(** X20.  A PDF none of whose pages yields text (a scan without a text
    layer) is extracted as the empty text, and its analysis fails with
    the empty-document error before any prompt is submitted. *)
Theorem pdf_without_text_is_rejected
        (file_path : pystr) (pages : list (outcome pystr)) (st : state World) :
  path_exists file_path = true ->
  str_lower (Extractor.path_suffix file_path) = u ".pdf" ->
  pdf_pages file_path = Ok pages ->
  Forall (fun page => page = Ok []) pages ->
  Extractor.extract_text_from_file str_lower pdf_pages docx_paragraphs
    read_text file_path = Ok []
  /\ analyze_document str_lower str_upper json_loads generate_content
       path_exists
       (Extractor.extract_text_from_file str_lower pdf_pages docx_paragraphs
          read_text)
       file_path st
     = (Raise (ValueError (u "No text could be extracted from the document")),
        st).
Proof.
  intros Hex Hext Hpages Hblank.
  assert (Htext : Extractor.extract_text_from_file str_lower pdf_pages
                    docx_paragraphs read_text file_path = Ok []).
  { unfold Extractor.extract_text_from_file. rewrite Hext.
    cbn [str_eqb]. change (str_eqb (u ".pdf") (u ".pdf")) with true.
    cbv iota. unfold Extractor._extract_from_pdf. rewrite Hpages.
    unfold enumerate. rewrite (pdf_loop_skips pages 0 [] Hblank).
    reflexivity. }
  split; [exact Htext|].
  unfold analyze_document. rewrite Hex. cbn [negb].
  unfold bind, lift. rewrite Htext. reflexivity.
Qed.

End ScannedDocuments.

(* ===================================================================== *)
(** ** Further properties: the route [/api/analyze] *)
(* ===================================================================== *)

Section RouteProperties.

Context (str_lower str_upper : pystr -> pystr).
Context (json_loads : pystr -> outcome pyval).
Context (World : Type).
Context (generate_content : pystr -> World -> outcome pystr * World).
Context (FS Content : Type).
Context (mkdir_temp : FS -> outcome unit * FS).
Context (temp_path : pystr -> pystr).
Context (save : pystr -> Content -> FS -> outcome unit * FS).
Context (path_exists : FS -> pystr -> bool).
Context (unlink : pystr -> FS -> outcome unit * FS).
Context (extract_text_from_file : FS -> pystr -> outcome pystr).

Notation route :=
  (Api.analyze_document str_lower str_upper json_loads generate_content
     mkdir_temp temp_path save path_exists unlink extract_text_from_file).
Notation analyze fs :=
  (analyze_document str_lower str_upper json_loads generate_content
                    (path_exists fs) (extract_text_from_file fs)).
Notation status r := (fst (fst (fst r))).
Notation body r := (snd (fst (fst r))).
Notation files_after r := (snd (fst r)).
Notation state_after r := (snd r).

(** The route after the upload is saved: the analysis, then the
    clean-up of the [finally] clause. *)
Lemma route_saved (files : list (pystr * (pystr * Content)))
      (fs fs1 fs2 : FS) (st : state World) (filename : pystr)
      (content : Content) :
  dict_get files (u "document") = Some (filename, content) ->
  filename <> [] ->
  mkdir_temp fs = (Ok tt, fs1) ->
  save (temp_path filename) content fs1 = (Ok tt, fs2) ->
  route true files fs st
  = let cleanup :=
        if path_exists fs2 (temp_path filename)
        then unlink (temp_path filename) fs2 else (Ok tt, fs2) in
    let run := analyze fs2 (temp_path filename) st in
    (match fst cleanup, fst run with
     | Raise e, _ => Api.analysis_failed e
     | Ok _, Raise e => Api.analysis_failed e
     | Ok _, Ok analysis_result =>
         Api.analysis_completed filename analysis_result
     end, snd cleanup, snd run).
Proof.
  intros Hfile Hname Hmk Hsave. unfold Api.analyze_document.
  cbn [negb]. rewrite Hfile.
  apply str_eqb_neq in Hname. rewrite Hname, Hmk, Hsave. cbv zeta.
  destruct (analyze fs2 (temp_path filename) st) as [analysis st'].
  destruct (if path_exists fs2 (temp_path filename)
            then unlink (temp_path filename) fs2 else (Ok tt, fs2))
    as [[[]|e] fs3]; cbn [fst snd]; [|reflexivity].
  destruct analysis; reflexivity.
Qed.

(** X21.  The shapes of a response.  The status is 200, 400 or 500,
    and unless it is 200 the body is an object with the single entry
    [error]. *)
Theorem response_shapes (analyzer_ready : bool)
        (files : list (pystr * (pystr * Content)))
        (fs : FS) (st : state World) :
  let r := route analyzer_ready files fs st in
  (status r = 200 \/ status r = 400 \/ status r = 500)
  /\ (status r <> 200 ->
      exists message, body r = PDict [ (u "error", PStr message) ]).
Proof.
  cbv zeta. unfold Api.analyze_document.
  destruct analyzer_ready; cbn [negb fst snd];
    [|split; [auto | intros _; eexists; reflexivity]].
  destruct (dict_get files (u "document")) as [[filename content]|];
    cbn [fst snd]; [|split; [auto | intros _; eexists; reflexivity]].
  destruct (str_eqb filename []); cbn [fst snd];
    [split; [auto | intros _; eexists; reflexivity]|].
  destruct (mkdir_temp fs) as [[[]|e] fs1]; cbn [fst snd];
    [|split; [auto | intros _; eexists; reflexivity]].
  destruct (save (temp_path filename) content fs1) as [[[]|e] fs2];
    cbn [fst snd]; [|split; [auto | intros _; eexists; reflexivity]].
  destruct (analyze fs2 (temp_path filename) st) as [analysis st'].
  destruct (if path_exists fs2 (temp_path filename)
            then unlink (temp_path filename) fs2 else (Ok tt, fs2))
    as [[[]|e] fs3]; cbn [fst snd];
    [|split; [auto | intros _; eexists; reflexivity]].
  destruct analysis; cbn [fst snd];
    [split; [auto | intros H; contradiction H; reflexivity]
    |split; [auto | intros _; eexists; reflexivity]].
Qed.

(** X22.  A request is rejected with status 400 exactly when the
    analyzer is set and the request has no file under [document] or a
    file with an empty name; a rejected request leaves the file system
    and the model untouched. *)
Theorem rejected_request_touches_nothing (analyzer_ready : bool)
        (files : list (pystr * (pystr * Content)))
        (fs : FS) (st : state World) :
  let r := route analyzer_ready files fs st in
  (status r = 400 <->
   analyzer_ready = true
   /\ (dict_get files (u "document") = None
       \/ exists content, dict_get files (u "document") = Some ([], content)))
  /\ (status r = 400 -> files_after r = fs /\ state_after r = st).
Proof.
  cbv zeta. unfold Api.analyze_document.
  destruct analyzer_ready; cbn [negb fst snd].
  2:{ split; [split; [discriminate | intros [H _]; discriminate H]
             | discriminate]. }
  destruct (dict_get files (u "document")) as [[filename content]|];
    cbn [fst snd]; [|split; [split; auto | auto]].
  destruct (str_eqb filename []) eqn:Hname; cbn [fst snd].
  { apply str_eqb_eq in Hname. subst filename.
    split; [split; [intros _; split; [reflexivity|right; eauto] | auto]
           | auto]. }
  apply str_eqb_neq in Hname.
  assert (Hno : ~ (true = true
                   /\ (Some (filename, content) = None
                       \/ exists content0 : Content,
                           Some (filename, content) = Some ([], content0)))).
  { intros [_ [H|[c H]]]; [discriminate H|].
    injection H as H _. contradiction. }
  destruct (mkdir_temp fs) as [[[]|e] fs1]; cbn [fst snd];
    [|split; [split; [discriminate | intros H; contradiction] | discriminate]].
  destruct (save (temp_path filename) content fs1) as [[[]|e] fs2];
    cbn [fst snd];
    [|split; [split; [discriminate | intros H; contradiction] | discriminate]].
  destruct (analyze fs2 (temp_path filename) st) as [analysis st'].
  destruct (if path_exists fs2 (temp_path filename)
            then unlink (temp_path filename) fs2 else (Ok tt, fs2))
    as [[[]|e] fs3]; cbn [fst snd];
    [|split; [split; [discriminate | intros H; contradiction] | discriminate]].
  destruct analysis; cbn [fst snd];
    split; try discriminate; split; try discriminate; intros H; contradiction.
Qed.

(** X23.  Status 200 means what it says: the upload was saved under
    its temporary path, its analysis returned the result that the body
    carries beside the file name, and the temporary file was there and
    has been unlinked. *)
Theorem success_means_analysed_and_cleaned (analyzer_ready : bool)
        (files : list (pystr * (pystr * Content)))
        (fs : FS) (st : state World) :
  let r := route analyzer_ready files fs st in
  status r = 200 ->
  exists filename content fs1 fs2 analysis_result,
    dict_get files (u "document") = Some (filename, content)
    /\ save (temp_path filename) content fs1 = (Ok tt, fs2)
    /\ analyze fs2 (temp_path filename) st
       = (Ok analysis_result, state_after r)
    /\ path_exists fs2 (temp_path filename) = true
    /\ unlink (temp_path filename) fs2 = (Ok tt, files_after r)
    /\ body r
       = PDict [ (u "message", PStr (u "Analysis completed successfully"));
                 (u "fileName", PStr filename);
                 (u "analysis", analysis_result) ].
Proof.
  cbv zeta. unfold Api.analyze_document.
  destruct analyzer_ready; cbn [negb fst snd]; [|discriminate].
  destruct (dict_get files (u "document")) as [[filename content]|];
    cbn [fst snd]; [|discriminate].
  destruct (str_eqb filename []); cbn [fst snd]; [discriminate|].
  destruct (mkdir_temp fs) as [[[]|e] fs1]; cbn [fst snd]; [|discriminate].
  destruct (save (temp_path filename) content fs1) as [[[]|e] fs2] eqn:Hsave;
    cbn [fst snd]; [|discriminate].
  destruct (analyze fs2 (temp_path filename) st) as [analysis st'] eqn:Hrun.
  assert (Hthere : analysis = Raise (FileNotFoundError
                                       (u "File not found: " ++ temp_path filename))
                   \/ path_exists fs2 (temp_path filename) = true).
  { unfold analyze_document in Hrun.
    destruct (path_exists fs2 (temp_path filename)); [right; reflexivity|].
    left. cbn [negb] in Hrun. unfold raise in Hrun.
    injection Hrun as <- _. reflexivity. }
  destruct (path_exists fs2 (temp_path filename)) eqn:Hex.
  - destruct (unlink (temp_path filename) fs2) as [[[]|e] fs3] eqn:Hun;
      cbn [fst snd]; [|discriminate].
    destruct analysis as [analysis_result|e]; cbn [fst snd]; [|discriminate].
    intros _. exists filename, content, fs1, fs2, analysis_result.
    repeat split; try reflexivity; assumption.
  - destruct Hthere as [->|H]; [|discriminate H].
    cbn [fst snd]. discriminate.
Qed.

(** X24.  The upload does not outlive the request.  When the file
    system operations of the route do not fail, the temporary file is
    gone when the response is sent, whether the analysis returned or
    raised.  ([unlink] is taken to remove the path it is given.) *)
Theorem upload_does_not_outlive_the_request
        (files : list (pystr * (pystr * Content)))
        (fs fs1 fs2 : FS) (st : state World) (filename : pystr)
        (content : Content) :
  (forall path before after,
      unlink path before = (Ok tt, after) -> path_exists after path = false) ->
  dict_get files (u "document") = Some (filename, content) ->
  filename <> [] ->
  mkdir_temp fs = (Ok tt, fs1) ->
  save (temp_path filename) content fs1 = (Ok tt, fs2) ->
  fst (unlink (temp_path filename) fs2) = Ok tt ->
  path_exists (files_after (route true files fs st)) (temp_path filename)
  = false.
Proof.
  intros Hlaw Hfile Hname Hmk Hsave Hun.
  rewrite (route_saved _ _ _ _ _ _ _ Hfile Hname Hmk Hsave).
  cbv zeta. cbn [fst snd].
  destruct (path_exists fs2 (temp_path filename)) eqn:Hex; [|exact Hex].
  apply (Hlaw (temp_path filename) fs2).
  destruct (unlink (temp_path filename) fs2) as [o fs3].
  cbn [fst snd] in *. rewrite Hun. reflexivity.
Qed.

(** X25.  A failure of the clean-up hides the analysis: when [unlink]
    raises, the response is the 500 of that error even if the analysis
    had returned a result, and the prompts of the analysis have been
    submitted all the same. *)
Theorem cleanup_failure_hides_the_result
        (files : list (pystr * (pystr * Content)))
        (fs fs1 fs2 fs3 : FS) (st : state World) (filename : pystr)
        (content : Content) (e : exn) :
  dict_get files (u "document") = Some (filename, content) ->
  filename <> [] ->
  mkdir_temp fs = (Ok tt, fs1) ->
  save (temp_path filename) content fs1 = (Ok tt, fs2) ->
  path_exists fs2 (temp_path filename) = true ->
  unlink (temp_path filename) fs2 = (Raise e, fs3) ->
  route true files fs st
  = ((500, PDict [ (u "error", PStr (u "Analysis failed: " ++ exn_str e)) ]),
     fs3, snd (analyze fs2 (temp_path filename) st)).
Proof.
  intros Hfile Hname Hmk Hsave Hex Hun.
  rewrite (route_saved _ _ _ _ _ _ _ Hfile Hname Hmk Hsave).
  cbv zeta. rewrite Hex, Hun. reflexivity.
Qed.

End RouteProperties.

(** *** Route, extraction and analysis together *)

Section BlankUploads.

Context (str_lower str_upper : pystr -> pystr).
Context (json_loads : pystr -> outcome pyval).
Context (World : Type).
Context (generate_content : pystr -> World -> outcome pystr * World).
Context (FS Content : Type).
Context (mkdir_temp : FS -> outcome unit * FS).
Context (temp_path : pystr -> pystr).
Context (save : pystr -> Content -> FS -> outcome unit * FS).
Context (path_exists : FS -> pystr -> bool).
Context (unlink : pystr -> FS -> outcome unit * FS).
Context (pdf_pages : FS -> pystr -> outcome (list (outcome pystr))).
Context (docx_paragraphs : FS -> pystr -> outcome (list pystr)).
Context (read_text : FS -> pystr -> outcome pystr).

(** X26.  Uploading a text file of whitespace only.  The file is
    saved, read and removed again, no prompt is submitted, and the
    response is the 500 with the empty-document message. *)
Theorem blank_text_upload_is_refused
        (files : list (pystr * (pystr * Content)))
        (fs fs1 fs2 fs3 : FS) (st : state World) (filename text : pystr)
        (content : Content) :
  dict_get files (u "document") = Some (filename, content) ->
  filename <> [] ->
  mkdir_temp fs = (Ok tt, fs1) ->
  save (temp_path filename) content fs1 = (Ok tt, fs2) ->
  path_exists fs2 (temp_path filename) = true ->
  str_lower (Extractor.path_suffix (temp_path filename)) = u ".txt" ->
  read_text fs2 (temp_path filename) = Ok text ->
  forallb isspace text = true ->
  unlink (temp_path filename) fs2 = (Ok tt, fs3) ->
  Api.analyze_document str_lower str_upper json_loads generate_content
    mkdir_temp temp_path save path_exists unlink
    (fun fs => Extractor.extract_text_from_file str_lower (pdf_pages fs)
                 (docx_paragraphs fs) (read_text fs))
    true files fs st
  = ((500,
      PDict [ (u "error",
               PStr (u "Analysis failed: No text could be extracted from the document")) ]),
     fs3, st).
Proof.
  intros Hfile Hname Hmk Hsave Hex Hext Hread Hblank Hun.
  rewrite (route_saved _ _ _ _ _ _ _ _ _ _ _ _ _ files fs fs1 fs2 st
             filename content Hfile Hname Hmk Hsave).
  cbv zeta. rewrite Hex, Hun. cbn [fst snd].
  unfold analyze_document. rewrite Hex. cbn [negb].
  unfold bind, lift.
  unfold Extractor.extract_text_from_file. rewrite Hext.
  change (str_eqb (u ".txt") (u ".pdf")) with false.
  change (str_eqb (u ".txt") (u ".docx")) with false.
  change (str_eqb (u ".txt") (u ".txt")) with true.
  cbv iota. unfold Extractor._extract_from_txt. rewrite Hread.
  rewrite strip_idempotent, (strip_blank text Hblank).
  reflexivity.
Qed.

End BlankUploads.

(* ===================================================================== *)
(** ** Further properties: concrete runs *)
(* ===================================================================== *)

Lemma hints_belong_to_template_fields_witness :
  exists hint,
    hint_map_entry (u "lease") (u "rentAmount") = Some hint
    /\ In (u "rentAmount") (fields (_get_document_template (u "lease"))).
Proof.
  destruct (hint_map_entry (u "lease") (u "rentAmount")) as [hint|] eqn:E.
  - exists hint. split; [reflexivity|].
    exact (hints_belong_to_template_fields (u "lease") (u "rentAmount") hint E).
  - vm_compute in E. discriminate E.
Defined.

Lemma classifier_reads_only_the_excerpt_witness :
  firstn 4000 (Sample.letters 4000 ++ u " lease of a flat")
  = firstn 4000 (Sample.letters 4000 ++ u " last will")
  /\ _detect_document_type Sample.lower
       (Sample.oracle_model Sample.lease_oracle)
       (Sample.letters 4000 ++ u " lease of a flat") (Sample.start tt)
     = _detect_document_type Sample.lower
         (Sample.oracle_model Sample.lease_oracle)
         (Sample.letters 4000 ++ u " last will") (Sample.start tt).
Proof.
  assert (H : firstn 4000 (Sample.letters 4000 ++ u " lease of a flat")
              = firstn 4000 (Sample.letters 4000 ++ u " last will"))
    by (vm_compute; reflexivity).
  split; [exact H|].
  apply classifier_reads_only_the_excerpt. exact H.
Defined.

Lemma parser_ignores_surrounding_whitespace_witness :
  forallb isspace (u "  ") = true
  /\ forallb isspace [newline] = true
  /\ _parse_ai_response Sample.lower Json.loads
       (u "  " ++ u "{}" ++ [newline])
     = _parse_ai_response Sample.lower Json.loads (u "{}").
Proof.
  split; [reflexivity|]. split; [reflexivity|].
  apply parser_ignores_surrounding_whitespace; reflexivity.
Defined.

Lemma opening_fence_line_is_discarded_witness :
  startswith fence (u "```text") = true
  /\ forallb (fun c => negb (N.eqb c newline)) (u "```text") = true
  /\ str_eqb (Sample.lower (strip (hd [] (split_lines (u "{}"))))) (u "json")
     = false
  /\ strip_code_fence Sample.lower
       (u "```text" ++ newline :: u "{}" ++ newline :: fence)
     = Ok (u "{}").
Proof.
  repeat (split; [reflexivity|]).
  apply opening_fence_line_is_discarded; reflexivity.
Defined.

Lemma text_after_closing_fence_is_discarded_witness :
  startswith fence (u "```") = true
  /\ forallb (fun l => negb (is_bare_fence l)) (split_lines (u "Hope this helps"))
     = true
  /\ strip_code_fence Sample.lower
       (u "```" ++ newline :: u "{}" ++ newline
          :: fence ++ newline :: u "Hope this helps")
     = Ok (u "{}").
Proof.
  repeat (split; [reflexivity|]).
  apply text_after_closing_fence_is_discarded; reflexivity.
Defined.

Lemma service_outage_is_fatal_witness :
  Sample.any_path_exists (u "lease.txt") = true
  /\ str_eqb (strip (u "This Lease Agreement is made between")) [] = false
  /\ fst (analyze_document Sample.lower Sample.upper Json.loads
            (Fixture.failing_model (ServiceError (u "503")))
            Sample.any_path_exists
            (Sample.extracts (u "This Lease Agreement is made between"))
            (u "lease.txt") (Sample.start tt))
     = Raise (ServiceError (u "503")).
Proof.
  repeat (split; [reflexivity|]).
  apply (service_outage_is_fatal Sample.lower Sample.upper Json.loads unit
           (Fixture.failing_model (ServiceError (u "503")))
           Sample.any_path_exists
           (Sample.extracts (u "This Lease Agreement is made between"))
           (u "lease.txt") (u "This Lease Agreement is made between")
           (ServiceError (u "503")) (Sample.start tt));
    reflexivity.
Defined.

Lemma undecodable_reply_still_returns_witness :
  strip_code_fence Sample.lower (u "not json") = Ok (u "not json")
  /\ Json.loads (u "not json")
     = Raise (JSONDecodeError (u "Expecting value") (u "not json") 0)
  /\ exists result,
      fst (analyze_document Sample.lower Sample.upper Json.loads
             Sample.scripted_model Sample.any_path_exists
             (Sample.extracts (u "This Lease Agreement is made between"))
             (u "lease.txt")
             (Sample.start [Ok (u "lease"); Ok (u "lease"); Ok (u "not json")]))
      = Ok result
      /\ py_getitem result (u "error") = Some (PStr (u "JSON parsing failed")).
Proof.
  split; [reflexivity|]. split; [reflexivity|].
  destruct (undecodable_reply_still_returns
              Sample.lower Sample.upper Json.loads _
              Sample.scripted_model Sample.any_path_exists
              (Sample.extracts (u "This Lease Agreement is made between"))
              (u "lease.txt") (u "This Lease Agreement is made between")
              (u "not json") (u "not json") (u "Expecting value")
              (u "not json") 0
              (Sample.start [Ok (u "lease"); Ok (u "lease"); Ok (u "not json")])
              eq_refl eq_refl eq_refl eq_refl eq_refl eq_refl eq_refl)
    as (result & Hrun & Herr & _).
  exists result. split; [exact Hrun | exact Herr].
Defined.

Lemma result_carries_type_and_metadata_witness :
  exists result st',
    analyze_document Sample.lower Sample.upper Json.loads
      (Sample.oracle_model Sample.lease_oracle) Sample.any_path_exists
      (Sample.extracts (u "This Lease Agreement is made between"))
      (u "lease.txt") (Sample.start tt)
    = (Ok result, st')
    /\ exists document_type,
        In document_type valid_types
        /\ py_getitem result (u "detectedDocumentType")
           = Some (PStr document_type).
Proof.
  destruct (analyze_document Sample.lower Sample.upper Json.loads
              (Sample.oracle_model Sample.lease_oracle)
              Sample.any_path_exists
              (Sample.extracts (u "This Lease Agreement is made between"))
              (u "lease.txt") (Sample.start tt))
    as [[result|e] st'] eqn:Hrun.
  - exists result, st'. split; [reflexivity|].
    destruct (result_carries_type_and_metadata _ _ _ _ _ _ _ _ _ _ _ Hrun)
      as (document_type & n & Hin & _ & Hty & _).
    exists document_type. split; [exact Hin | exact Hty].
  - vm_compute in Hrun. discriminate Hrun.
Defined.

Lemma result_keeps_the_parsed_entries_witness :
  exists result st',
    analyze_document Sample.lower Sample.upper Json.loads
      (Sample.oracle_model Sample.lease_oracle) Sample.any_path_exists
      (Sample.extracts (u "This Lease Agreement is made between"))
      (u "lease.txt") (Sample.start tt)
    = (Ok result, st')
    /\ exists reply parsed,
        _parse_ai_response Sample.lower Json.loads reply = Ok (PDict parsed)
        /\ py_getitem result (u "summary") = dict_get parsed (u "summary").
Proof.
  destruct (analyze_document Sample.lower Sample.upper Json.loads
              (Sample.oracle_model Sample.lease_oracle)
              Sample.any_path_exists
              (Sample.extracts (u "This Lease Agreement is made between"))
              (u "lease.txt") (Sample.start tt))
    as [[result|e] st'] eqn:Hrun.
  - exists result, st'. split; [reflexivity|].
    destruct (result_keeps_the_parsed_entries _ _ _ _ _ _ _ _ _ _ _ Hrun)
      as (text & reply & parsed & _ & _ & Hparse & Hkeys).
    exists reply, parsed. split; [exact Hparse|].
    apply Hkeys; discriminate.
  - vm_compute in Hrun. discriminate Hrun.
Defined.

Lemma extracted_text_is_trimmed_witness :
  Fixture.extract [(u "notes.txt", u " hello ")] (u "notes.txt")
  = Ok (u "hello")
  /\ strip (u "hello") = u "hello".
Proof.
  split; [reflexivity|].
  apply (extracted_text_is_trimmed Sample.lower Fixture.no_pdf Fixture.no_docx
           (Fixture.read_text [(u "notes.txt", u " hello ")])
           (u "notes.txt")).
  reflexivity.
Defined.

Lemma pdf_text_starts_with_a_page_header_witness :
  Extractor._extract_from_pdf (Fixture.pdf_of [Ok []; Ok (u "Lease")])
    (u "lease.pdf")
  = Ok (u "--- Page 2 ---" ++ newline :: u "Lease")
  /\ (u "--- Page 2 ---" ++ newline :: u "Lease" = []
      \/ startswith (u "--- Page ") (u "--- Page 2 ---" ++ newline :: u "Lease")
         = true).
Proof.
  split; [reflexivity|].
  apply (pdf_text_starts_with_a_page_header
           (Fixture.pdf_of [Ok []; Ok (u "Lease")]) (u "lease.pdf")).
  reflexivity.
Defined.

Lemma unreadable_page_fails_the_pdf_witness :
  In (Raise (ValueError (u "bad page")))
     [Ok (u "Cover"); Raise (ValueError (u "bad page"))]
  /\ exists e,
      Extractor._extract_from_pdf
        (Fixture.pdf_of [Ok (u "Cover"); Raise (ValueError (u "bad page"))])
        (u "lease.pdf")
      = Raise (PlainException (u "Error reading PDF file: " ++ exn_str e)).
Proof.
  assert (Hin : In (Raise (ValueError (u "bad page")))
                   [Ok (u "Cover"); Raise (ValueError (u "bad page"))])
    by (right; left; reflexivity).
  split; [exact Hin|].
  destruct (unreadable_page_fails_the_pdf
              (Fixture.pdf_of
                 [Ok (u "Cover"); Raise (ValueError (u "bad page"))])
              (u "lease.pdf") _ (ValueError (u "bad page")) eq_refl Hin)
    as (e & _ & Hrun).
  exists e. exact Hrun.
Defined.

Lemma docx_text_is_the_paragraphs_with_text_witness :
  Extractor._extract_from_docx
    (Fixture.docx_of [u "Title"; u "  "; u "Body"]) (u "lease.docx")
  = Ok (strip (join_lines (filter has_text [u "Title"; u "  "; u "Body"]))).
Proof.
  apply docx_text_is_the_paragraphs_with_text. reflexivity.
Defined.

Lemma pdf_without_text_is_rejected_witness :
  Sample.lower (Extractor.path_suffix (u "scan.PDF")) = u ".pdf"
  /\ Forall (fun page : outcome pystr => page = Ok []) [Ok []; Ok []]
  /\ analyze_document Sample.lower Sample.upper Json.loads
       (Sample.oracle_model Sample.lease_oracle) Sample.any_path_exists
       (Extractor.extract_text_from_file Sample.lower
          (Fixture.pdf_of [Ok []; Ok []]) Fixture.no_docx
          (Fixture.read_text []))
       (u "scan.PDF") (Sample.start tt)
     = (Raise (ValueError (u "No text could be extracted from the document")),
        Sample.start tt).
Proof.
  assert (Hblank : Forall (fun page : outcome pystr => page = Ok [])
                          [Ok []; Ok []])
    by (repeat constructor).
  split; [reflexivity|]. split; [exact Hblank|].
  apply (pdf_without_text_is_rejected Sample.lower Sample.upper Json.loads unit
           (Sample.oracle_model Sample.lease_oracle) Sample.any_path_exists
           (Fixture.pdf_of [Ok []; Ok []]) Fixture.no_docx
           (Fixture.read_text []) (u "scan.PDF") [Ok []; Ok []]
           (Sample.start tt) eq_refl eq_refl eq_refl Hblank).
Defined.

Lemma success_means_analysed_and_cleaned_witness :
  fst (fst (fst
    (Api.analyze_document Sample.lower Sample.upper Json.loads
       (Sample.oracle_model Sample.lease_oracle)
       Fixture.mkdir_temp Fixture.temp_path Fixture.save Fixture.path_exists
       Fixture.unlink Fixture.extract true
       (Fixture.upload (u "lease.txt")
                       (u "This Lease Agreement is made between"))
       [] (Sample.start tt)))) = 200
  /\ exists fs2 analysis_result,
      Fixture.path_exists fs2 (Fixture.temp_path (u "lease.txt")) = true
      /\ fst (analyze_document Sample.lower Sample.upper Json.loads
                (Sample.oracle_model Sample.lease_oracle)
                (Fixture.path_exists fs2) (Fixture.extract fs2)
                (Fixture.temp_path (u "lease.txt")) (Sample.start tt))
         = Ok analysis_result.
Proof.
  assert (Hok : fst (fst (fst
    (Api.analyze_document Sample.lower Sample.upper Json.loads
       (Sample.oracle_model Sample.lease_oracle)
       Fixture.mkdir_temp Fixture.temp_path Fixture.save Fixture.path_exists
       Fixture.unlink Fixture.extract true
       (Fixture.upload (u "lease.txt")
                       (u "This Lease Agreement is made between"))
       [] (Sample.start tt)))) = 200)
    by (vm_compute; reflexivity).
  split; [exact Hok|].
  destruct (success_means_analysed_and_cleaned
              Sample.lower Sample.upper Json.loads unit
              (Sample.oracle_model Sample.lease_oracle) _ _
              Fixture.mkdir_temp Fixture.temp_path Fixture.save
              Fixture.path_exists Fixture.unlink Fixture.extract true
              (Fixture.upload (u "lease.txt")
                              (u "This Lease Agreement is made between"))
              [] (Sample.start tt) Hok)
    as (filename & content & fs1 & fs2 & analysis_result
        & Hfile & _ & Hrun & Hthere & _).
  injection Hfile as <- _.
  exists fs2, analysis_result. split; [exact Hthere|].
  rewrite Hrun. reflexivity.
Defined.

(** [Fixture.unlink] removes the path it is given. *)
Lemma fixture_unlink_removes (path : pystr) (before after : Fixture.files) :
  Fixture.unlink path before = (Ok tt, after) ->
  Fixture.path_exists after path = false.
Proof.
  unfold Fixture.unlink, Fixture.path_exists, dict_mem.
  intros H. injection H as <-.
  induction before as [|[p c] before IH]; [reflexivity|].
  cbn [Fixture.remove].
  destruct (str_eqb p path) eqn:E; [exact IH|].
  cbn [dict_get]. rewrite E. exact IH.
Qed.

Lemma upload_does_not_outlive_the_request_witness :
  Fixture.path_exists
    (snd (fst
       (Api.analyze_document Sample.lower Sample.upper Json.loads
          (Fixture.failing_model (ServiceError (u "503")))
          Fixture.mkdir_temp Fixture.temp_path Fixture.save
          Fixture.path_exists Fixture.unlink Fixture.extract true
          (Fixture.upload (u "lease.txt")
                          (u "This Lease Agreement is made between"))
          [] (Sample.start tt))))
    (Fixture.temp_path (u "lease.txt"))
  = false.
Proof.
  apply (upload_does_not_outlive_the_request
           Sample.lower Sample.upper Json.loads unit
           (Fixture.failing_model (ServiceError (u "503"))) _ _
           Fixture.mkdir_temp Fixture.temp_path Fixture.save
           Fixture.path_exists Fixture.unlink Fixture.extract
           (Fixture.upload (u "lease.txt")
                           (u "This Lease Agreement is made between"))
           [] []
           [(Fixture.temp_path (u "lease.txt"),
           u "This Lease Agreement is made between")]
           (Sample.start tt) (u "lease.txt")
           (u "This Lease Agreement is made between")
           fixture_unlink_removes eq_refl);
    try reflexivity.
  discriminate.
Defined.

Lemma cleanup_failure_hides_the_result_witness :
  fst (fst (fst
    (Api.analyze_document Sample.lower Sample.upper Json.loads
       (Sample.oracle_model Sample.lease_oracle)
       Fixture.mkdir_temp Fixture.temp_path Fixture.save Fixture.path_exists
       Fixture.locked_unlink Fixture.extract true
       (Fixture.upload (u "lease.txt")
                       (u "This Lease Agreement is made between"))
       [] (Sample.start tt)))) = 500
  /\ fst (analyze_document Sample.lower Sample.upper Json.loads
            (Sample.oracle_model Sample.lease_oracle)
            (Fixture.path_exists
               [(Fixture.temp_path (u "lease.txt"),
                 u "This Lease Agreement is made between")])
            (Fixture.extract
               [(Fixture.temp_path (u "lease.txt"),
                 u "This Lease Agreement is made between")])
            (Fixture.temp_path (u "lease.txt")) (Sample.start tt))
     <> Raise (PlainException (u "Permission denied")).
Proof.
  split.
  - rewrite (cleanup_failure_hides_the_result
               Sample.lower Sample.upper Json.loads unit
               (Sample.oracle_model Sample.lease_oracle) _ _
               Fixture.mkdir_temp Fixture.temp_path Fixture.save
               Fixture.path_exists Fixture.locked_unlink Fixture.extract
               (Fixture.upload (u "lease.txt")
                               (u "This Lease Agreement is made between"))
               [] []
               [(Fixture.temp_path (u "lease.txt"),
                 u "This Lease Agreement is made between")]
               [(Fixture.temp_path (u "lease.txt"),
                 u "This Lease Agreement is made between")]
               (Sample.start tt) (u "lease.txt")
               (u "This Lease Agreement is made between")
               (PlainException (u "Permission denied"))
               eq_refl ltac:(discriminate) eq_refl eq_refl eq_refl eq_refl).
    reflexivity.
  - vm_compute. discriminate.
Defined.

Lemma blank_text_upload_is_refused_witness :
  forallb isspace (u "   ") = true
  /\ Api.analyze_document Sample.lower Sample.upper Json.loads
       (Sample.oracle_model Sample.lease_oracle)
       Fixture.mkdir_temp Fixture.temp_path Fixture.save Fixture.path_exists
       Fixture.unlink
       (fun fs => Extractor.extract_text_from_file Sample.lower
                    Fixture.no_pdf Fixture.no_docx (Fixture.read_text fs))
       true (Fixture.upload (u "blank.txt") (u "   ")) [] (Sample.start tt)
     = ((500,
         PDict [ (u "error",
                  PStr (u "Analysis failed: No text could be extracted from the document")) ]),
        [], Sample.start tt).
Proof.
  split; [reflexivity|].
  apply (blank_text_upload_is_refused
           Sample.lower Sample.upper Json.loads unit
           (Sample.oracle_model Sample.lease_oracle) _ _
           Fixture.mkdir_temp Fixture.temp_path Fixture.save
           Fixture.path_exists Fixture.unlink
           (fun _ => Fixture.no_pdf) (fun _ => Fixture.no_docx)
           Fixture.read_text
           (Fixture.upload (u "blank.txt") (u "   "))
           [] [] [(Fixture.temp_path (u "blank.txt"), u "   ")] []
           (Sample.start tt) (u "blank.txt") (u "   ") (u "   "));
    try reflexivity.
  discriminate.
Defined.
